(** * stage2: building the stage 2 tarball

    A shallow embedding of [stage2.py] (the stage 2 builder of the OSG
    tarball client) and the properties of it that its specification states.

    The program is sequential Python 2 that drives external tools (rpm, yum,
    patch, tar, find, chmod) over a staging directory.  It is embedded as
    state passing over a [World] (current working directory, file system,
    trace of the observable actions) in a monad with Python's exceptions.
    What the program computes itself (strings, paths, lists, the exclude
    list, the version rewrite, the symlink repair) is embedded as executable
    functions; the external tools and the helper modules [common],
    [yumconf] and [envsetup], whose code is not part of [stage2.py], are
    fields of the record [External] and every theorem holds for all of them. *)

From Stdlib Require Import ZArith Ascii String DecimalString.
From stdpp Require Import gmap strings list fin_maps sorting.

Set Default Proof Using "Type".

(* ================================================================== *)
(** * Python strings *)
(* ================================================================== *)

(** A Python 2 [str] is a byte string: [string] here.  [NL] is ["\n"]. *)

Definition NL : string := String "010"%char "".

Definition in_chars (chars : string) (c : ascii) : bool :=
  bool_decide (c ∈ String.list_ascii_of_string chars).

(** [s.startswith(p)]. *)
Definition startswith (p s : string) : bool := String.prefix p s.

(** [s.endswith("/")], for the one character the program asks about. *)
Fixpoint ends_with_char (c : ascii) (s : string) : bool :=
  match s with
  | "" => false
  | String a "" => bool_decide (a = c)
  | String _ s' => ends_with_char c s'
  end.

(** [s.lstrip(chars)]: drops every leading character that is in [chars]. *)
Fixpoint lstrip (chars : string) (s : string) : string :=
  match s with
  | "" => ""
  | String c s' => if in_chars chars c then lstrip chars s' else s
  end.

(** [s.rstrip(chars)]. *)
Fixpoint rstrip (chars : string) (s : string) : string :=
  match s with
  | "" => ""
  | String c s' =>
      match rstrip chars s' with
      | "" => if in_chars chars c then "" else String c ""
      | r => String c r
      end
  end.

(** The characters [str.strip()] and [str.split()] treat as white space. *)
Definition whitespace : string :=
  String "009" (String "010" (String "011" (String "012" (String "013" " ")))).

(** [s.strip()]. *)
Definition strip (s : string) : string := rstrip whitespace (lstrip whitespace s).

(** [s.split()]: the maximal runs of characters that are not white space.
    [cur] is the word being read, if any. *)
Fixpoint split_ws_go (cur : option string) (s : string) : list string :=
  match s with
  | "" => option_list cur
  | String c s' =>
      if in_chars whitespace c
      then option_list cur ++ split_ws_go None s'
      else split_ws_go (Some (from_option (λ w, w +:+ String c "") (String c "") cur)) s'
  end.
Definition split_ws (s : string) : list string := split_ws_go None s.

(** [s.split(sep)] for a one-character separator: never empty. *)
Fixpoint split_on (sep : ascii) (s : string) : list string :=
  match s with
  | "" => [""]
  | String c s' =>
      if bool_decide (c = sep) then "" :: split_on sep s'
      else match split_on sep s' with
           | [] => [String c ""]
           | w :: ws => String c w :: ws
           end
  end.

(** [sep.join(l)]. *)
Definition str_join (sep : string) (l : list string) : string := String.concat sep l.

(** [needle in s]. *)
Fixpoint contains (needle s : string) : bool :=
  String.prefix needle s ||
  match s with
  | "" => false
  | String _ s' => contains needle s'
  end.

(** [fh.readline()] on the text that is left: up to and with the first
    newline, or everything when there is none. *)
Fixpoint readline (s : string) : string :=
  match s with
  | "" => ""
  | String c s' => if bool_decide (c = "010"%char) then String c "" else String c (readline s')
  end.

(** [for line in fh]: the lines, each with its newline but perhaps the last. *)
Fixpoint readlines (s : string) : list string :=
  match s with
  | "" => []
  | String c s' =>
      if bool_decide (c = "010"%char) then String c "" :: readlines s'
      else match readlines s' with
           | [] => [String c ""]
           | l :: ls => String c l :: ls
           end
  end.

(** [str(n)] for an [int]. *)
Definition str_of_int (n : Z) : string := NilZero.string_of_int (Z.to_int n).

(** [cmp(a, b)] on byte strings. *)
Definition cmp (a b : string) : comparison := String.compare a b.

(* ================================================================== *)
(** * os.path (posixpath of Python 2.7) *)
(* ================================================================== *)

Module os_path.

(** [join(a, b)]: an absolute [b] wins; otherwise one slash between. *)
Definition join (a b : string) : string :=
  if startswith "/" b then b
  else if bool_decide (a = "") || ends_with_char "/" a then a +:+ b
  else a +:+ "/" +:+ b.

(** [join(a, *p)]. *)
Definition join_list (a : string) (p : list string) : string := foldl join a p.

(** [split_last_slash p = (p[:i], p[i:])] with [i = p.rfind('/') + 1]. *)
Fixpoint split_last_slash (p : string) : string * string :=
  match p with
  | "" => ("", "")
  | String c p' =>
      match split_last_slash p' with
      | ("", t) => if bool_decide (c = "/"%char) then ("/", p') else ("", String c t)
      | (h, t) => (String c h, t)
      end
  end.

Definition basename (p : string) : string := (split_last_slash p).2.

Fixpoint all_slashes (s : string) : bool :=
  match s with
  | "" => true
  | String c s' => bool_decide (c = "/"%char) && all_slashes s'
  end.

(** [dirname]: the head, without its trailing slashes unless it is the root. *)
Definition dirname (p : string) : string :=
  let head := (split_last_slash p).1 in
  if negb (bool_decide (head = "")) && negb (all_slashes head)
  then rstrip "/" head else head.

Definition isabs (p : string) : bool := startswith "/" p.

(** One turn of the loop of [normpath] over the components. *)
Definition normpath_step (initial_slashes : nat) (new_comps : list string)
    (comp : string) : list string :=
  if bool_decide (comp = "") || bool_decide (comp = ".") then new_comps
  else if negb (bool_decide (comp = ".."))
          || (bool_decide (initial_slashes = 0) && bool_decide (new_comps = []))
          || bool_decide (last new_comps = Some "..")
  then new_comps ++ [comp]
  else removelast new_comps.

Fixpoint repeat_str (s : string) (n : nat) : string :=
  match n with 0 => "" | S n' => s +:+ repeat_str s n' end.

Definition normpath (path : string) : string :=
  if bool_decide (path = "") then "."
  else
    let initial_slashes :=
      if startswith "/" path
      then if startswith "//" path && negb (startswith "///" path) then 2 else 1
      else 0 in
    let comps := foldl (normpath_step initial_slashes) [] (split_on "/" path) in
    let path' := repeat_str "/" initial_slashes +:+ str_join "/" comps in
    if bool_decide (path' = "") then "." else path'.

(** [abspath]; [cwd] is what [os.getcwd()] returns. *)
Definition abspath (cwd path : string) : string :=
  normpath (if isabs path then path else join cwd path).

(** [len(commonprefix([l1, l2]))] on lists of components. *)
Fixpoint common_len (l1 l2 : list string) : nat :=
  match l1, l2 with
  | a :: l1', b :: l2' => if bool_decide (a = b) then S (common_len l1' l2') else 0
  | _, _ => 0
  end.

Definition nonempty_comps (p : string) : list string :=
  filter (λ x, x ≠ "") (split_on "/" p).

(** [relpath(path, start)]; [None] is the ValueError for an empty path. *)
Definition relpath (cwd path start : string) : option string :=
  if bool_decide (path = "") then None
  else
    let start_list := nonempty_comps (abspath cwd start) in
    let path_list := nonempty_comps (abspath cwd path) in
    let i := common_len start_list path_list in
    let rel_list := replicate (length start_list - i) ".." ++ drop i path_list in
    match rel_list with
    | [] => Some "."
    | a :: p => Some (join_list a p)
    end.

End os_path.

(* ================================================================== *)
(** * The world: file system, working directory, trace *)
(* ================================================================== *)

(** What a path names.  Permissions and owners are not modelled. *)
Inductive node :=
  | File (content : string)
  | Dir
  | Symlink (target : string).

Global Instance node_eq_dec : EqDecision node.
Proof. solve_decision. Defined.

(** The file system maps path names to nodes.  A name is looked up as the
    program wrote it (made absolute with the working directory): it is one
    key of the map, and links are followed where the name itself is one;
    the target of a symbolic link is taken from the directory of the link
    and normalised ([link_dest]).  The directories on the way to a name are
    not looked up: the model is of file systems in which they are
    directories themselves, not links to directories. *)
Abbreviation fsys := (gmap string node).

(** The observable actions, in the order they happen. *)
Inductive event :=
  | EvStatus (msg : string)                     (* common.statusmsg *)
  | EvError (msg : string)                      (* common.errormsg *)
  | EvPrint (msg : string)                      (* print *)
  | EvSpawn (argv : list string) (cwd : string). (* a child process *)

Record World := mkWorld {
  w_cwd : string;
  w_fs : fsys;
  w_trace : list event;
}.

Definition set_cwd (d : string) (w : World) : World :=
  mkWorld d (w_fs w) (w_trace w).
Definition set_fs (fs : fsys) (w : World) : World :=
  mkWorld (w_cwd w) fs (w_trace w).
Definition add_event (e : event) (w : World) : World :=
  mkWorld (w_cwd w) (w_fs w) (w_trace w ++ [e]).

(** ** Exceptions *)

(** The command a [CalledProcessError] carries: [check_call] stores the
    argument list, [write_package_list_file] a joined string. *)
Inductive cmdline :=
  | CmdString (s : string)
  | CmdArgv (argv : list string).

Inductive exn :=
  | Error (msg : string)          (* common.Error, the program's own *)
  | CalledProcessError (returncode : Z) (cmd : cmdline)
  | IOError (msg : string)
  | OSError (msg : string)
  | ValueError (msg : string)
  | AssertionError
  | Foreign (name : string).      (* any other class: TypeError, what a helper raises *)

(** [isinstance(e, EnvironmentError)]: IOError and OSError. *)
Definition is_EnvironmentError (e : exn) : bool :=
  match e with IOError _ | OSError _ => true | _ => false end.

(** [isinstance(e, Error)]. *)
Definition is_Error (e : exn) : bool :=
  match e with Error _ => true | _ => false end.

(** [str(err)].  For an [IOError] or [OSError] the operating system puts
    its own words around the path; the model keeps the path alone. *)
Definition str_of_exn (e : exn) : string :=
  match e with
  | Error msg | IOError msg | OSError msg | ValueError msg => msg
  | CalledProcessError _ _ => "Command returned non-zero exit status"
  | AssertionError => ""
  | Foreign name => name
  end.

(** ** The monad *)

Inductive res (A : Type) :=
  | Ret (a : A)
  | Raise (e : exn).
Arguments Ret {A} a.
Arguments Raise {A} e.

Definition M (A : Type) : Type := World → res A * World.

Definition ret {A} (a : A) : M A := λ w, (Ret a, w).
Definition raise {A} (e : exn) : M A := λ w, (Raise e, w).
Definition bind {A B} (m : M A) (k : A → M B) : M B :=
  λ w, match m w with
       | (Ret a, w') => k a w'
       | (Raise e, w') => (Raise e, w')
       end.

Global Instance M_ret : MRet M := @ret.
Global Instance M_bind : MBind M := λ A B k m, bind m k.

(** [try: m except <class> as err: h err]. *)
Definition try_except {A} (m : M A) (catches : exn → bool) (h : exn → M A) : M A :=
  λ w, match m w with
       | (Raise e, w') => if catches e then h e w' else (Raise e, w')
       | r => r
       end.

(** [try: m finally: f].  An exception of [f] replaces that of [m]. *)
Definition try_finally {A} (m : M A) (f : M unit) : M A :=
  λ w, match m w with
       | (r, w') =>
           match f w' with
           | (Ret _, w'') => (r, w'')
           | (Raise e, w'') => (Raise e, w'')
           end
       end.

(** [for x in l: body x]. *)
Fixpoint for_each {A} (l : list A) (body : A → M unit) : M unit :=
  match l with
  | [] => ret tt
  | x :: l' => body x ;; for_each l' body
  end.

Definition get_world : M World := λ w, (Ret w, w).
Definition modify_fs (f : fsys → fsys) : M unit := λ w, (Ret tt, set_fs (f (w_fs w)) w).
Definition emit (e : event) : M unit := λ w, (Ret tt, add_event e w).

(** ** Path lookup *)

Definition link_dest (link target : string) : string :=
  os_path.normpath (os_path.join (os_path.dirname link) target).

(** Follow symbolic links from [p]; [None] after too many (ELOOP). *)
Fixpoint resolve (fuel : nat) (fs : fsys) (p : string) : option string :=
  match fuel with
  | 0 => None
  | S n =>
      match fs !! p with
      | Some (Symlink t) => resolve n fs (link_dest p t)
      | _ => Some p
      end
  end.

Global Arguments resolve : simpl never.

(** Linux follows at most 40 links. *)
Definition MAXSYMLINKS : nat := 40.

Definition stat (fs : fsys) (p : string) : option node :=
  q ← resolve MAXSYMLINKS fs p; fs !! q.

Definition isdir_fs (fs : fsys) (p : string) : bool :=
  bool_decide (stat fs p = Some Dir).
Definition isfile_fs (fs : fsys) (p : string) : bool :=
  match stat fs p with Some (File _) => true | _ => false end.
Definition exists_fs (fs : fsys) (p : string) : bool :=
  bool_decide (is_Some (stat fs p)).
Definition islink_fs (fs : fsys) (p : string) : bool :=
  match fs !! p with Some (Symlink _) => true | _ => false end.

(** The name the kernel looks up for [p] in world [w]. *)
Definition abs_of (w : World) (p : string) : string := os_path.join (w_cwd w) p.

Definition os_path_isdir (p : string) : M bool := λ w, (Ret (isdir_fs (w_fs w) (abs_of w p)), w).
Definition os_path_isfile (p : string) : M bool := λ w, (Ret (isfile_fs (w_fs w) (abs_of w p)), w).
Definition os_path_exists (p : string) : M bool := λ w, (Ret (exists_fs (w_fs w) (abs_of w p)), w).
Definition os_path_islink (p : string) : M bool := λ w, (Ret (islink_fs (w_fs w) (abs_of w p)), w).

Definition os_getcwd : M string := λ w, (Ret (w_cwd w), w).

Definition os_chdir (d : string) : M unit :=
  λ w, if isdir_fs (w_fs w) (abs_of w d)
       then (Ret tt, set_cwd (os_path.abspath (w_cwd w) d) w)
       else (Raise (OSError d), w).

Definition os_path_abspath (p : string) : M string :=
  λ w, (Ret (os_path.abspath (w_cwd w) p), w).

Definition os_path_relpath (path start : string) : M string :=
  λ w, match os_path.relpath (w_cwd w) path start with
       | Some r => (Ret r, w)
       | None => (Raise (ValueError "no path specified"), w)
       end.

Definition os_readlink (p : string) : M string :=
  λ w, match w_fs w !! abs_of w p with
       | Some (Symlink t) => (Ret t, w)
       | _ => (Raise (OSError p), w)
       end.

Definition os_unlink (p : string) : M unit :=
  λ w, match w_fs w !! abs_of w p with
       | Some (File _) | Some (Symlink _) => (Ret tt, set_fs (delete (abs_of w p) (w_fs w)) w)
       | _ => (Raise (OSError p), w)
       end.

(** [os.symlink(target, p)] fails when the name is taken.  The directory
    of the name is not looked at: the program makes a link in place of one
    it has just removed, or in a directory that a theorem about the link
    names. *)
Definition os_symlink (target p : string) : M unit :=
  λ w, match w_fs w !! abs_of w p with
       | None => (Ret tt, set_fs (<[abs_of w p := Symlink target]> (w_fs w)) w)
       | Some _ => (Raise (OSError p), w)
       end.

Definition os_chmod (p : string) (mode : Z) : M unit :=
  λ w, if exists_fs (w_fs w) (abs_of w p) then (Ret tt, w) else (Raise (OSError p), w).

(** ** Files *)

(** An open file is the name its path resolved to when it was opened. *)
Definition open_r (p : string) : M string :=
  λ w, match resolve MAXSYMLINKS (w_fs w) (abs_of w p) with
       | Some q => match w_fs w !! q with
                   | Some (File _) => (Ret q, w)
                   | _ => (Raise (IOError p), w)
                   end
       | None => (Raise (IOError p), w)
       end.

(** Where [open(p, 'w')] and [open(p, 'a')] may create a file: not over a
    directory, and inside an existing directory. *)
Definition writable_at (fs : fsys) (q : string) : bool :=
  match fs !! q with
  | Some (File _) => true
  | None => isdir_fs fs (os_path.dirname q)
  | _ => false
  end.

Definition open_w (p : string) : M string :=
  λ w, match resolve MAXSYMLINKS (w_fs w) (abs_of w p) with
       | Some q => if writable_at (w_fs w) q
                   then (Ret q, set_fs (<[q := File ""]> (w_fs w)) w)
                   else (Raise (IOError p), w)
       | None => (Raise (IOError p), w)
       end.

Definition open_a (p : string) : M string :=
  λ w, match resolve MAXSYMLINKS (w_fs w) (abs_of w p) with
       | Some q => match w_fs w !! q with
                   | Some (File _) => (Ret q, w)
                   | None => if isdir_fs (w_fs w) (os_path.dirname q)
                             then (Ret q, set_fs (<[q := File ""]> (w_fs w)) w)
                             else (Raise (IOError p), w)
                   | _ => (Raise (IOError p), w)
                   end
       | None => (Raise (IOError p), w)
       end.

Definition file_content (fs : fsys) (q : string) : string :=
  match fs !! q with Some (File c) => c | _ => "" end.

(** [fh.read()] of a file just opened. *)
Definition fh_read (fh : string) : M string := λ w, (Ret (file_content (w_fs w) fh), w).

(** [fh.write(s)]: every write of the program is at the end of the file. *)
Definition fh_write (fh : string) (s : string) : M unit :=
  modify_fs (λ fs, <[fh := File (file_content fs fh +:+ s)]> fs).

Definition fh_readline (fh : string) : M string :=
  λ w, (Ret (readline (file_content (w_fs w) fh)), w).

(** [for line in fh]. *)
Definition fh_lines (fh : string) : M (list string) :=
  λ w, (Ret (readlines (file_content (w_fs w) fh)), w).

(** ** Directories *)

Fixpoint strip_prefix (pre s : string) : option string :=
  match pre, s with
  | "", _ => Some s
  | String a pre', String b s' => if bool_decide (a = b) then strip_prefix pre' s' else None
  | _, "" => None
  end.

(** [child_name top k = Some n] when [k] is the entry named [n] of the
    directory [top], that is [k = os.path.join(top, n)]. *)
Definition child_name (top k : string) : option string :=
  n ← strip_prefix (os_path.join top "") k;
  if bool_decide (n ≠ "") && negb (contains "/" n) then Some n else None.

(** The names in a directory, in the order the file system keeps them. *)
Definition listdir_fs (fs : fsys) (top : string) : list string :=
  omap (child_name top) (map_to_list fs).*1.

Definition os_listdir (top : string) : M (list string) :=
  λ w, if isdir_fs (w_fs w) (abs_of w top)
       then (Ret (listdir_fs (w_fs w) (abs_of w top)), w)
       else (Raise (OSError top), w).

(** [k] lies below the directory [top]. *)
Definition below (top k : string) : bool := startswith (os_path.join top "") k.

(** [shutil.rmtree]: refuses links and what is not a directory. *)
Definition shutil_rmtree (p : string) : M unit :=
  λ w, match w_fs w !! abs_of w p with
       | Some Dir =>
           (Ret tt, set_fs (filter (λ kv, ¬ (kv.1 = abs_of w p ∨ below (abs_of w p) kv.1))
                              (w_fs w)) w)
       | _ => (Raise (OSError p), w)
       end.

(** [shutil.copyfile(src, dst)], for two different files: given the same
    file twice the library raises before it opens anything, and the
    theorems about a copy take source and destination to differ. *)
Definition shutil_copyfile (src dst : string) : M unit :=
  fsrc ← open_r src;
  fdst ← open_w dst;
  c ← fh_read fsrc;
  fh_write fdst c.

(** [shutil.copy(src, dst)]: into [dst] when that is a directory. *)
Definition shutil_copy (src dst : string) : M unit :=
  d ← os_path_isdir dst;
  shutil_copyfile src (if d : bool then os_path.join dst (os_path.basename src) else dst).

(** [os.walk(top)] driving the body of a [for root, dirs, files in ...]
    loop.  The generator lists a directory, sorts its entries into [dirs]
    and [nondirs] with [isdir] (which follows links), hands them to the
    loop body, and only then descends into the [dirs] that are not links;
    a directory that cannot be listed is passed over.  [fuel] bounds the
    depth of the descent. *)
Fixpoint os_walk_for (fuel : nat) (top : string)
    (body : string → list string → list string → M unit) : M unit :=
  match fuel with
  | 0 => ret tt
  | S n =>
      listing ← try_except (names ← os_listdir top; ret (Some names))
                   (λ e, match e with OSError _ => true | _ => false end)
                   (λ _, ret None);
      match listing with
      | None => ret tt
      | Some names =>
          w ← get_world;
          let is_dir name := isdir_fs (w_fs w) (abs_of w (os_path.join top name)) in
          let dirs := filter (λ name, is_dir name = true) names in
          let nondirs := filter (λ name, is_dir name ≠ true) names in
          body top dirs nondirs;;
          for_each dirs (λ name,
            let new_path := os_path.join top name in
            l ← os_path_islink new_path;
            if l : bool then ret tt else os_walk_for n new_path body)
      end
  end.

(** No directory lies deeper than the longest path name is long. *)
Definition walk_fuel (fs : fsys) : nat :=
  S (max_list (String.length <$> (map_to_list fs).*1)).

Definition os_walk (top : string)
    (body : string → list string → list string → M unit) : M unit :=
  w ← get_world;
  os_walk_for (walk_fuel (w_fs w)) top body.

(** What is passed where Python takes [None], a string or a list. *)
Inductive pyarg :=
  | ArgNone
  | ArgStr (s : string)
  | ArgList (l : list string).

(** [bool(a)]. *)
Definition truthy (a : pyarg) : bool :=
  match a with
  | ArgNone | ArgStr "" | ArgList [] => false
  | _ => true
  end.

(** [a is None]. *)
Definition is_None (a : pyarg) : bool :=
  match a with ArgNone => true | _ => false end.

Definition items (a : pyarg) : list string :=
  match a with ArgList l => l | _ => [] end.

(* ================================================================== *)
(** * What the program does not contain *)
(* ================================================================== *)

(** What a child process did: its exit status ([None] when it could not be
    started), what it wrote to its standard output, and the file system it
    left.  A child cannot change the working directory of the program. *)
Record proc_result := mkProc {
  pr_status : option Z;
  pr_stdout : string;
  pr_fs : fsys;
}.

(** A helper of another module: from the working directory and the file
    system to a result or an exception, and a file system. *)
Definition helper (A : Type) : Type := string → fsys → res A * fsys.

(** The tools and helper modules the program calls.  Nothing is assumed
    about them. *)
Record External := mkExternal {
  (** a child process: rpm, patch, tar, find, chmod *)
  run_process : list string → string → fsys → proc_result;
  (** glob.glob(pattern) *)
  glob_glob : string → string → fsys → list string;
  (** the name tempfile.mkdtemp() picks *)
  mkdtemp_name : fsys → string;
  (** the %r conversion of a string and of a list of strings *)
  repr : string → string;
  repr_list : list string → string;
  (** common.safe_makedirs(path) *)
  safe_makedirs_helper : string → helper unit;
  (** common.MountProcFS(stage_dir): entering and leaving the block *)
  MountProcFS_enter : string → helper unit;
  MountProcFS_exit : string → option exn → helper bool;
  (** yumconf.YumInstaller(repofile, dver, basearch, extra_repos) *)
  YumInstaller_enter : string → string → string → option (list string) → helper unit;
  YumInstaller_install : string → pyarg → helper unit;
  YumInstaller_exit : option exn → helper bool;
  (** envsetup.write_setup_in_files(dest_dir, dver, basearch) *)
  write_setup_in_files_helper : string → string → string → helper unit;
}.

Definition call_helper {A} (h : helper A) : M A :=
  λ w, match h (w_cwd w) (w_fs w) with (r, fs') => (r, set_fs fs' w) end.

(** [with cm as x: body x].  The block is left through [exit], which gets
    the exception of the body, if any, and may swallow it. *)
Definition with_ {A} (enter : M A) (exit : option exn → M bool) (body : A → M unit) : M unit :=
  a ← enter;
  ((λ w, match body a w with
         | (Ret _, w') => (exit None;; ret tt) w'
         | (Raise e, w') =>
             (swallow ← exit (Some e); if swallow : bool then ret tt else raise e) w'
         end) : M unit).

(** What a function returns that ends in [return True] or falls off its end. *)
Inductive pyvalue :=
  | PyNone
  | PyBool (b : bool).

(** ** Sorting *)

(** [list.sort(cmp=f)] and [sorted]: Python's sort is stable.  [insert_sorted]
    puts [x] before the first element that is not smaller than it, so equal
    elements keep their order. *)
Fixpoint insert_sorted {A} (f : A → A → comparison) (x : A) (l : list A) : list A :=
  match l with
  | [] => [x]
  | y :: l' =>
      match f x y with
      | Gt => y :: insert_sorted f x l'
      | _ => x :: l
      end
  end.

Fixpoint list_sort {A} (f : A → A → comparison) (l : list A) : list A :=
  match l with
  | [] => []
  | x :: l' => insert_sorted f x (list_sort f l')
  end.

Definition sorted (l : list string) : list string := list_sort cmp l.

(* ================================================================== *)
(** * stage2.py *)
(* ================================================================== *)

Section stage2.
Context (X : External).

(** ** Library calls that go through [External] *)

(** A child process is started, recorded, and leaves its file system. *)
Definition spawn (argv : list string) : M (Z * string) :=
  λ w, let r := run_process X argv (w_cwd w) (w_fs w) in
       let w' := add_event (EvSpawn argv (w_cwd w)) (set_fs (pr_fs r) w) in
       match pr_status r with
       | Some rc => (Ret (rc, pr_stdout r), w')
       | None => (Raise (OSError (default "" (head argv))), w')
       end.

(** [subprocess.call(argv)]. *)
Definition subprocess_call (argv : list string) : M Z :=
  r ← spawn argv; ret r.1.

(** [subprocess.check_call(argv)]. *)
Definition subprocess_check_call (argv : list string) : M Z :=
  rc ← subprocess_call argv;
  if bool_decide (rc ≠ 0%Z) then raise (CalledProcessError rc (CmdArgv argv)) else ret 0%Z.

Definition statusmsg (msg : string) : M unit := emit (EvStatus msg).
Definition errormsg (msg : string) : M unit := emit (EvError msg).
Definition print (msg : string) : M unit := emit (EvPrint msg).

Definition safe_makedirs (path : string) : M unit :=
  call_helper (safe_makedirs_helper X path).

Definition glob (pattern : string) : M (list string) :=
  λ w, (Ret (glob_glob X pattern (w_cwd w) (w_fs w)), w).

(** [tempfile.mkdtemp()]. *)
Definition tempfile_mkdtemp : M string :=
  λ w, let d := mkdtemp_name X (w_fs w) in
       match w_fs w !! d with
       | None => (Ret d, set_fs (<[d := Dir]> (w_fs w)) w)
       | Some _ => (Raise (IOError "No usable temporary directory name found"), w)
       end.

(** [%r] of a value that is a string or a list. *)
Definition repr_arg (a : pyarg) : string :=
  match a with
  | ArgNone => "None"
  | ArgStr s => repr X s
  | ArgList l => repr_list X l
  end.

(** ** package_installed *)

Definition package_installed (stage_dir_abs pkg : string) : M bool :=
  rc ← subprocess_call ["rpm"; "--root"; stage_dir_abs; "-q"; pkg];
  ret (bool_decide (rc = 0%Z)).

(** ** get_stage1_rpmlist *)

Definition get_stage1_rpmlist (stage_dir_abs : string) : M (list string) :=
  stage1_rpmlist ← open_r (os_path.join stage_dir_abs "stage1_rpmlist");
  text ← fh_read stage1_rpmlist;
  ret (split_ws (strip text)).

(** ** write_package_list_file *)

Definition rpm_qa_cmd (stage_dir_abs : string) : list string :=
  ["rpm"; "--root"; stage_dir_abs; "-qa"].

(** The first statements: [exclude_list or []], and a string taken as a
    list of one. *)
Definition exclude_arg (exclude_list : pyarg) : pyarg :=
  let exclude_list := if truthy exclude_list then exclude_list else ArgList [] in
  match exclude_list with ArgStr s => ArgList [s] | _ => exclude_list end.

Definition write_package_list_file (stage_dir_abs : string) (exclude_list : pyarg) : M unit :=
  let exclude_list := exclude_arg exclude_list in
  let cmd := rpm_qa_cmd stage_dir_abs in
  proc ← spawn cmd;
  let output := proc.2 in
  let retcode := proc.1 in
  if bool_decide (retcode ≠ 0%Z)
  then raise (CalledProcessError retcode (CmdString (str_join " " cmd)))
  else
    let package_set : gset string := list_to_set (split_ws (strip output)) in
    let exclude_set : gset string := list_to_set (items exclude_list) in
    let package_set := package_set ∖ exclude_set in
    output_fh ← open_w (os_path.join stage_dir_abs "osg/rpm-versions.txt");
    fh_write output_fh (str_join NL (sorted (elements package_set)) +:+ NL).

(** ** install_packages *)

Definition install_packages (stage_dir_abs : string) (packages : pyarg)
    (repofile dver basearch : string) (extra_repos : option (list string)) : M unit :=
  let packages :=
    match packages with ArgStr s => ArgList [s] | _ => packages end in
  with_ (call_helper (MountProcFS_enter X stage_dir_abs))
        (λ e, call_helper (MountProcFS_exit X stage_dir_abs e))
    (λ _,
      with_ (call_helper (YumInstaller_enter X repofile dver basearch extra_repos))
            (λ e, call_helper (YumInstaller_exit X e))
        (λ _, call_helper (YumInstaller_install X stage_dir_abs packages)));;
  (* Check that the packages got installed *)
  match packages with
  | ArgNone => raise (Foreign "TypeError") (* for pkg in None *)
  | _ =>
      for_each (items packages) (λ pkg,
        if startswith "@" pkg then ret tt (* can't check on groups *)
        else
          installed ← package_installed stage_dir_abs pkg;
          if negb installed
          then raise (Error (repr X pkg +:+ " not installed after yum install"))
          else ret tt)
  end.

(** ** _cmp_basename and patch_installed_packages *)

Definition _cmp_basename (left right : string) : comparison :=
  cmp (os_path.basename left) (os_path.basename right).

Definition patch_cmd (patch_file : string) : list string :=
  ["patch"; "-p1"; "--force"; "--input"; patch_file].

(** The patch files of the directories, in the order they are applied. *)
Definition collect_patch_files (patch_dirs_abs : list string) : M (list string) :=
  w ← get_world;
  ret (list_sort _cmp_basename
         (concat ((λ patch_dir_abs,
                     glob_glob X (os_path.join patch_dir_abs "*.patch") (w_cwd w) (w_fs w))
                  <$> patch_dirs_abs))).

(** The body of the loop over the patch files. *)
Definition apply_patch (patch_file : string) : M unit :=
  statusmsg ("Applying patch " +:+ repr X patch_file);;
  err ← subprocess_call (patch_cmd patch_file);
  if bool_decide (err ≠ 0%Z)
  then raise (Error ("patch file " +:+ repr X patch_file +:+ " failed to apply"))
  else ret tt.

Definition patch_installed_packages (stage_dir_abs : string) (patch_dirs : list string)
    (dver : string) : M unit :=
  w ← get_world;
  let patch_dirs_abs := os_path.abspath (w_cwd w) <$> patch_dirs in
  oldwd ← os_getcwd;
  try_finally
    (os_chdir stage_dir_abs;;
     patch_files ← collect_patch_files patch_dirs_abs;
     for_each patch_files apply_patch)
    (os_chdir oldwd).

(** ** fix_osg_version *)

Definition is_version_char (c : ascii) : bool := in_chars "0123456789." c.

(** The length of the longest match of [[0-9.]*] at the start. *)
Fixpoint version_prefix_len (s : string) : nat :=
  match s with
  | "" => 0
  | String c s' => if is_version_char c then S (version_prefix_len s') else 0
  end.

(** [re.match(r'[0-9.]+', s)] finds a match. *)
Definition re_match_version (s : string) : bool :=
  bool_decide (0 < version_prefix_len s).

Fixpoint str_take (n : nat) (s : string) : string :=
  match n, s with
  | S n', String c s' => String c (str_take n' s')
  | _, _ => ""
  end.

Fixpoint str_drop (n : nat) (s : string) : string :=
  match n, s with
  | S n', String _ s' => str_drop n' s'
  | _, _ => s
  end.

(** The match of [^([0-9.]+)(?!-tarball)]: the group takes as much as it
    can and gives back one character at a time while the look-ahead sees
    [-tarball] behind it. *)
Fixpoint sub_group_len (n : nat) (s : string) : option nat :=
  match n with
  | 0 => None
  | S m => if negb (startswith "-tarball" (str_drop n s)) then Some n else sub_group_len m s
  end.

(** [re.sub(r'^([0-9.]+)(?!-tarball)', r'\1-tarball' + _relnum, s)]: the
    pattern can only match at the start, so at most once. *)
Definition re_sub_tarball (_relnum s : string) : string :=
  match sub_group_len (version_prefix_len s) s with
  | Some n => str_take n s +:+ "-tarball" +:+ _relnum +:+ str_drop n s
  | None => s
  end.

(** The new first line: as it is when it says [tarball], else rewritten. *)
Definition new_version_str (_relnum version_str : string) : string :=
  if contains "tarball" version_str then version_str
  else re_sub_tarball _relnum version_str.

(** The local [_relnum]: empty unless a release number is given. *)
Definition _relnum (relnum : Z) : string :=
  if bool_decide (relnum ≠ 0%Z) then "-" +:+ str_of_int relnum else "".

Definition fix_osg_version (stage_dir_abs : string) (relnum : Z) : M unit :=
  let osg_version_path := os_path.join stage_dir_abs "etc/osg-version" in
  let _relnum := _relnum relnum in
  new_version_str ←
    (osg_version_fh ← open_r osg_version_path;
     version_str ← fh_readline osg_version_fh;
     if bool_decide (version_str = "")
     then raise (Error ("Could not read version string from " +:+ repr X osg_version_path))
     else if negb (re_match_version version_str)
     then raise (Error (repr X osg_version_path +:+ " does not contain version"))
     else ret (new_version_str _relnum version_str));
  osg_version_write_fh ← open_w osg_version_path;
  fh_write osg_version_write_fh new_version_str.

(** ** fix_gsissh_config_dir *)

Definition fix_gsissh_config_dir (stage_dir_abs : string) : M unit :=
  d ← os_path_isdir (os_path.join stage_dir_abs "etc/gsissh");
  if negb d then ret tt
  else
    try_except
      (let usr_etc := os_path.join stage_dir_abs "usr/etc" in
       safe_makedirs usr_etc;;
       os_symlink "../../etc/gsissh" (os_path.join usr_etc "ssh"))
      is_EnvironmentError
      (λ err, raise (Error ("unable to fix gsissh config dir: " +:+ str_of_exn err))).

(** ** copy_osg_post_scripts *)

Definition copy_osg_post_scripts (stage_dir_abs post_scripts_dir dver basearch : string)
    : M unit :=
  d ← os_path_isdir post_scripts_dir;
  if negb d
  then raise (Error ("script directory (" +:+ repr X post_scripts_dir +:+ ") not found"))
  else
    post_scripts_dir_abs ← os_path_abspath post_scripts_dir;
    let dest_dir := os_path.join stage_dir_abs "osg" in
    safe_makedirs dest_dir;;
    for_each ["osg-post-install"; "osgrun.in"] (λ script_name,
      let script_path := os_path.join post_scripts_dir_abs script_name in
      let dest_path := os_path.join dest_dir script_name in
      try_except
        (shutil_copyfile script_path dest_path;;
         os_chmod dest_path 493)
        is_EnvironmentError
        (λ err, raise (Error ("unable to copy script (" +:+ repr X script_path +:+ ") to ("
                              +:+ repr X dest_dir +:+ "): " +:+ str_of_exn err))));;
    try_except
      (call_helper (write_setup_in_files_helper X dest_dir dver basearch))
      is_EnvironmentError
      (λ err, raise (Error
         ("unable to create environment script templates (setup.csh.in, setup.sh.in): "
          +:+ str_of_exn err))).

(** ** _write_exclude_list *)

(** What is written for one line of the stage 1 file list. *)
Definition exclude_line (prepend_dir line : string) : string :=
  os_path.join prepend_dir (lstrip "./" line).

(** What is written for one of the extra excludes. *)
Definition exclude_extra (prepend_dir excl : string) : string :=
  os_path.join prepend_dir excl +:+ NL.

Definition _write_exclude_list (stage1_filelist_path exclude_list_path prepend_dir : string)
    (extra_excludes : list string) : M unit :=
  (if bool_decide (stage1_filelist_path ≠ exclude_list_path) then ret tt
   else raise AssertionError);;
  (in_fh ← open_r stage1_filelist_path;
   out_fh ← open_w exclude_list_path;
   lines ← fh_lines in_fh;
   for_each lines (λ line, fh_write out_fh (exclude_line prepend_dir line)));;
  if truthy (ArgList extra_excludes)
  then
    out_fh ← open_a exclude_list_path;
    for_each extra_excludes (λ excl, fh_write out_fh (exclude_extra prepend_dir excl))
  else ret tt.

(** ** tar_stage_dir *)

Definition excludes : list string :=
  ["var/log/yum.log";
   "tmp/*";
   "var/cache/yum/*";
   "var/lib/rpm/*";
   "var/lib/yum/*";
   "var/tmp/*";
   "dev/*";
   "proc/*";
   "etc/rc.d/rc?.d";
   "etc/alternatives";
   "var/lib/alternatives";
   "usr/bin/[[]";
   "usr/share/man/man1/[[].1.gz";
   "bin/dbus*";
   "lib/libcap*";
   "lib/dbus*";
   "lib/security/pam*.so";
   "lib64/libcap*";
   "lib64/dbus*";
   "lib64/security/pam*.so";
   "usr/bin/gnome*";
   "*~";
   "stage1_rpmlist"].

Definition tar_stage_dir (stage_dir_abs tarball : string) : M unit :=
  tarball_abs ← os_path_abspath tarball;
  let stage_dir_parent := os_path.dirname stage_dir_abs in
  let stage_dir_base := os_path.basename stage_dir_abs in
  let cmd := ["tar"; "-C"; stage_dir_parent; "-czf"; tarball_abs; stage_dir_base] in
  let stage1_filelist := os_path.join stage_dir_abs "stage1_filelist" in
  is_file ← os_path_isfile stage1_filelist;
  cmd ← (if is_file : bool
         then
           let exclude_list := os_path.join stage_dir_parent "exclude_list" in
           _write_exclude_list stage1_filelist exclude_list stage_dir_base excludes;;
           ret (cmd ++ ["--exclude-from=" +:+ exclude_list])
         else ret cmd);
  err ← subprocess_call cmd;
  if bool_decide (err ≠ 0%Z)
  then raise (Error ("unable to create tarball (" +:+ repr X tarball_abs
                     +:+ ") from stage 2 dir (" +:+ repr X stage_dir_abs +:+ ")"))
  else ret tt.

(** ** fix_alternatives_symlinks *)

(** The body of the inner loop, for the file [afile] of directory [root]. *)
Definition fix_alternatives_symlink (stage_dir_abs root afile : string) : M unit :=
  let afilepath := os_path.join root afile in
  is_link ← os_path_islink afilepath;
  if negb is_link then ret tt
  else
    linkpath ← os_readlink afilepath;
    if negb (startswith "/etc/alternatives" linkpath) then ret tt
    else
      let stage_linkpath := os_path.join stage_dir_abs (lstrip "/" linkpath) in
      is_link ← os_path_islink stage_linkpath;
      if negb is_link
      then print ("broken symlink to alternatives? " +:+ afilepath +:+ " -> " +:+ stage_linkpath)
      else
        alternatives_linkpath ← os_readlink stage_linkpath;
        let stage_alternatives_linkpath :=
          os_path.join stage_dir_abs (lstrip "/" alternatives_linkpath) in
        found ← os_path_exists stage_alternatives_linkpath;
        if negb found
        then print ("broken symlink from alternatives? " +:+ stage_linkpath +:+ " -> "
                    +:+ stage_alternatives_linkpath)
        else
          new_linkpath ← os_path_relpath stage_alternatives_linkpath
                            (os_path.dirname afilepath);
          os_unlink afilepath;;
          os_symlink new_linkpath afilepath.

Definition fix_alternatives_symlinks (stage_dir_abs : string) : M unit :=
  os_walk (os_path.join stage_dir_abs "usr") (λ root dirs files,
    for_each files (fix_alternatives_symlink stage_dir_abs root)).

(** ** fix_permissions *)

Definition fix_permissions (stage_dir_abs : string) : M Z :=
  subprocess_call ["chmod"; "-R"; "u+rwX"; stage_dir_abs].

(** ** remove_empty_dirs_from_tarball *)

Definition remove_empty_dirs_from_tarball (tarball topdir : string)
    (recreate_dirs : list string) : M unit :=
  tarball_abs ← os_path_abspath tarball;
  let tarball_base := os_path.basename tarball in
  extract_dir ← tempfile_mkdtemp;
  oldcwd ← os_getcwd;
  try_finally
    (os_chdir extract_dir;;
     subprocess_check_call ["tar"; "-xzf"; tarball_abs];;
     subprocess_call ["find"; topdir; "-type"; "d"; "-empty"; "-delete"];;
     (* hack to preserve these directories *)
     for_each recreate_dirs (λ rdir,
       safe_makedirs (os_path.join topdir (lstrip "/" rdir)));;
     subprocess_check_call ["tar"; "-czf"; tarball_base; topdir];;
     shutil_copy tarball_base tarball_abs)
    (os_chdir oldcwd;;
     shutil_rmtree extract_dir).

(** ** make_stage2_tarball *)

Section make_stage2_tarball.
Context (stage_dir : string) (packages : pyarg) (tarball : string) (patch_dirs : pyarg)
  (post_scripts_dir repofile dver basearch : string) (relnum : Z)
  (extra_repos : option (list string)).

(** ["[%r,%r]: %s" % (dver, basearch, msg)]. *)
Definition _statusmsg_text (msg : string) : string :=
  "[" +:+ repr X dver +:+ "," +:+ repr X basearch +:+ "]: " +:+ msg.

Definition _statusmsg (msg : string) : M unit :=
  statusmsg (_statusmsg_text msg).

(** The steps up to the reading of the stage 1 package list. *)
Definition stage2_steps_fixups (stage_dir_abs : string) : M (list string) :=
  _statusmsg ("Installing packages " +:+ repr_arg packages);;
  install_packages stage_dir_abs packages repofile dver basearch extra_repos;;

  (if negb (is_None patch_dirs)
   then
     let patch_dirs :=
       match patch_dirs with ArgStr s => ArgList [s] | _ => patch_dirs end in
     _statusmsg ("Patching packages using " +:+ repr_arg patch_dirs);;
     patch_installed_packages stage_dir_abs (items patch_dirs) dver
   else ret tt);;

  installed ← package_installed stage_dir_abs "gsi-openssh";
  (if installed : bool
   then _statusmsg "Fixing gsissh config dir (if needed)";;
        fix_gsissh_config_dir stage_dir_abs
   else ret tt);;

  installed ← package_installed stage_dir_abs "osg-version";
  (if installed : bool
   then _statusmsg "Fixing osg-version";;
        fix_osg_version stage_dir_abs relnum
   else ret tt);;

  _statusmsg "Fixing broken /etc/alternatives symlinks";;
  fix_alternatives_symlinks stage_dir_abs;;

  _statusmsg ("Copying OSG scripts from " +:+ repr X post_scripts_dir);;
  copy_osg_post_scripts stage_dir_abs post_scripts_dir dver basearch;;

  get_stage1_rpmlist stage_dir_abs.

(** The steps from the writing of the package list on. *)
Definition stage2_steps_packaging (stage_dir_abs : string) (stage1_rpmlist : list string)
    : M pyvalue :=
  _statusmsg "Writing package list to osg/rpm-versions.txt";;
  write_package_list_file stage_dir_abs (ArgList stage1_rpmlist);;

  _statusmsg "Fixing permissions";;
  fix_permissions stage_dir_abs;;

  _statusmsg ("Creating tarball " +:+ repr X tarball);;
  tar_stage_dir stage_dir_abs tarball;;

  _statusmsg "Removing empty dirs from tarball";;
  let recreate_dirs := ["var/lib/osg-ca-certs"] in
  installed ← package_installed stage_dir_abs "fetch-crl";
  let recreate_dirs :=
    if installed : bool then recreate_dirs ++ ["etc/fetch-crl.d"] else recreate_dirs in
  remove_empty_dirs_from_tarball tarball (os_path.basename stage_dir) recreate_dirs;;

  ret (PyBool true).

(** The block under [try:]. *)
Definition stage2_steps (stage_dir_abs : string) : M pyvalue :=
  stage1_rpmlist ← stage2_steps_fixups stage_dir_abs;
  stage2_steps_packaging stage_dir_abs stage1_rpmlist.

(** The handler ends with the call of [errormsg]: the function falls off
    its end there, and a Python function that does so returns [None]. *)
Definition make_stage2_tarball : M pyvalue :=
  _statusmsg ("Making stage2 tarball in " +:+ repr X stage_dir);;
  stage_dir_abs ← os_path_abspath stage_dir;
  try_except (stage2_steps stage_dir_abs)
    is_Error
    (λ err, errormsg (str_of_exn err);; ret PyNone).

End make_stage2_tarball.

End stage2.

(* ================================================================== *)
(** * Tools and worlds of the examples *)
(* ================================================================== *)

(** Tools that always succeed and touch nothing. *)
Definition quiet_tools : External := {|
  run_process argv cwd fs := mkProc (Some 0%Z) "" fs;
  glob_glob pat cwd fs := [];
  mkdtemp_name fs := "/tmp/tmpXYZ";
  repr s := "'" +:+ s +:+ "'";
  repr_list l := "[" +:+ str_join ", " ((λ s, "'" +:+ s +:+ "'") <$> l) +:+ "]";
  safe_makedirs_helper p cwd fs := (Ret tt, fs);
  MountProcFS_enter s cwd fs := (Ret tt, fs);
  MountProcFS_exit s e cwd fs := (Ret false, fs);
  YumInstaller_enter _ _ _ _ cwd fs := (Ret tt, fs);
  YumInstaller_install _ _ cwd fs := (Ret tt, fs);
  YumInstaller_exit _ cwd fs := (Ret false, fs);
  write_setup_in_files_helper _ _ _ cwd fs := (Ret tt, fs);
|}.

(** A staging root [/build/stage2] that holds only the version file. *)
Definition version_world (content : string) : World :=
  mkWorld "/build" (<["/build/stage2/etc/osg-version" := File content]> ∅) [].

(** No newline in a string. *)
Fixpoint no_nl (s : string) : bool :=
  match s with
  | "" => true
  | String c s' => negb (bool_decide (c = "010"%char)) && no_nl s'
  end.

(** The comparison a sort by a key is given: [cmp] on the keys. *)
Definition by_key {A} (key : A → string) (x y : A) : comparison := cmp (key x) (key y).

(** [x] does not come after [y] in the order of the keys. *)
Definition key_le {A} (key : A → string) (x y : A) : Prop := by_key key x y ≠ Gt.

(** A staging root with the directory of the manifest. *)
Definition manifest_world : World :=
  mkWorld "/build"
    (list_to_map [("/build/stage2", Dir); ("/build/stage2/osg", Dir)]) [].

(** Tools of which [rpm -qa] lists three packages. *)
Definition rpm_tools : External := {|
  run_process argv cwd fs :=
    mkProc (Some 0%Z) ("a-1-1" +:+ NL +:+ "b-2-1" +:+ NL +:+ "c-3-1" +:+ NL) fs;
  glob_glob := glob_glob quiet_tools;
  mkdtemp_name := mkdtemp_name quiet_tools;
  repr := repr quiet_tools;
  repr_list := repr_list quiet_tools;
  safe_makedirs_helper := safe_makedirs_helper quiet_tools;
  MountProcFS_enter := MountProcFS_enter quiet_tools;
  MountProcFS_exit := MountProcFS_exit quiet_tools;
  YumInstaller_enter := YumInstaller_enter quiet_tools;
  YumInstaller_install := YumInstaller_install quiet_tools;
  YumInstaller_exit := YumInstaller_exit quiet_tools;
  write_setup_in_files_helper := write_setup_in_files_helper quiet_tools;
|}.

(** A staging root ready for the steps after the installation: the stage 1
    package list, the directory of the manifest, and the post-install
    scripts next to it. *)
Definition build_world : World :=
  mkWorld "/build"
    (list_to_map [("/build", Dir);
                  ("/build/stage2", Dir);
                  ("/build/stage2/osg", Dir);
                  ("/build/stage2/stage1_rpmlist", File ("a-1-1" +:+ NL +:+ "b-2-1" +:+ NL));
                  ("/build/scripts", Dir);
                  ("/build/scripts/osg-post-install", File "#!/bin/sh");
                  ("/build/scripts/osgrun.in", File "#!/bin/sh")]) [].

(** Tools with which only the package [osg-client] is installed, [rpm -qa]
    prints three packages and exits with [qa_status], [tar] leaves an
    archive where it is told to, and every other tool succeeds. *)
Definition build_tools (qa_status : Z) : External := {|
  run_process argv cwd fs :=
    if bool_decide (argv = ["rpm"; "--root"; "/build/stage2"; "-qa"])
    then mkProc (Some qa_status) ("a-1-1" +:+ NL +:+ "b-2-1" +:+ NL +:+ "c-3-1" +:+ NL) fs
    else if bool_decide (take 4 argv = ["rpm"; "--root"; "/build/stage2"; "-q"])
    then mkProc (Some (if bool_decide (argv !! 4%nat = Some "osg-client") then 0%Z else 1%Z))
           "" fs
    else if bool_decide (take 2 argv = ["tar"; "-C"])
    then mkProc (Some 0%Z) "" (<[default "" (argv !! 4%nat) := File "archive"]> fs)
    else if bool_decide (take 2 argv = ["tar"; "-czf"])
    then mkProc (Some 0%Z) ""
           (<[os_path.join cwd (default "" (argv !! 2%nat)) := File "archive"]> fs)
    else mkProc (Some 0%Z) "" fs;
  glob_glob := glob_glob quiet_tools;
  mkdtemp_name := mkdtemp_name quiet_tools;
  repr := repr quiet_tools;
  repr_list := repr_list quiet_tools;
  safe_makedirs_helper := safe_makedirs_helper quiet_tools;
  MountProcFS_enter := MountProcFS_enter quiet_tools;
  MountProcFS_exit := MountProcFS_exit quiet_tools;
  YumInstaller_enter := YumInstaller_enter quiet_tools;
  YumInstaller_install := YumInstaller_install quiet_tools;
  YumInstaller_exit := YumInstaller_exit quiet_tools;
  write_setup_in_files_helper := write_setup_in_files_helper quiet_tools;
|}.

(** The world in which the block under [try:] of [make_stage2_tarball]
    starts: the first status line has been written. *)
Definition entered (X : External) (stage_dir dver basearch : string) (w : World) : World :=
  add_event (EvStatus (_statusmsg_text X dver basearch
                         ("Making stage2 tarball in " +:+ repr X stage_dir))) w.

(** A prefix that [lstrip('./')] is meant to remove: steps [./] and [/]. *)
Inductive root_prefix : string → Prop :=
  | root_prefix_nil : root_prefix ""
  | root_prefix_slash p : root_prefix p → root_prefix ("/" +:+ p)
  | root_prefix_dot p : root_prefix p → root_prefix ("./" +:+ p).

(** A staging root with a stage 1 file list of three entries, the last a
    dot file. *)
Definition filelist_world : World :=
  mkWorld "/build"
    (list_to_map [("/build", Dir);
                  ("/build/stage2", Dir);
                  ("/build/stage2/stage1_rpmlist", File ("a-1-1" +:+ NL));
                  ("/build/stage2/stage1_filelist",
                   File ("etc/foo.conf" +:+ NL +:+ "./etc/bar.conf" +:+ NL +:+ ".hidden" +:+ NL))])
    [].

(** ** GNU tar, as far as the claims need it *)

(** The patterns the [--exclude-from=FILE] options of the command bring
    to its member: the lines of the files.  The option is positional in
    GNU tar: it bears on the names that stand behind it, so of
    [tar -C parent -czf out base ...] only the options before [base]
    count. *)
Definition tar_exclude_patterns (argv : list string) (fs : fsys) : list string :=
  concat ((λ arg,
             match strip_prefix "--exclude-from=" arg with
             | Some file => filter (λ l, l ≠ "") (split_on "010" (file_content fs file))
             | None => []
             end) <$> take 5 argv).

(** The members of the archive that [tar -C parent -czf out base options]
    writes: [base] and what lies below it, named from [parent], but for
    what an exclude pattern matches.  How a pattern matches a name is left
    open ([matches]). *)
Definition tar_members (matches : string → string → bool) (argv : list string)
    (fs : fsys) : list string :=
  match argv !! 2%nat, argv !! 5%nat with
  | Some parent, Some base =>
      let top := os_path.join parent base in
      let names :=
        omap (λ k, if bool_decide (k = top) || below top k
                   then strip_prefix (os_path.join parent "") k else None)
             (map_to_list fs).*1 in
      filter (λ name, forallb (λ pat, negb (matches pat name))
                        (tar_exclude_patterns argv fs) = true)
             names
  | _, _ => []
  end.

(** The patch files of the [patch] commands among the events, in order. *)
Definition applied_patches (evs : list event) : list string :=
  omap (λ e, match e with
             | EvSpawn argv _ =>
                 if bool_decide (take 4 argv = ["patch"; "-p1"; "--force"; "--input"])
                    && bool_decide (length argv = 5)
                 then argv !! 4%nat else None
             | _ => None
             end) evs.

(** Two patch directories whose files interleave; both hold a file of the
    name [02-b.patch]. *)
Definition patch_tools : External := {|
  run_process argv cwd fs := mkProc (Some 0%Z) "" fs;
  glob_glob pat cwd fs :=
    if bool_decide (pat = "/patches/common/*.patch")
    then ["/patches/common/04-d.patch"; "/patches/common/02-b.patch"]
    else if bool_decide (pat = "/patches/el6/*.patch")
    then ["/patches/el6/03-c.patch"; "/patches/el6/02-b.patch"; "/patches/el6/01-a.patch"]
    else [];
  mkdtemp_name := mkdtemp_name quiet_tools;
  repr := repr quiet_tools;
  repr_list := repr_list quiet_tools;
  safe_makedirs_helper := safe_makedirs_helper quiet_tools;
  MountProcFS_enter := MountProcFS_enter quiet_tools;
  MountProcFS_exit := MountProcFS_exit quiet_tools;
  YumInstaller_enter := YumInstaller_enter quiet_tools;
  YumInstaller_install := YumInstaller_install quiet_tools;
  YumInstaller_exit := YumInstaller_exit quiet_tools;
  write_setup_in_files_helper := write_setup_in_files_helper quiet_tools;
|}.

(** The tools and [common.safe_makedirs] leave the directory [d] in place. *)
Definition tools_keep_dir (X : External) (d : string) : Prop :=
  (∀ argv cwd fs, fs !! d = Some Dir → pr_fs (run_process X argv cwd fs) !! d = Some Dir)
  ∧ (∀ path cwd fs, fs !! d = Some Dir → (safe_makedirs_helper X path cwd fs).2 !! d = Some Dir).

(** [d] is a directory of the world. *)
Definition dir_at (d : string) (w : World) : Prop := w_fs w !! d = Some Dir.

(** [m] leaves the directory [d] in place. *)
Definition keeps {A} (d : string) (m : M A) : Prop :=
  ∀ w, dir_at d w → dir_at d (m w).2.

(** ** The walk of [fix_alternatives_symlinks] *)

(** A name of a directory entry: not empty, no slash. *)
Definition plain (n : string) : Prop := n ≠ "" ∧ contains "/" n = false.

(** A path component: it is not empty and does not start with a slash. *)
Definition comp_like (x : string) : Prop := startswith "/" x = false ∧ x ≠ "".

Definition not_link (n : node) : Prop :=
  match n with Symlink _ => False | _ => True end.

(** The loop body of [fix_alternatives_symlinks], as [os.walk] calls it. *)
Definition fix_files (stage : string) (root : string) (dirs files : list string) : M unit :=
  for_each files (fix_alternatives_symlink stage root).

(** A directory the walk can come to: an absolute path that is [top] or
    lies below it. *)
Definition walk_root (top r : string) : Prop :=
  startswith "/" r = true ∧ (r = top ∨ below top r = true).

(** A staging root [/b/stage2] with three links into [/etc/alternatives],
    on a host that has a Java of its own: there [/etc/alternatives/jre]
    leads to a directory. *)
Definition alternatives_world : World :=
  mkWorld "/b"
    (list_to_map [
       ("/b", Dir); ("/b/stage2", Dir); ("/b/stage2/etc", Dir);
       ("/b/stage2/etc/alternatives", Dir);
       ("/b/stage2/etc/alternatives/x", Symlink "/usr/bin/x-real");
       ("/b/stage2/etc/alternatives/y", Symlink "/usr/bin/x-real");
       ("/b/stage2/etc/alternatives/jre", Symlink "/usr/lib/jvm/jre-1.8");
       ("/b/stage2/usr", Dir); ("/b/stage2/usr/bin", Dir);
       ("/b/stage2/usr/bin/x", Symlink "/etc/alternatives/x");
       ("/b/stage2/usr/bin/x-real", File "#!/bin/sh");
       ("/b/stage2/usr/lib", Dir); ("/b/stage2/usr/lib/jvm", Dir);
       ("/b/stage2/usr/lib/jvm/y", Symlink "/etc/alternatives/y");
       ("/b/stage2/usr/lib/jvm/jre", Symlink "/etc/alternatives/jre");
       ("/b/stage2/usr/lib/jvm/jre-1.8", Dir);
       ("/etc", Dir); ("/etc/alternatives", Dir);
       ("/etc/alternatives/jre", Symlink "/usr/lib/jvm/java-1.8.0");
       ("/usr", Dir); ("/usr/lib", Dir); ("/usr/lib/jvm", Dir);
       ("/usr/lib/jvm/java-1.8.0", Dir)]) [].

(* ================================================================== *)
(** * Further notions for the properties below *)
(* ================================================================== *)

(** ** Checks of [install_packages] *)

(** The query [package_installed] runs. *)
Definition rpm_q_cmd (stage_dir_abs pkg : string) : list string :=
  ["rpm"; "--root"; stage_dir_abs; "-q"; pkg].

(** The two nested [with] blocks of [install_packages], for a list of
    packages. *)
Definition yum_block (X : External) (stage_dir_abs : string) (packages : list string)
    (repofile dver basearch : string) (extra_repos : option (list string)) : M unit :=
  with_ (call_helper (MountProcFS_enter X stage_dir_abs))
        (λ e, call_helper (MountProcFS_exit X stage_dir_abs e))
    (λ _,
      with_ (call_helper (YumInstaller_enter X repofile dver basearch extra_repos))
            (λ e, call_helper (YumInstaller_exit X e))
        (λ _, call_helper (YumInstaller_install X stage_dir_abs (ArgList packages)))).

(** The body of the loop that checks the packages. *)
Definition check_installed (X : External) (stage_dir_abs pkg : string) : M unit :=
  if startswith "@" pkg then ret tt
  else
    installed ← package_installed X stage_dir_abs pkg;
    if negb installed
    then raise (Error (repr X pkg +:+ " not installed after yum install"))
    else ret tt.

(** The packages [install_packages] asks [rpm] about: all but the groups. *)
Definition checked_packages (packages : list string) : list string :=
  filter (λ pkg, startswith "@" pkg = false) packages.

(** Tools with which [rpm -q] knows every package but [missing]. *)
Definition tools_without (missing : string) : External := {|
  run_process argv cwd fs :=
    mkProc (Some (if bool_decide (argv !! 4%nat = Some missing) then 1%Z else 0%Z)) "" fs;
  glob_glob := glob_glob quiet_tools;
  mkdtemp_name := mkdtemp_name quiet_tools;
  repr := repr quiet_tools;
  repr_list := repr_list quiet_tools;
  safe_makedirs_helper := safe_makedirs_helper quiet_tools;
  MountProcFS_enter := MountProcFS_enter quiet_tools;
  MountProcFS_exit := MountProcFS_exit quiet_tools;
  YumInstaller_enter := YumInstaller_enter quiet_tools;
  YumInstaller_install := YumInstaller_install quiet_tools;
  YumInstaller_exit := YumInstaller_exit quiet_tools;
  write_setup_in_files_helper := write_setup_in_files_helper quiet_tools;
|}.

(** A staging root in which [gsi-openssh] has left its configuration. *)
Definition gsissh_world : World :=
  mkWorld "/build"
    (list_to_map [("/build", Dir); ("/build/stage2", Dir); ("/build/stage2/etc", Dir);
                  ("/build/stage2/etc/gsissh", Dir);
                  ("/build/stage2/etc/gsissh/sshd_config", File "Port 22");
                  ("/build/stage2/usr", Dir); ("/build/stage2/usr/etc", Dir)]) [].

(** ** Package lists *)

(** No white space in a string. *)
Fixpoint no_ws (s : string) : bool :=
  match s with
  | "" => true
  | String c s' => negb (in_chars whitespace c) && no_ws s'
  end.

(** A word, as [str.split()] gives them: not empty, no white space. *)
Definition word (s : string) : Prop := s ≠ "" ∧ no_ws s = true.

(** A stage 1 file list whose last line has no newline. *)
Definition unterminated_world : World :=
  mkWorld "/build"
    (list_to_map [("/build", Dir);
                  ("/build/stage2", Dir);
                  ("/build/stage2/stage1_filelist",
                   File ("etc/foo.conf" +:+ NL +:+ "etc/bar.conf"))])
    [].

(** Tools of which every child process exits with status 2. *)
Definition failing_tools : External := {|
  run_process argv cwd fs := mkProc (Some 2%Z) "" fs;
  glob_glob := glob_glob quiet_tools;
  mkdtemp_name := mkdtemp_name quiet_tools;
  repr := repr quiet_tools;
  repr_list := repr_list quiet_tools;
  safe_makedirs_helper := safe_makedirs_helper quiet_tools;
  MountProcFS_enter := MountProcFS_enter quiet_tools;
  MountProcFS_exit := MountProcFS_exit quiet_tools;
  YumInstaller_enter := YumInstaller_enter quiet_tools;
  YumInstaller_install := YumInstaller_install quiet_tools;
  YumInstaller_exit := YumInstaller_exit quiet_tools;
  write_setup_in_files_helper := write_setup_in_files_helper quiet_tools;
|}.

(** ** What [fix_alternatives_symlinks] may do to a name *)

(** The name [k], below [usr/] of the staging root, was a link into
    [/etc/alternatives] whose counterpart in the staging root was a link,
    and is now a link with a relative target. *)
Definition rewritten (stage : string) (fs0 fs : fsys) (k : string) : Prop :=
  below (os_path.join stage "usr") k = true
  ∧ ∃ lp new,
      fs0 !! k = Some (Symlink lp)
      ∧ startswith "/etc/alternatives" lp = true
      ∧ islink_fs fs0 (os_path.join stage (lstrip "/" lp)) = true
      ∧ fs !! k = Some (Symlink new)
      ∧ startswith "/" new = false.

(** What holds while the tree is walked, seen from the start: the
    working directory is the same, and every name is as it was or
    rewritten; the events so far are warnings. *)
Definition frame_inv (stage : string) (w0 w : World) : Prop :=
  w_cwd w = w_cwd w0
  ∧ (∀ k, w_fs w !! k = w_fs w0 !! k ∨ rewritten stage (w_fs w0) (w_fs w) k)
  ∧ ∃ evs, w_trace w = w_trace w0 ++ evs ∧ Forall (λ e, ∃ msg, e = EvPrint msg) evs.

(** The block under [try:] of [remove_empty_dirs_from_tarball], to be
    run in the temporary directory [extract_dir]. *)
Definition repack (X : External) (extract_dir tarball_abs tarball_base topdir : string)
    (recreate_dirs : list string) : M unit :=
  os_chdir extract_dir;;
  subprocess_check_call X ["tar"; "-xzf"; tarball_abs];;
  subprocess_call X ["find"; topdir; "-type"; "d"; "-empty"; "-delete"];;
  for_each recreate_dirs (λ rdir,
    safe_makedirs X (os_path.join topdir (lstrip "/" rdir)));;
  subprocess_check_call X ["tar"; "-czf"; tarball_base; topdir];;
  shutil_copy tarball_base tarball_abs.

(** ** The processes a run starts *)

(** The event [e] is no child process, or one of the programs [progs]. *)
Definition starts (progs : list string) (e : event) : Prop :=
  match e with
  | EvSpawn (prog :: _) _ => prog ∈ progs
  | EvSpawn [] _ => False
  | _ => True
  end.

(** [m] only adds events to the trace, and every event it adds is a [P]. *)
Definition appends {A} (P : event → Prop) (m : M A) : Prop :=
  ∀ w, ∃ evs, w_trace (m w).2 = w_trace w ++ evs ∧ Forall P evs.


(* ================================================================== *)
(** * Properties *)
(* ================================================================== *)

(** ** Strings *)

Lemma str_app_cons c s t : String c s +:+ t = String c (s +:+ t).
Proof. reflexivity. Qed.

Lemma str_app_nil_r s : s +:+ "" = s.
Proof. induction s as [|c s IH]; [done|]. by rewrite str_app_cons, IH. Qed.

Lemma str_app_assoc (s t u : string) : s +:+ t +:+ u = (s +:+ t) +:+ u.
Proof. induction s as [|c s IH]; [done|]. by rewrite !str_app_cons, IH. Qed.

Lemma str_take_drop n s : str_take n s +:+ str_drop n s = s.
Proof.
  revert s; induction n as [|n IH]; intros [|c s]; simpl; try done.
  by rewrite str_app_cons, IH.
Qed.

Lemma str_prefix_app p s : String.prefix p (p +:+ s) = true.
Proof.
  induction p as [|c p IH]; [by destruct s|].
  rewrite str_app_cons. simpl. destruct (ascii_dec c c); [done|congruence].
Qed.

Lemma str_prefix_cons a p b s :
  String.prefix (String a p) (String b s)
  = if decide (a = b) then String.prefix p s else false.
Proof. cbn [String.prefix]. by destruct (ascii_dec a b), (decide (a = b)). Qed.

Lemma str_prefix_nil s : String.prefix "" s = true.
Proof. by destruct s. Qed.

Lemma startswith_char_app (a : ascii) s t :
  s ≠ "" → startswith (String a "") (s +:+ t) = startswith (String a "") s.
Proof.
  destruct s as [|c s]; [done|]. intros _. unfold startswith.
  rewrite str_app_cons, !str_prefix_cons. by rewrite !str_prefix_nil.
Qed.

Lemma str_prefix_inv p s : String.prefix p s = true → s = p +:+ str_drop (String.length p) s.
Proof.
  revert s; induction p as [|c p IH]; intros s; [by destruct s|].
  destruct s as [|d s]; simpl; [done|]. destruct (ascii_dec c d); [|done].
  intros H. subst. rewrite str_app_cons. f_equal. by apply IH.
Qed.

Lemma contains_eq x s :
  contains x s
  = String.prefix x s || match s with "" => false | String _ s' => contains x s' end.
Proof. by destruct s. Qed.

Lemma contains_app_r x a b : contains x b = true → contains x (a +:+ b) = true.
Proof.
  intros H. induction a as [|c a IH]; [done|].
  rewrite str_app_cons, contains_eq, IH. apply orb_true_r.
Qed.

Lemma contains_prefix x s : String.prefix x s = true → contains x s = true.
Proof. intros H. by rewrite contains_eq, H. Qed.

Lemma contains_drop x n s : contains x (str_drop n s) = true → contains x s = true.
Proof. intros H. rewrite <-(str_take_drop n s). by apply contains_app_r. Qed.

Lemma readline_app a b : no_nl a = true → readline (a +:+ b) = a +:+ readline b.
Proof.
  induction a as [|c a IH]; [done|]. simpl. intros [Hc Ha]%andb_true_iff.
  rewrite !str_app_cons. simpl. case_bool_decide; [done|]. by rewrite IH.
Qed.

Lemma readline_idemp s : readline (readline s) = readline s.
Proof.
  induction s as [|c s IH]; [done|]. simpl.
  case_bool_decide as Hc; simpl; rewrite bool_decide_decide; case_decide; try done.
  by rewrite IH.
Qed.

Lemma readline_drop n s : readline s = s → readline (str_drop n s) = str_drop n s.
Proof.
  revert s; induction n as [|n IH]; intros [|c s]; simpl; try done.
  case_bool_decide; intros Hs; simplify_eq; [by destruct n|]. by apply IH.
Qed.

Lemma readlines_single s : s ≠ "" → readline s = s → readlines s = [s].
Proof.
  induction s as [|c s IH]; [done|]. intros _. simpl.
  case_bool_decide; intros [= Hs].
  - by rewrite <-Hs.
  - destruct s as [|d s]; [done|]. rewrite IH by done. done.
Qed.

Lemma no_nl_app a b : no_nl a = true → no_nl b = true → no_nl (a +:+ b) = true.
Proof.
  induction a as [|c a IH]; [done|]. rewrite str_app_cons. simpl.
  intros [Hc Ha]%andb_true_iff Hb. by rewrite Hc, IH.
Qed.

Lemma no_nl_string_of_uint d : no_nl (NilEmpty.string_of_uint d) = true.
Proof. induction d; simpl; try done. Qed.

Lemma no_nl_str_of_int n : no_nl (str_of_int n) = true.
Proof.
  unfold str_of_int, NilZero.string_of_int, NilZero.string_of_uint.
  destruct (Z.to_int n) as [d|d]; destruct d; simpl; try done; apply no_nl_string_of_uint.
Qed.

(** ** The file system *)

Lemma set_fs_set_fs a b w : set_fs a (set_fs b w) = set_fs a w.
Proof. done. Qed.

Lemma file_content_File fs q c : fs !! q = Some (File c) → file_content fs q = c.
Proof. unfold file_content. by intros ->. Qed.

Lemma resolve_S n fs p :
  resolve (S n) fs p =
    match fs !! p with
    | Some (Symlink t) => resolve n fs (link_dest p t)
    | _ => Some p
    end.
Proof. done. Qed.

(** Where the links lead is not a link. *)
Lemma resolve_Some_not_link n fs p q t :
  resolve n fs p = Some q → fs !! q ≠ Some (Symlink t).
Proof.
  revert p; induction n as [|n IH]; intros p; [done|]. rewrite resolve_S.
  destruct (fs !! p) as [[| |t']|] eqn:Hp; try (intros [= <-]; congruence).
  apply IH.
Qed.

(** Writing a file where no link was does not change where links lead. *)
Lemma resolve_insert_file n fs p q c :
  (∀ t, fs !! q ≠ Some (Symlink t)) →
  resolve n (<[q := File c]> fs) p = resolve n fs p.
Proof.
  intros Hq. revert p; induction n as [|n IH]; intros p; [done|]. rewrite !resolve_S.
  destruct (decide (q = p)) as [->|Hne].
  - rewrite lookup_insert_eq. destruct (fs !! p) as [[| |t]|] eqn:Hp; try done.
    by destruct (Hq t).
  - rewrite lookup_insert_ne by done. destruct (fs !! p) as [[| |t]|]; try done.
Qed.

Ltac munfold :=
  unfold mbind, M_bind, bind, mret, M_ret, ret, raise, get_world, modify_fs, emit in *.

(** ** Sorting *)

Lemma cmp_le a b : cmp a b ≠ Gt ↔ String.le a b.
Proof.
  unfold String.le, String.leb, cmp. destruct (a ?= b)%string; naive_solver.
Qed.

Lemma cmp_Gt_flip a b : cmp a b = Gt → cmp b a ≠ Gt.
Proof.
  unfold cmp. rewrite (String.compare_antisym b a). intros ->. done.
Qed.

Lemma cmp_Eq a b : cmp a b = Eq ↔ a = b.
Proof.
  split; [apply String.compare_eq_iff|]. intros ->. unfold cmp.
  pose proof (String.compare_antisym b b) as E. by destruct (b ?= b)%string.
Qed.

Section sort_by_key.
Context {A : Type} (key : A → string).

Lemma key_le_trans x y z : key_le key x y → key_le key y z → key_le key x z.
Proof. unfold key_le, by_key. rewrite !cmp_le. apply transitivity. Qed.

Lemma insert_sorted_perm x l : insert_sorted (by_key key) x l ≡ₚ x :: l.
Proof.
  induction l as [|y l IH]; simpl; [done|].
  destruct (by_key key x y); try done. rewrite IH. apply Permutation_swap.
Qed.

Lemma list_sort_perm l : list_sort (by_key key) l ≡ₚ l.
Proof.
  induction l as [|x l IH]; simpl; [done|]. by rewrite insert_sorted_perm, IH.
Qed.

Lemma insert_sorted_sorted x l :
  StronglySorted (key_le key) l → StronglySorted (key_le key) (insert_sorted (by_key key) x l).
Proof.
  induction 1 as [|y l Hl IH Hy]; simpl; [by repeat constructor|].
  destruct (by_key key x y) eqn:Hxy.
  - constructor; [by constructor|]. constructor.
    + unfold key_le. by rewrite Hxy.
    + eapply Forall_impl; [exact Hy|]. intros z Hz. eapply key_le_trans; [|exact Hz].
      unfold key_le. by rewrite Hxy.
  - constructor; [by constructor|]. constructor.
    + unfold key_le. by rewrite Hxy.
    + eapply Forall_impl; [exact Hy|]. intros z Hz. eapply key_le_trans; [|exact Hz].
      unfold key_le. by rewrite Hxy.
  - constructor; [done|]. rewrite insert_sorted_perm. constructor; [|done].
    by apply cmp_Gt_flip.
Qed.

Lemma list_sort_sorted l : StronglySorted (key_le key) (list_sort (by_key key) l).
Proof. induction l; simpl; [constructor|by apply insert_sorted_sorted]. Qed.

(** The sort is stable: the elements of one key keep their order. *)
Lemma insert_sorted_stable k x l :
  StronglySorted (key_le key) l →
  filter (λ y, key y = k) (insert_sorted (by_key key) x l) = filter (λ y, key y = k) (x :: l).
Proof.
  induction 1 as [|y l Hl IH Hy]; simpl; [done|].
  destruct (by_key key x y) eqn:Hxy; try done.
  rewrite (filter_cons _ y), IH, !filter_cons.
  destruct (decide (key x = k)) as [Hx|Hx], (decide (key y = k)) as [Hk|Hk]; try done.
  unfold by_key in Hxy. rewrite Hx, Hk in Hxy.
  assert (cmp k k = Eq) as E by by apply cmp_Eq. congruence.
Qed.

Lemma list_sort_stable k l :
  filter (λ y, key y = k) (list_sort (by_key key) l) = filter (λ y, key y = k) l.
Proof.
  induction l as [|x l IH]; simpl; [done|].
  rewrite insert_sorted_stable by apply list_sort_sorted.
  by rewrite !filter_cons, IH.
Qed.

(** Two lists in the order of the keys that hold, key by key, the same
    elements in the same order are the same list. *)
Lemma sorted_stable_unique l1 l2 :
  StronglySorted (key_le key) l1 → StronglySorted (key_le key) l2 →
  (∀ k, filter (λ y, key y = k) l1 = filter (λ y, key y = k) l2) →
  l1 = l2.
Proof.
  intros H1. revert l2. induction H1 as [|x l1 Hl1 IH Hx]; intros l2 H2 Heq.
  - destruct l2 as [|y l2]; [done|]. specialize (Heq (key y)).
    rewrite filter_nil, filter_cons_True in Heq by done. done.
  - destruct H2 as [|y l2 Hl2 Hy].
    { specialize (Heq (key x)). rewrite filter_nil, filter_cons_True in Heq by done. done. }
    assert (key y = key x) as Hk.
    { destruct (decide (key y = key x)) as [|Hne]; [done|].
      assert (y ∈ l1) as Hy1.
      { pose proof (Heq (key y)) as E. rewrite filter_cons_False in E by done.
        rewrite (filter_cons_True _ y) in E by done.
        assert (y ∈ filter (λ z, key z = key y) l1) as Hin by (rewrite E; left).
        by apply list_elem_of_filter in Hin as [_ ?]. }
      assert (x ∈ l2) as Hx2.
      { pose proof (Heq (key x)) as E. rewrite filter_cons_True in E by done.
        rewrite (filter_cons_False _ y) in E by done.
        assert (x ∈ filter (λ z, key z = key x) l2) as Hin by (rewrite <-E; left).
        by apply list_elem_of_filter in Hin as [_ ?]. }
      rewrite Forall_forall in Hx, Hy.
      apply Hx in Hy1. apply Hy in Hx2. unfold key_le, by_key in *.
      apply cmp_le in Hy1, Hx2. symmetry. by apply (anti_symm String.le). }
    pose proof (Heq (key x)) as E. rewrite !filter_cons_True in E by done.
    injection E as -> E. f_equal. apply IH; [done|]. intros k. specialize (Heq k).
    rewrite !filter_cons in Heq. destruct (decide (key y = k)); [by injection Heq|done].
Qed.

End sort_by_key.

Lemma key_le_strict (l : list string) :
  StronglySorted (key_le (λ x, x)) l → NoDup l → StronglySorted (λ a b, cmp a b = Lt) l.
Proof.
  induction 1 as [|x l Hl IH Hx]; [constructor|].
  intros [Hx' Hnd]%NoDup_cons. constructor; [by apply IH|].
  rewrite Forall_forall in Hx. apply Forall_forall. intros y Hy.
  specialize (Hx y Hy). unfold key_le, by_key in Hx.
  destruct (cmp x y) eqn:E; [|done..].
  apply cmp_Eq in E. by subst.
Qed.

(** [sorted] of a list without duplicates is strictly increasing. *)
Lemma sorted_strict l :
  NoDup l → StronglySorted (λ a b, cmp a b = Lt) (sorted l).
Proof.
  intros Hnd. apply key_le_strict.
  - apply (list_sort_sorted (λ x, x)).
  - unfold sorted. by rewrite (list_sort_perm (λ x, x) l).
Qed.

(** ** fix_osg_version *)

Lemma version_prefix_no_nl n s :
  n ≤ version_prefix_len s → no_nl (str_take n s) = true.
Proof.
  revert s; induction n as [|n IH]; intros [|c s]; simpl; try done.
  destruct (is_version_char c) eqn:Hc; [|lia]. intros Hn.
  rewrite IH by lia. rewrite andb_true_r.
  case_bool_decide; [subst; by vm_compute in Hc|done].
Qed.

Lemma dash_tarball_contains t : startswith "-tarball" t = true → contains "tarball" t = true.
Proof.
  intros H%str_prefix_inv. rewrite H.
  apply (contains_app_r "tarball" "-" ("tarball" +:+ str_drop (String.length "-tarball") t)).
  apply contains_prefix, (str_prefix_app "tarball").
Qed.

Lemma sub_group_len_bound m s n : sub_group_len m s = Some n → 0 < n ≤ m.
Proof.
  induction m as [|m IH]; simpl; [done|].
  destruct (negb _); [intros [= <-]; lia|]. intros H%IH. lia.
Qed.

(** Without [tarball] in the line the look-ahead never fails: the group
    is the whole numeric prefix. *)
Lemma sub_group_len_max s :
  contains "tarball" s = false → 0 < version_prefix_len s →
  sub_group_len (version_prefix_len s) s = Some (version_prefix_len s).
Proof.
  intros Hc Hn. destruct (version_prefix_len s) as [|m] eqn:Hm; [lia|].
  cbn [sub_group_len].
  destruct (startswith "-tarball" (str_drop (S m) s)) eqn:Hs; [|done].
  apply dash_tarball_contains, contains_drop in Hs. congruence.
Qed.

Lemma new_version_str_single_line r v :
  readline v = v → no_nl r = true → readline (new_version_str r v) = new_version_str r v.
Proof.
  intros Hv Hr. unfold new_version_str. destruct (contains "tarball" v); [done|].
  unfold re_sub_tarball. destruct (sub_group_len _ v) as [n|] eqn:Hn; [|done].
  apply sub_group_len_bound in Hn.
  rewrite readline_app by (apply version_prefix_no_nl; lia).
  rewrite (readline_app "-tarball") by done.
  rewrite readline_app by done. by rewrite readline_drop.
Qed.

Lemma new_version_str_tarball r v :
  re_match_version v = true → contains "tarball" (new_version_str r v) = true.
Proof.
  intros Hv%bool_decide_eq_true. unfold new_version_str.
  destruct (contains "tarball" v) eqn:Hc; [done|].
  unfold re_sub_tarball. rewrite sub_group_len_max by done.
  apply contains_app_r.
  apply (contains_app_r "tarball" "-" ("tarball" +:+ r +:+ str_drop (version_prefix_len v) v)).
  apply contains_prefix, (str_prefix_app "tarball").
Qed.

Lemma new_version_str_match r v :
  re_match_version v = true → re_match_version (new_version_str r v) = true.
Proof.
  intros Hv. unfold new_version_str. destruct (contains "tarball" v); [done|].
  unfold re_sub_tarball. destruct (sub_group_len _ v) as [n|] eqn:Hn; [|done].
  apply sub_group_len_bound in Hn. apply bool_decide_eq_true in Hv.
  apply bool_decide_eq_true.
  destruct v as [|c v]; [simpl in Hv; lia|]. destruct n as [|n]; [lia|].
  simpl in *. rewrite str_app_cons. simpl. destruct (is_version_char c); lia.
Qed.

Lemma new_version_str_fixed r r' v :
  re_match_version v = true → new_version_str r' (new_version_str r v) = new_version_str r v.
Proof.
  intros Hv. unfold new_version_str at 1. by rewrite new_version_str_tarball.
Qed.

Lemma no_nl__relnum relnum : no_nl (_relnum relnum) = true.
Proof.
  unfold _relnum. case_bool_decide; [|done].
  apply (no_nl_app "-"); [done|apply no_nl_str_of_int].
Qed.

Section fix_osg_version.
Context (X : External).

(** A run on a readable file whose first line starts with a version. *)
Lemma fix_osg_version_run stage relnum w q c :
  resolve MAXSYMLINKS (w_fs w) (abs_of w (os_path.join stage "etc/osg-version")) = Some q →
  w_fs w !! q = Some (File c) →
  re_match_version (readline c) = true →
  fix_osg_version X stage relnum w =
    (Ret tt, set_fs (<[q := File (new_version_str (_relnum relnum) (readline c))]> (w_fs w)) w).
Proof.
  intros Hq Hc Hv. unfold fix_osg_version, open_r, open_w, fh_readline, fh_write, writable_at.
  munfold. rewrite Hq, Hc. rewrite (file_content_File _ _ _ Hc).
  assert (readline c ≠ "") as Hne.
  { intros E. rewrite E in Hv. done. }
  rewrite bool_decide_eq_false_2 by done. rewrite Hv. simpl.
  rewrite Hq, Hc. simpl. f_equal. unfold set_fs; simpl. f_equal.
  rewrite (file_content_File _ _ "") by apply lookup_insert_eq.
  by rewrite insert_insert_eq.
Qed.

(** A run that fails leaves the world as it was. *)
Lemma fix_osg_version_unchanged stage relnum w e :
  (fix_osg_version X stage relnum w).1 = Raise e → (fix_osg_version X stage relnum w).2 = w.
Proof.
  unfold fix_osg_version, open_r, open_w, fh_readline, fh_write, writable_at. munfold.
  destruct (resolve _ _ _) as [q|] eqn:Hq; [|done].
  destruct (w_fs w !! q) as [[c| |t]|] eqn:Hc; try done.
  case_bool_decide; [done|]. destruct (re_match_version _); simpl; [|done].
  rewrite Hq, Hc. done.
Qed.

Lemma fix_osg_version_inv stage relnum w :
  (fix_osg_version X stage relnum w).1 = Ret tt →
  ∃ q c, resolve MAXSYMLINKS (w_fs w) (abs_of w (os_path.join stage "etc/osg-version")) = Some q
         ∧ w_fs w !! q = Some (File c) ∧ re_match_version (readline c) = true.
Proof.
  unfold fix_osg_version, open_r, open_w, fh_readline, fh_write, writable_at. munfold.
  destruct (resolve _ _ _) as [q|] eqn:Hq; [|done].
  destruct (w_fs w !! q) as [[c| |t]|] eqn:Hc; try done.
  rewrite (file_content_File _ _ _ Hc).
  case_bool_decide; [done|]. destruct (re_match_version _) eqn:Hv; simpl; [|done].
  intros _. by exists q, c.
Qed.

(** C4.  The version rewrite is idempotent: a second run of
    [fix_osg_version] leaves the world, and so the version file, as the
    first run left it.  This holds for every content of the file (with or
    without [tarball] in it, and when the run fails) and every release
    number.  The file ["3.4.5\n"] with release number 2 becomes
    ["3.4.5-tarball-2\n"]. *)
Theorem fix_osg_version_idempotent stage relnum w :
  (fix_osg_version X stage relnum (fix_osg_version X stage relnum w).2).2
    = (fix_osg_version X stage relnum w).2
  ∧ w_fs (fix_osg_version X "/build/stage2" 2 (version_world ("3.4.5" +:+ NL))).2
      !! "/build/stage2/etc/osg-version" = Some (File ("3.4.5-tarball-2" +:+ NL)).
Proof.
  split.
  - destruct (fix_osg_version X stage relnum w).1 as [[]|e] eqn:Hr.
    + destruct (fix_osg_version_inv _ _ _ Hr) as (q & c & Hq & Hc & Hv).
      rewrite (fix_osg_version_run _ _ _ _ _ Hq Hc Hv). cbn [snd].
      set (new := new_version_str (_relnum relnum) (readline c)).
      assert (readline new = new) as Hnew.
      { apply new_version_str_single_line; [apply readline_idemp|apply no_nl__relnum]. }
      erewrite fix_osg_version_run; cycle 1.
      * cbn [w_fs set_fs]. rewrite resolve_insert_file; [exact Hq|]. congruence.
      * cbn [w_fs set_fs]. apply lookup_insert_eq.
      * rewrite Hnew. by apply new_version_str_match.
      * cbn [snd w_fs set_fs]. rewrite set_fs_set_fs, Hnew. unfold new.
        by rewrite new_version_str_fixed, insert_insert_eq.
    + by rewrite !(fix_osg_version_unchanged _ _ _ _ Hr).
  - erewrite fix_osg_version_run; [|by vm_compute..].
    cbn [snd w_fs set_fs]. by rewrite lookup_insert_eq.
Qed.

(** C10 (as amended).  Of a version file whose first line starts with a
    version (a digit or a dot) only the first line is read, and the file
    is rewritten to hold the new first line alone: when the file is
    [line ++ "\n" ++ rest] and [line] starts with a version, the run
    succeeds and the file becomes the rewritten [line ++ "\n"], one line,
    whatever [rest] was. *)
Theorem fix_osg_version_first_line_only stage relnum w q line rest :
  resolve MAXSYMLINKS (w_fs w) (abs_of w (os_path.join stage "etc/osg-version")) = Some q →
  w_fs w !! q = Some (File (line +:+ NL +:+ rest)) →
  no_nl line = true →
  re_match_version line = true →
  let new := new_version_str (_relnum relnum) (line +:+ NL) in
  fix_osg_version X stage relnum w = (Ret tt, set_fs (<[q := File new]> (w_fs w)) w)
  ∧ readlines new = [new].
Proof.
  intros Hq Hc Hline Hv new.
  assert (readline (line +:+ NL +:+ rest) = line +:+ NL) as Hfirst.
  { by rewrite readline_app. }
  assert (re_match_version (line +:+ NL) = true) as Hv'.
  { apply bool_decide_eq_true in Hv. apply bool_decide_eq_true.
    destruct line as [|c l]; [simpl in Hv; lia|].
    rewrite str_app_cons. simpl in *. destruct (is_version_char c); lia. }
  split.
  - rewrite (fix_osg_version_run _ _ _ _ _ Hq Hc); rewrite Hfirst; done.
  - apply readlines_single.
    + intros E. pose proof (new_version_str_match (_relnum relnum) _ Hv') as Hm.
      fold new in Hm. rewrite E in Hm. done.
    + apply new_version_str_single_line; [|apply no_nl__relnum].
      rewrite <-Hfirst at 2. rewrite <-Hfirst. apply readline_idemp.
Qed.

End fix_osg_version.

Lemma fix_osg_version_first_line_only_witness :
  fix_osg_version quiet_tools "/build/stage2" 0
      (version_world ("3.4.5" +:+ NL +:+ "built by hand" +:+ NL))
    = (Ret tt, set_fs (<["/build/stage2/etc/osg-version" := File ("3.4.5-tarball" +:+ NL)]>
                         (w_fs (version_world ("3.4.5" +:+ NL +:+ "built by hand" +:+ NL))))
                 (version_world ("3.4.5" +:+ NL +:+ "built by hand" +:+ NL)))
  ∧ readlines ("3.4.5-tarball" +:+ NL) = ["3.4.5-tarball" +:+ NL].
Proof.
  apply (fix_osg_version_first_line_only quiet_tools "/build/stage2" 0
           (version_world ("3.4.5" +:+ NL +:+ "built by hand" +:+ NL))
           "/build/stage2/etc/osg-version" "3.4.5" ("built by hand" +:+ NL));
    by vm_compute.
Defined.

(** A version file of two lines whose first line does not start with a
    version: the run raises [Error], and the file keeps both its lines. *)
Lemma fix_osg_version_keeps_lines_without_version :
  let w := version_world ("OSG 3.4" +:+ NL +:+ "3.4.5" +:+ NL) in
  let run := fix_osg_version quiet_tools "/build/stage2" 0 w in
  readlines (file_content (w_fs w) "/build/stage2/etc/osg-version")
    = ["OSG 3.4" +:+ NL; "3.4.5" +:+ NL]
  ∧ run.1 = Raise (Error "'/build/stage2/etc/osg-version' does not contain version")
  ∧ w_fs run.2 !! "/build/stage2/etc/osg-version"
      = Some (File ("OSG 3.4" +:+ NL +:+ "3.4.5" +:+ NL)).
Proof.
  intros w run. split_and!; vm_compute; reflexivity.
Qed.


(** ** write_package_list_file *)

Section write_package_list_file.
Context (X : External).

(** C8.  When [rpm -qa] exits with 0 and the manifest can be opened,
    [write_package_list_file] writes to [osg/rpm-versions.txt] in the
    staging root the lines [lines], each followed by a newline; [lines]
    holds exactly the installed packages that are not in the baseline, in
    strictly increasing order, so each once. *)
Theorem write_package_list_file_manifest stage exclude_list w q :
  let proc := run_process X (rpm_qa_cmd stage) (w_cwd w) (w_fs w) in
  let installed := split_ws (strip (pr_stdout proc)) in
  let baseline := items (exclude_arg exclude_list) in
  let lines := sorted (elements ((list_to_set installed : gset string) ∖ list_to_set baseline)) in
  pr_status proc = Some 0%Z →
  resolve MAXSYMLINKS (pr_fs proc)
    (os_path.join (w_cwd w) (os_path.join stage "osg/rpm-versions.txt")) = Some q →
  writable_at (pr_fs proc) q = true →
  write_package_list_file X stage exclude_list w
    = (Ret tt, mkWorld (w_cwd w) (<[q := File (str_join NL lines +:+ NL)]> (pr_fs proc))
                 (w_trace w ++ [EvSpawn (rpm_qa_cmd stage) (w_cwd w)]))
  ∧ (∀ x, x ∈ lines ↔ x ∈ installed ∧ x ∉ baseline)
  ∧ StronglySorted (λ a b, cmp a b = Lt) lines.
Proof.
  intros proc installed baseline lines Hst Hq Hw. split; [|split].
  - unfold write_package_list_file, spawn, open_w, fh_write. munfold.
    fold proc. rewrite Hst. cbn [fst snd]. rewrite bool_decide_eq_false_2 by naive_solver.
    unfold abs_of. cbn [w_cwd w_fs add_event set_fs]. rewrite Hq, Hw.
    cbn [w_cwd w_fs add_event set_fs]. f_equal. unfold set_fs. cbn [w_cwd w_fs w_trace].
    f_equal. rewrite (file_content_File _ _ "") by apply lookup_insert_eq.
    by rewrite insert_insert_eq.
  - intros x. unfold lines, sorted.
    rewrite (list_sort_perm (λ y, y)). rewrite elem_of_elements, elem_of_difference.
    by rewrite !elem_of_list_to_set.
  - apply sorted_strict, NoDup_elements.
Qed.

End write_package_list_file.

(** Baseline {a-1-1, b-2-1}, installed {a-1-1, b-2-1, c-3-1}: the
    manifest is ["c-3-1\n"]. *)
Lemma write_package_list_file_manifest_witness :
  write_package_list_file rpm_tools "/build/stage2" (ArgList ["a-1-1"; "b-2-1"]) manifest_world
  = (Ret tt, mkWorld "/build"
               (<["/build/stage2/osg/rpm-versions.txt" := File ("c-3-1" +:+ NL)]>
                  (w_fs manifest_world))
               [EvSpawn ["rpm"; "--root"; "/build/stage2"; "-qa"] "/build"]).
Proof.
  apply (write_package_list_file_manifest rpm_tools "/build/stage2"
           (ArgList ["a-1-1"; "b-2-1"]) manifest_world "/build/stage2/osg/rpm-versions.txt");
    by vm_compute.
Defined.

(** ** make_stage2_tarball *)

Lemma bind_Ret_inv {A B} (m : M A) (k : A → M B) w b w' :
  (m ≫= k) w = (Ret b, w') → ∃ a w1, m w = (Ret a, w1) ∧ k a w1 = (Ret b, w').
Proof.
  munfold. destruct (m w) as [[a|e] w1]; [|done]. intros H. by exists a, w1.
Qed.

Section write_package_list_file_fails.
Context (X : External).

(** A failing [rpm -qa] raises [CalledProcessError]; the program has
    written nothing. *)
Lemma write_package_list_file_rpm_fails stage exclude_list w rc :
  let proc := run_process X (rpm_qa_cmd stage) (w_cwd w) (w_fs w) in
  pr_status proc = Some rc → rc ≠ 0%Z →
  write_package_list_file X stage exclude_list w
  = (Raise (CalledProcessError rc (CmdString (str_join " " (rpm_qa_cmd stage)))),
     mkWorld (w_cwd w) (pr_fs proc) (w_trace w ++ [EvSpawn (rpm_qa_cmd stage) (w_cwd w)])).
Proof.
  intros proc Hst Hrc. unfold write_package_list_file, spawn. munfold.
  fold proc. rewrite Hst. cbn [fst snd]. by rewrite bool_decide_eq_true_2.
Qed.
End write_package_list_file_fails.

Section make_stage2_tarball.
Context (X : External).
Context (stage_dir : string) (packages : pyarg) (tarball : string) (patch_dirs : pyarg)
  (post_scripts_dir repofile dver basearch : string) (relnum : Z)
  (extra_repos : option (list string)).

Local Abbreviation make :=
  (make_stage2_tarball X stage_dir packages tarball patch_dirs post_scripts_dir
     repofile dver basearch relnum extra_repos).
Local Abbreviation steps :=
  (stage2_steps X stage_dir packages tarball patch_dirs post_scripts_dir
     repofile dver basearch relnum extra_repos).
Local Abbreviation fixups :=
  (stage2_steps_fixups X packages patch_dirs post_scripts_dir
     repofile dver basearch relnum extra_repos).

Lemma make_stage2_tarball_run w :
  make w =
    match steps (os_path.abspath (w_cwd w) stage_dir) (entered X stage_dir dver basearch w) with
    | (Ret v, w1) => (Ret v, w1)
    | (Raise (Error msg), w1) => (Ret PyNone, add_event (EvError msg) w1)
    | (Raise e, w1) => (Raise e, w1)
    end.
Proof.
  unfold make_stage2_tarball, _statusmsg, statusmsg, errormsg, os_path_abspath,
    try_except. munfold. cbn [w_cwd add_event]. fold (entered X stage_dir dver basearch w).
  destruct (stage2_steps _ _ _ _ _ _ _ _ _ _ _ _ _) as [[v|e] w1]; [done|].
  by destruct e.
Qed.

(** The block under [try:] can only end with [return True]. *)
Lemma stage2_steps_returns_True stage_dir_abs w v w1 :
  steps stage_dir_abs w = (Ret v, w1) → v = PyBool true.
Proof.
  unfold stage2_steps, stage2_steps_packaging. intros H.
  repeat (apply bind_Ret_inv in H as (? & ? & _ & H)).
  unfold mret, M_ret, ret in H. congruence.
Qed.

(** C2 (as amended).  [make_stage2_tarball] ends as the block under its
    [try:] does: when the block ends, it has returned [True] and so does
    the function; when a step raises [Error], the error is caught, its
    message is logged with [errormsg], and the function returns [None]
    (the handler has no [return]); an exception of any other class leaves
    the function as it is. *)
Theorem make_stage2_tarball_outcome w :
  let out := steps (os_path.abspath (w_cwd w) stage_dir) (entered X stage_dir dver basearch w) in
  (∀ v w1, out = (Ret v, w1) → v = PyBool true ∧ make w = (Ret (PyBool true), w1))
  ∧ (∀ msg w1, out = (Raise (Error msg), w1) →
       make w = (Ret PyNone, add_event (EvError msg) w1))
  ∧ (∀ e w1, out = (Raise e, w1) → is_Error e = false → make w = (Raise e, w1)).
Proof.
  intros out. repeat split.
  - by eapply stage2_steps_returns_True.
  - rewrite make_stage2_tarball_run. fold out. rewrite H.
    by rewrite (stage2_steps_returns_True _ _ _ _ H).
  - intros msg w1 H. rewrite make_stage2_tarball_run. fold out. by rewrite H.
  - intros e w1 H He. rewrite make_stage2_tarball_run. fold out. rewrite H.
    by destruct e.
Qed.

(** C3 (as amended).  When the build has come to the package list and
    [rpm -qa] exits with a status other than 0, [write_package_list_file]
    raises [subprocess.CalledProcessError], which is not the program's
    [Error]: the handler of [make_stage2_tarball] does not catch it and it
    leaves the function.  The file system is as [rpm] left it: no manifest
    has been written. *)
Theorem rpm_failure_leaves_make_stage2_tarball w stage1_rpmlist w1 rc :
  let stage_dir_abs := os_path.abspath (w_cwd w) stage_dir in
  let w2 := add_event (EvStatus (_statusmsg_text X dver basearch
                                   "Writing package list to osg/rpm-versions.txt")) w1 in
  let proc := run_process X (rpm_qa_cmd stage_dir_abs) (w_cwd w2) (w_fs w2) in
  let e := CalledProcessError rc (CmdString (str_join " " (rpm_qa_cmd stage_dir_abs))) in
  let w3 := mkWorld (w_cwd w2) (pr_fs proc)
              (w_trace w2 ++ [EvSpawn (rpm_qa_cmd stage_dir_abs) (w_cwd w2)]) in
  fixups stage_dir_abs (entered X stage_dir dver basearch w) = (Ret stage1_rpmlist, w1) →
  pr_status proc = Some rc →
  rc ≠ 0%Z →
  write_package_list_file X stage_dir_abs (ArgList stage1_rpmlist) w2 = (Raise e, w3)
  ∧ is_Error e = false
  ∧ make w = (Raise e, w3).
Proof.
  intros stage_dir_abs w2 proc e w3 Hfix Hst Hrc.
  pose proof (write_package_list_file_rpm_fails X stage_dir_abs (ArgList stage1_rpmlist)
                w2 rc Hst Hrc) as Hw.
  split; [exact Hw|]. split; [done|].
  rewrite make_stage2_tarball_run. fold stage_dir_abs.
  unfold stage2_steps. unfold mbind at 1. unfold M_bind, bind. rewrite Hfix.
  unfold stage2_steps_packaging. unfold mbind at 1. unfold M_bind, bind.
  unfold _statusmsg, statusmsg, emit. fold w2.
  unfold mbind at 1. unfold M_bind, bind. rewrite Hw. done.
Qed.

End make_stage2_tarball.

Lemma make_stage2_tarball_outcome_witness :
  (make_stage2_tarball (build_tools 0) "stage2" (ArgStr "osg-client") "out.tar.gz" ArgNone
     "scripts" "repo" "el6" "x86_64" 0 None build_world).1 = Ret (PyBool true)
  ∧ (make_stage2_tarball (build_tools 0) "stage2" (ArgStr "no-such-package") "out.tar.gz"
       ArgNone "scripts" "repo" "el6" "x86_64" 0 None build_world).1 = Ret PyNone.
Proof.
  split.
  - destruct (make_stage2_tarball_outcome (build_tools 0) "stage2" (ArgStr "osg-client")
                "out.tar.gz" ArgNone "scripts" "repo" "el6" "x86_64" 0 None build_world)
      as (H & _ & _).
    edestruct H as [_ ->]; [by vm_compute|done].
  - destruct (make_stage2_tarball_outcome (build_tools 0) "stage2" (ArgStr "no-such-package")
                "out.tar.gz" ArgNone "scripts" "repo" "el6" "x86_64" 0 None build_world)
      as (_ & H & _).
    erewrite H; [done|by vm_compute].
Defined.

Lemma make_stage2_tarball_failure_is_not_False :
  (stage2_steps (build_tools 0) "stage2" (ArgStr "no-such-package") "out.tar.gz" ArgNone
     "scripts" "repo" "el6" "x86_64" 0 None "/build/stage2"
     (entered (build_tools 0) "stage2" "el6" "x86_64" build_world)).1
    = Raise (Error "'no-such-package' not installed after yum install")
  ∧ (make_stage2_tarball (build_tools 0) "stage2" (ArgStr "no-such-package") "out.tar.gz"
       ArgNone "scripts" "repo" "el6" "x86_64" 0 None build_world).1 = Ret PyNone
  ∧ (make_stage2_tarball (build_tools 0) "stage2" (ArgStr "no-such-package") "out.tar.gz"
       ArgNone "scripts" "repo" "el6" "x86_64" 0 None build_world).1 ≠ Ret (PyBool false).
Proof. by vm_compute. Qed.

Lemma rpm_failure_leaves_make_stage2_tarball_witness :
  (make_stage2_tarball (build_tools 1) "stage2" (ArgStr "osg-client") "out.tar.gz" ArgNone
     "scripts" "repo" "el6" "x86_64" 0 None build_world).1
  = Raise (CalledProcessError 1 (CmdString "rpm --root /build/stage2 -qa")).
Proof.
  edestruct (rpm_failure_leaves_make_stage2_tarball (build_tools 1) "stage2"
               (ArgStr "osg-client") "out.tar.gz" ArgNone "scripts" "repo" "el6" "x86_64" 0
               None build_world) as (_ & _ & ->); [by vm_compute..|done].
Defined.

Lemma rpm_failure_is_not_Error :
  pr_status (run_process (build_tools 1) (rpm_qa_cmd "/build/stage2") "/build"
               (w_fs build_world)) = Some 1%Z
  ∧ (write_package_list_file (build_tools 1) "/build/stage2" (ArgList ["a-1-1"; "b-2-1"])
       build_world).1
    = Raise (CalledProcessError 1 (CmdString "rpm --root /build/stage2 -qa"))
  ∧ is_Error (CalledProcessError 1 (CmdString "rpm --root /build/stage2 -qa")) = false
  ∧ (make_stage2_tarball (build_tools 1) "stage2" (ArgStr "osg-client") "out.tar.gz" ArgNone
       "scripts" "repo" "el6" "x86_64" 0 None build_world).1
    = Raise (CalledProcessError 1 (CmdString "rpm --root /build/stage2 -qa")).
Proof. by vm_compute. Qed.

(** ** _write_exclude_list *)

Lemma str_join_empty_cons x l : str_join "" (x :: l) = x +:+ str_join "" l.
Proof.
  unfold str_join. destruct l as [|y l]; simpl; [by rewrite str_app_nil_r|done].
Qed.

Lemma str_join_empty_app l1 l2 :
  str_join "" (l1 ++ l2) = str_join "" l1 +:+ str_join "" l2.
Proof.
  induction l1 as [|x l1 IH]; [done|].
  rewrite <-app_comm_cons, !str_join_empty_cons, IH. apply str_app_assoc.
Qed.

(** Writes in a row add up at the end of the file. *)
Lemma for_each_fh_write {A} (f : A → string) fh l w c :
  w_fs w !! fh = Some (File c) →
  for_each l (λ x, fh_write fh (f x)) w
  = (Ret tt, set_fs (<[fh := File (c +:+ str_join "" (f <$> l))]> (w_fs w)) w).
Proof.
  revert w c. induction l as [|x l IH]; intros w c Hc.
  - simpl. unfold mret, M_ret, ret. f_equal. destruct w as [cwd fs tr]. unfold set_fs. simpl in *.
    f_equal. by rewrite str_app_nil_r, insert_id.
  - cbn [for_each]. unfold mbind, M_bind, bind. unfold fh_write at 1, modify_fs.
    rewrite (file_content_File _ _ _ Hc).
    erewrite IH; [|cbn [w_fs set_fs]; apply lookup_insert_eq].
    cbn [w_fs set_fs]. rewrite set_fs_set_fs, insert_insert_eq.
    by rewrite fmap_cons, str_join_empty_cons, str_app_assoc.
Qed.

Lemma lstrip_root_prefix p s : root_prefix p → lstrip "./" (p +:+ s) = lstrip "./" s.
Proof. induction 1; [done|..]; rewrite <-str_app_assoc; simpl; done. Qed.

Lemma lstrip_keeps s :
  startswith "." s = false → startswith "/" s = false → lstrip "./" s = s.
Proof.
  destruct s as [|c s]; [done|]. unfold startswith. rewrite !str_prefix_cons, !str_prefix_nil.
  destruct (decide ("."%char = c)) as [|H1]; [done|].
  destruct (decide ("/"%char = c)) as [|H2]; [done|]. intros _ _.
  cbn [lstrip]. unfold in_chars. rewrite bool_decide_eq_false_2; [done|].
  cbn. rewrite !elem_of_cons, elem_of_nil. intros [->|[->|[]]]; done.
Qed.

Lemma join_app_NL a s :
  startswith "/" s = false → os_path.join a (s +:+ NL) = os_path.join a s +:+ NL.
Proof.
  intros Hs. unfold os_path.join. rewrite Hs.
  assert (startswith "/" (s +:+ NL) = false) as ->.
  { destruct s as [|c s]; [done|]. by rewrite startswith_char_app. }
  destruct (_ || _); by rewrite <-?str_app_assoc.
Qed.

(** C7, at a file list that names a dot file.  For an entry that is a
    path [rest] behind steps [./] and [/], where [rest] itself starts with
    neither [.] nor [/], the line written is [prepend_dir/rest]:
    [etc/foo.conf] and [./etc/bar.conf] with [stage2] give
    [stage2/etc/foo.conf] and [stage2/etc/bar.conf].  But the steps are
    taken off with [lstrip('./')], which takes off characters, not steps:
    a name loses the dot it begins with.  The stage 1 file list of
    [filelist_world] has the entry [.hidden]; the exclude file written for
    it has the line [stage2/hidden] and nowhere [stage2/.hidden].  The
    entry [./.bashrc] is written as [stage2/bashrc]. *)
Theorem _write_exclude_list_loses_leading_dot :
  let listed := readlines (file_content (w_fs filelist_world) "/build/stage2/stage1_filelist") in
  let run := _write_exclude_list "/build/stage2/stage1_filelist" "/build/exclude_list"
               "stage2" excludes filelist_world in
  let written := file_content (w_fs run.2) "/build/exclude_list" in
  (∀ prepend_dir p rest,
     root_prefix p → startswith "." rest = false → startswith "/" rest = false →
     exclude_line prepend_dir (p +:+ rest +:+ NL) = os_path.join prepend_dir rest +:+ NL)
  ∧ exclude_line "stage2" ("etc/foo.conf" +:+ NL) = "stage2/etc/foo.conf" +:+ NL
  ∧ exclude_line "stage2" ("./etc/bar.conf" +:+ NL) = "stage2/etc/bar.conf" +:+ NL
  ∧ (∀ prepend_dir name,
       exclude_line prepend_dir ("." +:+ name) = exclude_line prepend_dir name)
  ∧ exclude_line "stage2" (".hidden" +:+ NL) = "stage2/hidden" +:+ NL
  ∧ exclude_line "stage2" ("./.bashrc" +:+ NL) = "stage2/bashrc" +:+ NL
  ∧ (".hidden" +:+ NL) ∈ listed
  ∧ run.1 = Ret tt
  ∧ contains ("stage2/hidden" +:+ NL) written = true
  ∧ contains (os_path.join "stage2" ".hidden") written = false.
Proof.
  intros listed written run. split_and!; try (by vm_compute).
  - intros prepend_dir p rest Hp H1 H2. unfold exclude_line.
    rewrite lstrip_root_prefix by done.
    rewrite lstrip_keeps.
    + by apply join_app_NL.
    + destruct rest as [|a r]; [done|]. by rewrite startswith_char_app.
    + destruct rest as [|a r]; [done|]. by rewrite startswith_char_app.
  - apply list_elem_of_In. vm_compute. tauto.
Qed.

(** ** tar_stage_dir *)

Section tar_stage_dir.
Context (X : External).

(** Without a stage 1 file list the archive tool gets the bare command:
    no exclude file is written and no exclude option is passed. *)
Lemma tar_stage_dir_no_filelist stage tarball w :
  let cmd := ["tar"; "-C"; os_path.dirname stage; "-czf";
              os_path.abspath (w_cwd w) tarball; os_path.basename stage] in
  let proc := run_process X cmd (w_cwd w) (w_fs w) in
  isfile_fs (w_fs w) (abs_of w (os_path.join stage "stage1_filelist")) = false →
  (tar_stage_dir X stage tarball w).2
  = mkWorld (w_cwd w) (pr_fs proc) (w_trace w ++ [EvSpawn cmd (w_cwd w)]).
Proof.
  intros cmd proc Hf. unfold tar_stage_dir, os_path_abspath, os_path_isfile, subprocess_call,
    spawn. munfold. rewrite Hf. fold cmd. fold proc.
  destruct (pr_status proc) as [rc|]; [|done]. cbn [fst snd]. by case_bool_decide.
Qed.

End tar_stage_dir.

(** C1, at a staging root without [stage1_filelist].  The staging root
    holds [stage1_rpmlist], which is on the deny-list.  [tar_stage_dir]
    succeeds, the one command it runs has no exclude option, and the
    archive this command makes holds [stage2/stage1_rpmlist], however
    patterns match names. *)
Theorem tar_stage_dir_without_filelist_excludes_nothing :
  let cmd := ["tar"; "-C"; "/build"; "-czf"; "/build/out.tar.gz"; "stage2"] in
  let run := tar_stage_dir (build_tools 0) "/build/stage2" "out.tar.gz" build_world in
  isfile_fs (w_fs build_world) "/build/stage2/stage1_filelist" = false
  ∧ "stage1_rpmlist" ∈ excludes
  ∧ run.1 = Ret tt
  ∧ w_trace run.2 = [EvSpawn cmd "/build"]
  ∧ w_fs run.2 !! "/build/exclude_list" = None
  ∧ ∀ matches, "stage2/stage1_rpmlist" ∈ tar_members matches cmd (w_fs build_world).
Proof.
  intros cmd run. split_and!; try (by vm_compute).
  - apply list_elem_of_In. vm_compute. tauto.
  - intros matches. apply list_elem_of_In. vm_compute. tauto.
Qed.

(** ** patch_installed_packages: the order of the patches *)

Lemma applied_patches_app evs1 evs2 :
  applied_patches (evs1 ++ evs2) = applied_patches evs1 ++ applied_patches evs2.
Proof. apply omap_app. Qed.

Lemma StronglySorted_lookup_lt {A} (R : relation A) l i j a b :
  StronglySorted R l → l !! i = Some a → l !! j = Some b → i < j → R a b.
Proof.
  intros Hl. revert i j. induction Hl as [|x l Hl IH Hx]; intros i j Hi Hj Hij; [done|].
  destruct j as [|j]; [lia|]. destruct i as [|i]; simpl in *.
  - injection Hi as ->. rewrite Forall_forall in Hx. apply Hx.
    by eapply list_elem_of_lookup_2.
  - eapply IH; [done..|lia].
Qed.

Section patch_order.
Context (X : External).

Lemma apply_patch_run f w :
  let proc := run_process X (patch_cmd f) (w_cwd w) (w_fs w) in
  apply_patch X f w
  = (match pr_status proc with
     | Some rc => if bool_decide (rc ≠ 0%Z)
                  then Raise (Error ("patch file " +:+ repr X f +:+ " failed to apply"))
                  else Ret tt
     | None => Raise (OSError "patch")
     end,
     mkWorld (w_cwd w) (pr_fs proc)
       (w_trace w ++ [EvStatus ("Applying patch " +:+ repr X f);
                      EvSpawn (patch_cmd f) (w_cwd w)])).
Proof.
  intros proc. unfold apply_patch, statusmsg, subprocess_call, spawn. munfold.
  cbn [w_cwd w_fs add_event set_fs w_trace]. fold proc.
  destruct (pr_status proc) as [rc|]; cbn [fst snd];
    [case_bool_decide|]; unfold add_event, set_fs; cbn [w_cwd w_fs w_trace];
    by rewrite <-app_assoc.
Qed.

(** The loop issues the patch commands in the order of the list, up to
    the first that fails, and all of them when it ends well. *)
Lemma apply_patches_trace files w :
  let run := for_each files (apply_patch X) w in
  ∃ evs, w_trace run.2 = w_trace w ++ evs
         ∧ applied_patches evs `prefix_of` files
         ∧ (run.1 = Ret tt → applied_patches evs = files).
Proof.
  revert w. induction files as [|f files IH]; intros w run.
  - exists []. subst run. simpl. rewrite app_nil_r. split; [done|]. by split.
  - subst run. cbn [for_each]. unfold mbind, M_bind, bind. rewrite apply_patch_run.
    set (proc := run_process X (patch_cmd f) (w_cwd w) (w_fs w)).
    set (head := [EvStatus ("Applying patch " +:+ repr X f); EvSpawn (patch_cmd f) (w_cwd w)]).
    assert (applied_patches head = [f]) as Hap by done.
    set (w1 := mkWorld (w_cwd w) (pr_fs proc) (w_trace w ++ head)).
    assert (∀ e : exn, ∃ evs, w_trace (@Raise unit e, w1).2 = w_trace w ++ evs
              ∧ applied_patches evs `prefix_of` f :: files
              ∧ ((@Raise unit e, w1).1 = Ret tt → applied_patches evs = f :: files)) as Hfail.
    { intros e. exists head. split; [done|]. rewrite Hap. split; [|done].
      by apply prefix_cons, prefix_nil. }
    destruct (pr_status proc) as [rc|]; [|apply Hfail].
    case_bool_decide; [apply Hfail|].
    destruct (IH w1) as (evs & Hevs & Hpre & Hall).
    exists (head ++ evs). rewrite Hevs. cbn [w_trace w1]. rewrite <-app_assoc.
    split; [done|]. rewrite applied_patches_app, Hap. split.
    + by apply prefix_cons.
    + intros Hr. by rewrite Hall.
Qed.

Lemma patch_installed_packages_eq stage dirs dver w :
  patch_installed_packages X stage dirs dver w
  = try_finally
      (os_chdir stage;;
       patch_files ← collect_patch_files X (os_path.abspath (w_cwd w) <$> dirs);
       for_each patch_files (apply_patch X))
      (os_chdir (w_cwd w)) w.
Proof. done. Qed.

Lemma try_finally_chdir_trace {A} (m : M A) d w :
  w_trace (try_finally m (os_chdir d) w).2 = w_trace (m w).2.
Proof.
  unfold try_finally, os_chdir. destruct (m w) as [r w1]. by destruct (isdir_fs _ _).
Qed.

Lemma try_finally_Ret {A} (m : M A) f w a :
  (try_finally m f w).1 = Ret a → (m w).1 = Ret a.
Proof.
  unfold try_finally. destruct (m w) as [r w1]. by destruct (f w1) as [[|e] w2].
Qed.

(** C6.  The patch files found in the directories ([found], directory by
    directory) are applied in the order [order]: that of a stable sort on
    the base names alone.  [order] holds the files found, in the order of
    their base names, and files of one base name in the order they were
    found in, which is that of the directories; no other list does.  A
    file whose base name is smaller comes earlier, whatever its directory.
    The patch commands issued are, in this order, those of [order]: all of
    them when the function returns, and those up to the first failure
    otherwise. *)
Theorem patch_order_by_basename stage dirs dver w :
  let cwd' := os_path.abspath (w_cwd w) stage in
  let found :=
    concat ((λ d, glob_glob X (os_path.join d "*.patch") cwd' (w_fs w))
            <$> (os_path.abspath (w_cwd w) <$> dirs)) in
  let order := list_sort _cmp_basename found in
  let run := patch_installed_packages X stage dirs dver w in
  order ≡ₚ found
  ∧ StronglySorted (key_le os_path.basename) order
  ∧ (∀ k, filter (λ p, os_path.basename p = k) order
          = filter (λ p, os_path.basename p = k) found)
  ∧ (∀ l, StronglySorted (key_le os_path.basename) l →
          (∀ k, filter (λ p, os_path.basename p = k) l
                = filter (λ p, os_path.basename p = k) found) →
          l = order)
  ∧ (∀ i j a b, order !! i = Some a → order !! j = Some b →
                cmp (os_path.basename a) (os_path.basename b) = Lt → i < j)
  ∧ ∃ evs, w_trace run.2 = w_trace w ++ evs
           ∧ applied_patches evs `prefix_of` order
           ∧ (run.1 = Ret tt → applied_patches evs = order).
Proof.
  intros cwd' found order run.
  assert (StronglySorted (key_le os_path.basename) order) as Hsorted.
  { apply (list_sort_sorted os_path.basename). }
  assert (∀ k, filter (λ p, os_path.basename p = k) order
               = filter (λ p, os_path.basename p = k) found) as Hstable.
  { intros k. apply (list_sort_stable os_path.basename). }
  split_and!; [apply (list_sort_perm os_path.basename)|done|done|..].
  - intros l Hl Hk. apply (sorted_stable_unique os_path.basename); [done..|].
    intros k. by rewrite Hk, Hstable.
  - intros i j a b Hi Hj Hlt. destruct (decide (i < j)) as [|Hge]; [done|exfalso].
    destruct (decide (i = j)) as [->|Hne].
    + assert (a = b) as -> by congruence.
      assert (cmp (os_path.basename b) (os_path.basename b) = Eq) by by apply cmp_Eq.
      congruence.
    + assert (j < i) as Hji by lia.
      pose proof (StronglySorted_lookup_lt _ _ j i b a Hsorted Hj Hi Hji) as Hle.
      unfold key_le, by_key in Hle. apply Hle. unfold cmp in *.
      rewrite String.compare_antisym, Hlt. done.
  - subst run. rewrite patch_installed_packages_eq.
    destruct (isdir_fs (w_fs w) (abs_of w stage)) eqn:Hd.
    + pose proof (apply_patches_trace order (set_cwd cwd' w)) as (evs & Htr & Hpre & Hall).
      exists evs. rewrite try_finally_chdir_trace.
      assert ((os_chdir stage;;
               patch_files ← collect_patch_files X (os_path.abspath (w_cwd w) <$> dirs);
               for_each patch_files (apply_patch X)) w
              = for_each order (apply_patch X) (set_cwd cwd' w)) as Hbody.
      { unfold os_chdir, collect_patch_files. munfold. by rewrite Hd. }
      split; [by rewrite Hbody|]. split; [done|].
      intros Hr%try_finally_Ret. rewrite Hbody in Hr. by apply Hall.
    + exists []. rewrite try_finally_chdir_trace.
      assert ((os_chdir stage;;
               patch_files ← collect_patch_files X (os_path.abspath (w_cwd w) <$> dirs);
               for_each patch_files (apply_patch X)) w
              = (Raise (OSError stage), w)) as Hbody.
      { unfold os_chdir. munfold. by rewrite Hd. }
      rewrite Hbody. cbn. rewrite app_nil_r. split; [done|]. split; [apply prefix_nil|].
      intros Hr%try_finally_Ret. by rewrite Hbody in Hr.
Qed.

End patch_order.

(** Two directories with files that interleave: [common] is named first,
    so its [02-b.patch] comes before that of [el6]. *)
Lemma patch_order_by_basename_witness :
  applied_patches
    (w_trace (patch_installed_packages patch_tools "/build/stage2"
                ["/patches/common"; "/patches/el6"] "el6" build_world).2)
  = ["/patches/el6/01-a.patch"; "/patches/common/02-b.patch"; "/patches/el6/02-b.patch";
     "/patches/el6/03-c.patch"; "/patches/common/04-d.patch"].
Proof.
  destruct (patch_order_by_basename patch_tools "/build/stage2"
              ["/patches/common"; "/patches/el6"] "el6" build_world)
    as (_ & _ & _ & _ & _ & evs & Htr & _ & Hall).
  rewrite Htr. cbn [w_trace build_world app]. rewrite Hall; by vm_compute.
Defined.

(** ** The working directory *)

Lemma keeps_ret {A} d (a : A) : keeps d (mret a).
Proof. by intros w. Qed.

Lemma keeps_raise {A} d e : keeps d (@raise A e).
Proof. by intros w. Qed.

Lemma keeps_bind {A B} d (m : M A) (k : A → M B) :
  keeps d m → (∀ a, keeps d (k a)) → keeps d (m ≫= k).
Proof.
  intros Hm Hk w Hw. munfold. specialize (Hm w Hw).
  destruct (m w) as [[a|e] w1]; [by apply Hk|done].
Qed.

Lemma keeps_for_each {A} d (l : list A) body :
  (∀ x, keeps d (body x)) → keeps d (for_each l body).
Proof.
  intros Hb. induction l as [|x l IH]; [apply keeps_ret|].
  cbn [for_each]. apply keeps_bind; [apply Hb|done].
Qed.

Lemma keeps_same_fs {A} d (m : M A) :
  (∀ w, w_fs (m w).2 = w_fs w) → keeps d m.
Proof. intros H w Hw. unfold dir_at. by rewrite H. Qed.

Lemma keeps_os_chdir d p : keeps d (os_chdir p).
Proof. apply keeps_same_fs. intros w. unfold os_chdir. by destruct (isdir_fs _ _). Qed.

Lemma keeps_emit d e : keeps d (emit e).
Proof. by apply keeps_same_fs. Qed.

Lemma keeps_open_w d p : keeps d (open_w p).
Proof.
  intros w Hw. unfold open_w. destruct (resolve _ _ _) as [q|]; [|done].
  unfold writable_at. destruct (decide (q = d)) as [->|Hne].
  - unfold dir_at in Hw. by rewrite Hw.
  - destruct (match w_fs w !! q with Some (File _) => true | None => _ | _ => false end);
      [|done].
    unfold dir_at. cbn [w_fs set_fs snd]. by rewrite lookup_insert_ne.
Qed.

Lemma keeps_shutil_copyfile d src dst : keeps d (shutil_copyfile src dst).
Proof.
  intros w Hw. unfold shutil_copyfile. munfold.
  destruct (open_r src w) as [[fsrc|e] w1] eqn:Hr.
  - assert (w1 = w) as ->.
    { unfold open_r in Hr. destruct (resolve _ _ _) as [q|]; [|congruence].
      destruct (w_fs w !! q) as [[]|]; congruence. }
    unfold open_w, writable_at. destruct (resolve _ _ _) as [q|]; [|done].
    destruct (decide (q = d)) as [->|Hne].
    + unfold dir_at in Hw. by rewrite Hw.
    + destruct (match w_fs w !! q with Some (File _) => true | None => _ | _ => false end);
        [|done].
      unfold fh_read, fh_write, modify_fs, dir_at. cbn [w_fs set_fs snd].
      by rewrite !lookup_insert_ne.
  - unfold open_r in Hr. destruct (resolve _ _ _) as [q|]; [|by simplify_eq].
    destruct (w_fs w !! q) as [[]|]; by simplify_eq.
Qed.

Lemma keeps_shutil_copy d src dst : keeps d (shutil_copy src dst).
Proof.
  unfold shutil_copy. apply keeps_bind; [by apply keeps_same_fs|].
  intros a. apply keeps_shutil_copyfile.
Qed.

Lemma try_finally_then_ret {A} (m : M A) (f : M unit) w :
  try_finally m f w = try_finally m (f;; mret tt) w.
Proof.
  unfold try_finally. munfold. destruct (m w) as [r w1].
  by destruct (f w1) as [[[]|e] w2].
Qed.

Section cwd.
Context (X : External) (d : string).
Context (Htools : tools_keep_dir X d).

Lemma keeps_spawn argv : keeps d (spawn X argv).
Proof using Htools.
  intros w Hw. unfold spawn. destruct Htools as [Hrun _].
  specialize (Hrun argv (w_cwd w) (w_fs w) Hw).
  by destruct (pr_status _).
Qed.

Lemma keeps_subprocess_call argv : keeps d (subprocess_call X argv).
Proof using Htools. apply keeps_bind; [apply keeps_spawn|intros; apply keeps_ret]. Qed.

Lemma keeps_subprocess_check_call argv : keeps d (subprocess_check_call X argv).
Proof using Htools.
  apply keeps_bind; [apply keeps_subprocess_call|].
  intros rc. case_bool_decide; [apply keeps_raise|apply keeps_ret].
Qed.

Lemma keeps_safe_makedirs p : keeps d (safe_makedirs X p).
Proof using Htools.
  intros w Hw. unfold safe_makedirs, call_helper. destruct Htools as [_ Hmk].
  specialize (Hmk p (w_cwd w) (w_fs w) Hw).
  by destruct (safe_makedirs_helper X p (w_cwd w) (w_fs w)).
Qed.

Lemma keeps_apply_patch f : keeps d (apply_patch X f).
Proof using Htools.
  apply keeps_bind; [apply keeps_emit|]. intros _.
  apply keeps_bind; [apply keeps_subprocess_call|].
  intros rc. case_bool_decide; [apply keeps_raise|apply keeps_ret].
Qed.

(** Leaving a block through [finally: os.chdir(d)] ends in [d], when [d]
    is an absolute path in normal form and still a directory. *)
Lemma try_finally_chdir_cwd {A} (m : M A) (rest : M unit) w :
  os_path.isabs d = true → os_path.normpath d = d →
  dir_at d (m w).2 →
  (∀ w', w_cwd (rest w').2 = w_cwd w') →
  w_cwd (try_finally m (os_chdir d;; rest) w).2 = d.
Proof.
  intros Habs Hnorm Hd Hrest. unfold try_finally. destruct (m w) as [r w1]. cbn [snd] in Hd.
  assert (os_chdir d w1 = (Ret tt, set_cwd d w1)) as Hcd.
  { unfold os_chdir, abs_of, os_path.abspath. rewrite Habs, Hnorm.
    unfold os_path.join. unfold os_path.isabs in Habs. rewrite Habs.
    unfold isdir_fs, stat, MAXSYMLINKS. rewrite resolve_S.
    unfold dir_at in Hd. rewrite Hd. cbn [mbind option_bind]. rewrite Hd.
    by rewrite bool_decide_eq_true_2. }
  munfold. rewrite Hcd. specialize (Hrest (set_cwd d w1)).
  by destruct (rest (set_cwd d w1)) as [[|e] w2].
Qed.

Lemma remove_empty_dirs_from_tarball_eq tarball topdir recreate_dirs w :
  remove_empty_dirs_from_tarball X tarball topdir recreate_dirs w
  = match w_fs w !! mkdtemp_name X (w_fs w) with
    | Some _ => (Raise (IOError "No usable temporary directory name found"), w)
    | None =>
        try_finally
          (os_chdir (mkdtemp_name X (w_fs w));;
           subprocess_check_call X ["tar"; "-xzf"; os_path.abspath (w_cwd w) tarball];;
           subprocess_call X ["find"; topdir; "-type"; "d"; "-empty"; "-delete"];;
           for_each recreate_dirs (λ rdir,
             safe_makedirs X (os_path.join topdir (lstrip "/" rdir)));;
           subprocess_check_call X ["tar"; "-czf"; os_path.basename tarball; topdir];;
           shutil_copy (os_path.basename tarball) (os_path.abspath (w_cwd w) tarball))
          (os_chdir (w_cwd w);; shutil_rmtree (mkdtemp_name X (w_fs w)))
          (set_fs (<[mkdtemp_name X (w_fs w) := Dir]> (w_fs w)) w)
    end.
Proof.
  unfold remove_empty_dirs_from_tarball, os_path_abspath, tempfile_mkdtemp, os_getcwd.
  unfold mbind at 1 2 3. unfold M_bind, bind.
  destruct (w_fs w !! mkdtemp_name X (w_fs w)); reflexivity.
Qed.

(** C9.  Let the process be in the directory [d] (an absolute path in
    normal form that names a directory, as [os.getcwd()] returns it), and
    let the tools leave [d] in place.  Then [patch_installed_packages] and
    [remove_empty_dirs_from_tarball] end in [d], whether they return or
    raise, and whatever raises. *)
Theorem cwd_restored w :
  w_cwd w = d →
  os_path.isabs d = true →
  os_path.normpath d = d →
  dir_at d w →
  (∀ stage dirs dver, w_cwd (patch_installed_packages X stage dirs dver w).2 = d)
  ∧ (∀ tarball topdir recreate_dirs,
       w_cwd (remove_empty_dirs_from_tarball X tarball topdir recreate_dirs w).2 = d).
Proof using Htools.
  intros Hcwd Habs Hnorm Hd. split.
  - intros stage dirs dver.
    assert (patch_installed_packages X stage dirs dver w
            = try_finally
                (os_chdir stage;;
                 patch_files ← collect_patch_files X (os_path.abspath (w_cwd w) <$> dirs);
                 for_each patch_files (apply_patch X))
                (os_chdir d;; mret tt) w) as ->.
    { unfold patch_installed_packages, os_getcwd. munfold. rewrite Hcwd.
      apply try_finally_then_ret. }
    apply try_finally_chdir_cwd; try done.
    assert (keeps d
              (os_chdir stage;;
               patch_files ← collect_patch_files X (os_path.abspath (w_cwd w) <$> dirs);
               for_each patch_files (apply_patch X))) as Hk; [|by apply Hk].
    apply keeps_bind; [apply keeps_os_chdir|]. intros _.
    apply keeps_bind; [by apply keeps_same_fs|]. intros files.
    apply keeps_for_each, keeps_apply_patch.
  - intros tarball topdir recreate_dirs.
    rewrite remove_empty_dirs_from_tarball_eq.
    destruct (w_fs w !! mkdtemp_name X (w_fs w)) as [n|] eqn:Hfresh; [exact Hcwd|].
    rewrite Hcwd. apply try_finally_chdir_cwd; [exact Habs|exact Hnorm| |].
    + assert (keeps d
                (os_chdir (mkdtemp_name X (w_fs w));;
                 subprocess_check_call X ["tar"; "-xzf"; os_path.abspath d tarball];;
                 subprocess_call X ["find"; topdir; "-type"; "d"; "-empty"; "-delete"];;
                 for_each recreate_dirs (λ rdir,
                   safe_makedirs X (os_path.join topdir (lstrip "/" rdir)));;
                 subprocess_check_call X ["tar"; "-czf"; os_path.basename tarball; topdir];;
                 shutil_copy (os_path.basename tarball) (os_path.abspath d tarball))) as Hk.
      { apply keeps_bind; [apply keeps_os_chdir|intros _].
        apply keeps_bind; [apply keeps_subprocess_check_call|intros _].
        apply keeps_bind; [apply keeps_subprocess_call|intros _].
        apply keeps_bind; [apply keeps_for_each; intros rdir; apply keeps_safe_makedirs|].
        intros _.
        apply keeps_bind; [apply keeps_subprocess_check_call|intros _].
        apply keeps_shutil_copy. }
      apply Hk. unfold dir_at. cbn [w_fs set_fs]. rewrite lookup_insert_ne; [done|]. intros E.
      unfold dir_at in Hd. rewrite <-E in Hd. congruence.
    + intros w'. unfold shutil_rmtree. destruct (w_fs w' !! _) as [[]|]; reflexivity.
Qed.

End cwd.

Lemma cwd_restored_witness :
  w_cwd (patch_installed_packages patch_tools "/build/stage2"
           ["/patches/common"; "/patches/el6"] "el6" build_world).2 = "/build"
  ∧ w_cwd (remove_empty_dirs_from_tarball quiet_tools "out.tar.gz" "stage2"
             ["var/lib/osg-ca-certs"] build_world).2 = "/build".
Proof.
  split.
  - refine (proj1 (cwd_restored patch_tools "/build" _ build_world _ _ _ _) _ _ _);
      [split; intros; assumption|vm_compute; reflexivity..].
  - refine (proj2 (cwd_restored quiet_tools "/build" _ build_world _ _ _ _) _ _ _);
      [split; intros; assumption|vm_compute; reflexivity..].
Defined.
(** ** fix_alternatives_symlinks *)

(** *** Paths and directory listings *)

Lemma startswith_cons a p b s :
  startswith (String a p) (String b s) = if decide (a = b) then startswith p s else false.
Proof. apply str_prefix_cons. Qed.

Lemma startswith_app p s : startswith p (p +:+ s) = true.
Proof. apply str_prefix_app. Qed.

Lemma startswith_app_same a b c : startswith (a +:+ b) (a +:+ c) = startswith b c.
Proof.
  induction a as [|x a IH]; [done|]. rewrite !str_app_cons, startswith_cons.
  by rewrite decide_True.
Qed.

Lemma startswith_app_l p s t : startswith p s = true → startswith p (s +:+ t) = true.
Proof.
  intros H%str_prefix_inv. rewrite H, <-str_app_assoc. apply startswith_app.
Qed.

Lemma startswith_slash_false x s :
  startswith "/" s = false → startswith (String "/" x) s = false.
Proof.
  destruct s as [|c s]; [done|]. rewrite !startswith_cons.
  destruct (decide ("/"%char = c)); [|done]. unfold startswith. by rewrite str_prefix_nil.
Qed.

Lemma strip_prefix_Some pre s r : strip_prefix pre s = Some r ↔ s = pre +:+ r.
Proof.
  revert s. induction pre as [|a pre IH]; intros s; simpl.
  - split; [by intros [= ->]|by intros ->].
  - destruct s as [|b s]; [done|]. rewrite str_app_cons. case_bool_decide as Hab.
    + subst. rewrite IH. split; [by intros ->|by intros [= ->]].
    + split; [done|]. intros [= ? ?]. done.
Qed.

Lemma ends_with_char_app c (a b : string) :
  b ≠ "" → ends_with_char c (a +:+ b) = ends_with_char c b.
Proof.
  intros Hb. induction a as [|x a IH]; [done|]. rewrite str_app_cons.
  cbn [ends_with_char]. destruct (a +:+ b) as [|y s] eqn:E; [|done].
  destruct a, b; done.
Qed.

(** [join a ""] is the prefix of the names inside the directory [a]. *)
Lemma join_plain a b :
  startswith "/" b = false → os_path.join a b = os_path.join a "" +:+ b.
Proof.
  intros Hb. unfold os_path.join. rewrite Hb.
  assert (startswith "/" "" = false) as -> by done.
  destruct (_ || _); [by rewrite str_app_nil_r|]. by rewrite <-!str_app_assoc.
Qed.

Lemma join_abs_l a b : startswith "/" a = true → startswith "/" (os_path.join a b) = true.
Proof.
  intros Ha. unfold os_path.join. destruct (startswith "/" b) eqn:Hb; [done|].
  destruct (_ || _); by apply startswith_app_l.
Qed.

Lemma join_nonempty a b : a ≠ "" → os_path.join a b ≠ "".
Proof.
  intros Ha. unfold os_path.join. destruct (startswith "/" b) eqn:Hb.
  - by destruct b.
  - destruct (_ || _); by destruct a.
Qed.

Lemma abs_of_abs w p : startswith "/" p = true → abs_of w p = p.
Proof. intros Hp. unfold abs_of, os_path.join. by rewrite Hp. Qed.

Lemma below_join_self top a :
  startswith "/" a = false → below top (os_path.join top a) = true.
Proof. intros Ha. unfold below. rewrite (join_plain top a) by done. apply startswith_app. Qed.

Lemma join_empty_extends r : ∃ s, os_path.join r "" = r +:+ s.
Proof.
  unfold os_path.join. assert (startswith "/" "" = false) as -> by done.
  destruct (_ || _); eauto.
Qed.

Lemma below_join top r a :
  below top r = true → startswith "/" a = false → below top (os_path.join r a) = true.
Proof.
  unfold below. intros Hr Ha. rewrite (join_plain r a) by done.
  apply startswith_app_l. destruct (join_empty_extends r) as [s ->].
  by apply startswith_app_l.
Qed.

Lemma below_abs top k : startswith "/" top = true → below top k = true → startswith "/" k = true.
Proof.
  unfold below. intros Ht Hk%str_prefix_inv. rewrite Hk.
  apply startswith_app_l. by apply join_abs_l.
Qed.

Lemma plain_not_abs n : plain n → startswith "/" n = false.
Proof.
  intros [_ Hn]. rewrite contains_eq in Hn. by apply orb_false_iff in Hn as [? _].
Qed.

Lemma child_name_Some top k n :
  child_name top k = Some n ↔ k = os_path.join top "" +:+ n ∧ plain n.
Proof.
  unfold child_name, plain. destruct (strip_prefix _ k) as [r|] eqn:Hr; simpl.
  - apply strip_prefix_Some in Hr. destruct (bool_decide (r ≠ "") && negb (contains "/" r)) eqn:Hc.
    + apply andb_true_iff in Hc as [Hne%bool_decide_eq_true Hc%negb_true_iff].
      split; [by intros [= <-]|]. intros [-> _]. by apply String.app_inj in Hr as ->.
    + split; [done|]. intros [-> [Hne Hc']]. apply String.app_inj in Hr as ->.
      rewrite bool_decide_eq_true_2, Hc' in Hc by done. done.
  - split; [done|]. intros [Hk _]. apply strip_prefix_Some in Hk. congruence.
Qed.

Lemma child_name_join top k n : child_name top k = Some n → k = os_path.join top n.
Proof.
  intros [-> Hn]%child_name_Some. by rewrite (join_plain top n) by by apply plain_not_abs.
Qed.

Lemma elem_of_listdir_fs fs top n :
  n ∈ listdir_fs fs top ↔ plain n ∧ is_Some (fs !! os_path.join top n).
Proof.
  unfold listdir_fs. rewrite list_elem_of_omap. split.
  - intros (k & Hk & Hn). pose proof (child_name_join _ _ _ Hn) as ->.
    apply child_name_Some in Hn as [_ Hn]. split; [done|].
    apply list_elem_of_fmap in Hk as ([k' v] & -> & Hkv). apply elem_of_map_to_list in Hkv.
    by exists v.
  - intros [Hn [v Hv]]. exists (os_path.join top n). split.
    + apply list_elem_of_fmap. exists (os_path.join top n, v). split; [done|].
      by apply elem_of_map_to_list.
    + apply child_name_Some. split; [|done]. by apply join_plain, plain_not_abs.
Qed.

(** *** relpath gives a relative path *)

Lemma split_on_slash_not_abs s :
  Forall (λ x, startswith "/" x = false) (split_on "/" s).
Proof.
  induction s as [|c s IH]; [by repeat constructor|]. cbn [split_on].
  case_bool_decide as Hc; [by constructor|].
  assert (∀ w, startswith "/" (String c w) = false) as Hw.
  { intros w. rewrite startswith_cons. by rewrite decide_False. }
  destruct (split_on "/" s) as [|w ws]; [by repeat constructor|].
  inversion_clear IH. by constructor.
Qed.

Lemma nonempty_comps_comp_like p : Forall comp_like (os_path.nonempty_comps p).
Proof.
  unfold os_path.nonempty_comps. apply Forall_forall. intros x [Hx Hin]%list_elem_of_filter.
  split; [|done]. pose proof (split_on_slash_not_abs p) as H.
  rewrite Forall_forall in H. by apply H.
Qed.

Lemma comp_like_app a x : comp_like a → comp_like (a +:+ x).
Proof.
  intros [Ha Hne]. destruct a as [|c a]; [done|]. rewrite str_app_cons. split; [|done].
  rewrite startswith_cons in *. destruct (decide ("/"%char = c)); [|done].
  unfold startswith in Ha. by rewrite str_prefix_nil in Ha.
Qed.

Lemma comp_like_join a b : comp_like a → comp_like b → comp_like (os_path.join a b).
Proof.
  intros Ha [Hb _]. unfold os_path.join. rewrite Hb.
  destruct (_ || _); by apply comp_like_app.
Qed.

Lemma comp_like_join_list a p :
  comp_like a → Forall comp_like p → comp_like (os_path.join_list a p).
Proof.
  unfold os_path.join_list. intros Ha Hp. revert a Ha.
  induction Hp as [|b p Hb Hp IH]; intros a Ha; [done|].
  cbn [foldl]. apply IH. by apply comp_like_join.
Qed.

Lemma relpath_relative cwd path start r :
  os_path.relpath cwd path start = Some r → startswith "/" r = false.
Proof.
  unfold os_path.relpath. case_bool_decide; [done|].
  set (sl := os_path.nonempty_comps (os_path.abspath cwd start)).
  set (pl := os_path.nonempty_comps (os_path.abspath cwd path)).
  set (i := os_path.common_len sl pl).
  assert (Forall comp_like (replicate (length sl - i) ".." ++ drop i pl)) as Hall.
  { apply Forall_app. split.
    - apply Forall_replicate. by split.
    - apply Forall_drop, nonempty_comps_comp_like. }
  destruct (replicate _ _ ++ _) as [|a p]; [by intros [= <-]|].
  inversion_clear Hall. intros [= <-]. by apply comp_like_join_list.
Qed.

Lemma relpath_Some cwd path start :
  path ≠ "" → ∃ r, os_path.relpath cwd path start = Some r.
Proof.
  intros Hp. unfold os_path.relpath. rewrite bool_decide_eq_false_2 by done.
  destruct (_ ++ _); eauto.
Qed.

(** *** The loop body on one file *)

Ltac skip_case := split; [reflexivity|split; [reflexivity|left; reflexivity]].

Section fix_step.
Context (stage : string) (Hstage : startswith "/" stage = true).

Lemma abs_of_stage w x : abs_of w (os_path.join stage x) = os_path.join stage x.
Proof using Hstage. apply abs_of_abs. by apply join_abs_l. Qed.

Lemma stage_join_nonempty x : os_path.join stage x ≠ "".
Proof using Hstage. apply join_nonempty. by destruct stage. Qed.

(** What the loop body does to the world: nothing to the file system, or
    it gives the link at [q] a new target. *)
Lemma fix_step_cases r a w :
  let q := abs_of w (os_path.join r a) in
  let run := fix_alternatives_symlink stage r a w in
  run.1 = Ret tt
  ∧ w_cwd run.2 = w_cwd w
  ∧ (w_fs run.2 = w_fs w
     ∨ ∃ lq altq nw,
         w_fs w !! q = Some (Symlink lq)
         ∧ startswith "/etc/alternatives" lq = true
         ∧ w_fs w !! os_path.join stage (lstrip "/" lq) = Some (Symlink altq)
         ∧ exists_fs (w_fs w) (os_path.join stage (lstrip "/" altq)) = true
         ∧ os_path.relpath (w_cwd w) (os_path.join stage (lstrip "/" altq))
             (os_path.dirname (os_path.join r a)) = Some nw
         ∧ w_fs run.2 = <[q := Symlink nw]> (w_fs w)).
Proof using Hstage.
  intros q run. subst q run.
  unfold fix_alternatives_symlink, os_path_islink, os_readlink, os_path_exists,
    os_path_relpath, os_unlink, os_symlink, print, islink_fs.
  munfold. set (q := abs_of w (os_path.join r a)).
  destruct (w_fs w !! q) as [[c| |lq]|] eqn:Hq; cbn [negb]; try skip_case.
  cbv beta iota. fold q. rewrite Hq. cbv beta iota.
  destruct (startswith "/etc/alternatives" lq) eqn:Hlq; cbn [negb]; [|skip_case].
  cbv beta iota. rewrite abs_of_stage.
  destruct (w_fs w !! os_path.join stage (lstrip "/" lq)) as [[c| |altq]|] eqn:Hsl;
    cbn [negb]; try skip_case.
  cbv beta iota. rewrite abs_of_stage, Hsl. cbv beta iota. rewrite abs_of_stage.
  destruct (exists_fs (w_fs w) (os_path.join stage (lstrip "/" altq))) eqn:Hex;
    cbn [negb]; [|skip_case].
  destruct (relpath_Some (w_cwd w) (os_path.join stage (lstrip "/" altq))
              (os_path.dirname (os_path.join r a)) (stage_join_nonempty _)) as [nw Hnw].
  cbv beta iota. rewrite Hnw. cbv beta iota. fold q. rewrite Hq. cbv beta iota.
  cbn [w_fs set_fs]. unfold abs_of. cbn [w_cwd set_fs].
  fold (abs_of w (os_path.join r a)). fold q. rewrite lookup_delete_eq.
  cbn [fst snd w_cwd w_fs set_fs]. split; [done|]. split; [done|]. right.
  exists lq, altq, nw. split_and!; try done. apply insert_delete_eq.
Qed.


End fix_step.


(** *** The walk *)

Lemma stat_not_link fs k n : fs !! k = Some n → not_link n → stat fs k = Some n.
Proof.
  intros Hk Hn. unfold stat, MAXSYMLINKS. rewrite resolve_S, Hk.
  destruct n; [|..|done]; cbn [mbind option_bind]; by rewrite Hk.
Qed.

Lemma exists_fs_not_link fs k n : fs !! k = Some n → not_link n → exists_fs fs k = true.
Proof.
  intros Hk Hn. unfold exists_fs. rewrite (stat_not_link _ _ _ Hk Hn).
  by apply bool_decide_eq_true_2.
Qed.

Lemma isdir_fs_Dir fs k : fs !! k = Some Dir → isdir_fs fs k = true.
Proof.
  intros Hk. unfold isdir_fs. rewrite (stat_not_link _ _ _ Hk I).
  by apply bool_decide_eq_true_2.
Qed.


Lemma walk_child_below top r name :
  walk_root top r → plain name →
  startswith "/" (os_path.join r name) = true ∧ below top (os_path.join r name) = true.
Proof.
  intros [Habs Hr] Hn. split; [by apply join_abs_l|].
  destruct Hr as [->|Hr].
  - by apply below_join_self, plain_not_abs.
  - by apply below_join; [|apply plain_not_abs].
Qed.

Lemma walk_root_child top r name :
  walk_root top r → plain name → walk_root top (os_path.join r name).
Proof.
  intros Hr Hn. destruct (walk_child_below _ _ _ Hr Hn) as [? ?]. split; [done|by right].
Qed.


Lemma bind_unit_post (m : M unit) (k : unit → M unit) (P Q : World → Prop) w :
  (m w).1 = Ret tt ∧ P (m w).2 →
  (∀ w1, P w1 → (k tt w1).1 = Ret tt ∧ Q (k tt w1).2) →
  ((m ≫= k) w).1 = Ret tt ∧ Q ((m ≫= k) w).2.
Proof.
  intros [Hm HP] Hk. unfold mbind, M_bind, bind.
  destruct (m w) as [[[]|e] w1]; [|done]. by apply Hk.
Qed.

(** One level of [os.walk]. *)
Lemma os_walk_for_S n top body w :
  os_walk_for (S n) top body w
  = if isdir_fs (w_fs w) (abs_of w top)
    then
      let names := listdir_fs (w_fs w) (abs_of w top) in
      let is_dir name := isdir_fs (w_fs w) (abs_of w (os_path.join top name)) in
      (body top (filter (λ name, is_dir name = true) names)
            (filter (λ name, is_dir name ≠ true) names);;
       for_each (filter (λ name, is_dir name = true) names) (λ name,
         l ← os_path_islink (os_path.join top name);
         if l : bool then ret tt else os_walk_for n (os_path.join top name) body)) w
    else (Ret tt, w).
Proof.
  cbn [os_walk_for]. unfold try_except, os_listdir. munfold.
  destruct (isdir_fs (w_fs w) (abs_of w top)); reflexivity.
Qed.


(** The counterpart of a link into [/etc/alternatives] does not lie below
    [usr/] of the staging root. *)
Lemma SL_outside stage lp :
  startswith "/etc/alternatives" lp = true →
  below (os_path.join stage "usr") (os_path.join stage (lstrip "/" lp)) = false.
Proof.
  intros Hlp. apply str_prefix_inv in Hlp. rewrite Hlp.
  set (r := str_drop _ lp).
  assert (lstrip "/" ("/etc/alternatives" +:+ r) = "etc/alternatives" +:+ r) as ->
    by reflexivity.
  unfold below. rewrite (join_plain stage ("etc/alternatives" +:+ r)) by done.
  rewrite (join_plain stage "usr") by done.
  set (D := os_path.join stage "").
  assert (os_path.join (D +:+ "usr") "" = D +:+ "usr/") as ->.
  { unfold os_path.join at 1. assert (startswith "/" "" = false) as -> by done.
    rewrite (ends_with_char_app "/" D "usr") by done.
    rewrite bool_decide_eq_false_2 by by destruct D.
    assert (ends_with_char "/" "usr" = false) as -> by reflexivity.
    cbn [orb]. rewrite <-str_app_assoc. reflexivity. }
  rewrite startswith_app_same. reflexivity.
Qed.

Lemma listdir_plain fs top names' P `{∀ x, Decision (P x)} :
  names' = filter P (listdir_fs fs top) → Forall plain names'.
Proof.
  intros ->. apply Forall_forall. intros x [_ Hx]%list_elem_of_filter.
  by apply elem_of_listdir_fs in Hx as [? _].
Qed.

(** The descent into the directories of one level, one directory on. *)
Lemma descend_cons stage n top x dirs w :
  for_each (x :: dirs) (λ name,
    l ← os_path_islink (os_path.join top name);
    if l : bool then ret tt else os_walk_for n (os_path.join top name) (fix_files stage)) w
  = if islink_fs (w_fs w) (abs_of w (os_path.join top x))
    then for_each dirs (λ name,
           l ← os_path_islink (os_path.join top name);
           if l : bool then ret tt
           else os_walk_for n (os_path.join top name) (fix_files stage)) w
    else match os_walk_for n (os_path.join top x) (fix_files stage) w with
         | (Ret _, w1) =>
             for_each dirs (λ name,
               l ← os_path_islink (os_path.join top name);
               if l : bool then ret tt
               else os_walk_for n (os_path.join top name) (fix_files stage)) w1
         | (Raise e, w1) => (Raise e, w1)
         end.
Proof.
  cbn [for_each]. unfold mbind, M_bind, bind, os_path_islink.
  destruct (islink_fs _ _); [reflexivity|].
  destruct (os_walk_for n (os_path.join top x) (fix_files stage) w) as [[[]|e] w1];
    reflexivity.
Qed.

(** C5, on a build host that has a Java of its own.  In
    [alternatives_world] the link [usr/lib/jvm/jre] is under [usr/] of the
    staging root, its target begins with [/etc/alternatives], and its
    chain through the staging root ([etc/alternatives/jre], then
    [/usr/lib/jvm/jre-1.8]) ends at an existing path inside the staging
    root; the relative path to it is [jre-1.8].  On the build host
    [/etc/alternatives/jre] leads to a directory, so [os.walk] takes the
    link for a directory and lists it under [dirs]; the loop over [files]
    never sees it, and after [fix_alternatives_symlinks] it still has the
    target [/etc/alternatives/jre].  The links [usr/bin/x] and
    [usr/lib/jvm/y] of the same staging root, which [os.walk] lists under
    [files], have got their relative targets. *)
Theorem alternatives_link_to_directory_not_repaired :
  let stage := "/b/stage2" in
  let w := alternatives_world in
  let p := os_path.join (os_path.join (os_path.join stage "usr") "lib/jvm") "jre" in
  let lp := "/etc/alternatives/jre" in
  let alt := "/usr/lib/jvm/jre-1.8" in
  let SA := os_path.join stage (lstrip "/" alt) in
  let run := fix_alternatives_symlinks stage w in
  below (os_path.join stage "usr") p = true
  ∧ w_fs w !! p = Some (Symlink lp)
  ∧ startswith "/etc/alternatives" lp = true
  ∧ w_fs w !! os_path.join stage (lstrip "/" lp) = Some (Symlink alt)
  ∧ w_fs w !! SA = Some Dir
  ∧ exists_fs (w_fs w) SA = true
  ∧ below stage SA = true
  ∧ os_path.relpath (w_cwd w) SA (os_path.dirname p) = Some "jre-1.8"
  ∧ isdir_fs (w_fs w) p = true
  ∧ run.1 = Ret tt
  ∧ w_fs run.2 !! p = Some (Symlink lp)
  ∧ w_fs run.2 !! "/b/stage2/usr/bin/x" = Some (Symlink "x-real")
  ∧ w_fs run.2 !! "/b/stage2/usr/lib/jvm/y" = Some (Symlink "../../bin/x-real").
Proof.
  intros stage w p lp alt SA run. split_and!; vm_compute; reflexivity.
Qed.
(* ================================================================== *)
(** * Further properties *)
(* ================================================================== *)

(** ** Running a sequence step by step *)

Lemma bind_run {A B} (m : M A) (k : A → M B) w a w1 :
  m w = (Ret a, w1) → (m ≫= k) w = k a w1.
Proof. intros H. unfold mbind, M_bind, bind. by rewrite H. Qed.

Lemma bind_raise {A B} (m : M A) (k : A → M B) w e w1 :
  m w = (Raise e, w1) → (m ≫= k) w = (Raise e, w1).
Proof. intros H. unfold mbind, M_bind, bind. by rewrite H. Qed.

Section fix_osg_version_errors.
Context (X : External).

(** A version file that cannot be opened for reading: what [open] raises
    leaves the function, and nothing is written. *)
Theorem fix_osg_version_unreadable stage relnum w :
  let path := os_path.join stage "etc/osg-version" in
  isfile_fs (w_fs w) (abs_of w path) = false →
  fix_osg_version X stage relnum w = (Raise (IOError path), w)
  ∧ is_Error (IOError path) = false.
Proof.
  intros path Hf. split; [|done].
  unfold fix_osg_version, open_r. munfold. fold path.
  unfold isfile_fs, stat in Hf.
  destruct (resolve _ _ _) as [q|]; [|done]. cbn [mbind option_bind] in Hf.
  by destruct (w_fs w !! q) as [[]|].
Qed.

(** An empty version file is an error of the program's own, and the file
    is left as it is. *)
Theorem fix_osg_version_empty_file stage relnum w q :
  let path := os_path.join stage "etc/osg-version" in
  resolve MAXSYMLINKS (w_fs w) (abs_of w path) = Some q →
  w_fs w !! q = Some (File "") →
  fix_osg_version X stage relnum w
  = (Raise (Error ("Could not read version string from " +:+ repr X path)), w).
Proof.
  intros path Hq Hc. unfold fix_osg_version, open_r, fh_readline. munfold. fold path.
  rewrite Hq, Hc. by rewrite (file_content_File _ _ _ Hc).
Qed.

(** A version file whose first character is neither a digit nor a dot is
    an error of the program's own, and the file is left as it is. *)
Theorem fix_osg_version_no_version stage relnum w q a c :
  let path := os_path.join stage "etc/osg-version" in
  resolve MAXSYMLINKS (w_fs w) (abs_of w path) = Some q →
  w_fs w !! q = Some (File (String a c)) →
  is_version_char a = false →
  fix_osg_version X stage relnum w
  = (Raise (Error (repr X path +:+ " does not contain version")), w).
Proof.
  intros path Hq Hc Ha. unfold fix_osg_version, open_r, fh_readline. munfold. fold path.
  rewrite Hq, Hc. rewrite (file_content_File _ _ _ Hc).
  assert (re_match_version (readline (String a c)) = false) as ->.
  { unfold re_match_version. apply bool_decide_eq_false_2. cbn [readline].
    case_bool_decide; cbn [version_prefix_len]; rewrite Ha; lia. }
  rewrite bool_decide_eq_false_2; [done|]. cbn [readline]. by case_bool_decide.
Qed.

End fix_osg_version_errors.

Lemma version_prefix_len_app v rest :
  version_prefix_len v = String.length v → version_prefix_len rest = 0 →
  version_prefix_len (v +:+ rest) = String.length v.
Proof.
  intros Hv Hr. induction v as [|c v IH]; [done|].
  rewrite str_app_cons. cbn [version_prefix_len String.length] in *.
  destruct (is_version_char c); [|done]. f_equal. apply IH. lia.
Qed.

Lemma str_take_app v rest : str_take (String.length v) (v +:+ rest) = v.
Proof.
  induction v as [|c v IH]; [by destruct rest|].
  rewrite str_app_cons. cbn [String.length str_take]. by rewrite IH.
Qed.

Lemma str_drop_app v rest : str_drop (String.length v) (v +:+ rest) = rest.
Proof.
  induction v as [|c v IH]; [by destruct rest|].
  rewrite str_app_cons. cbn [String.length str_drop]. by rewrite IH.
Qed.

Lemma version_prefix_len_readline s :
  version_prefix_len (readline s) = version_prefix_len s.
Proof.
  induction s as [|c s IH]; [done|]. cbn [readline].
  case_bool_decide as Hc; cbn [version_prefix_len].
  - subst c. reflexivity.
  - by rewrite IH.
Qed.

Section fix_osg_version_marker.
Context (X : External).

(** The marker goes right behind the leading run of digits and dots, and
    the rest of the first line follows it: a first line [v ++ rest], with
    [v] that run, that does not say [tarball] becomes
    [v ++ "-tarball" ++ _relnum ++ rest]; the look-ahead of the pattern
    never gives a character back. *)
Theorem fix_osg_version_marker_position stage relnum w q v rest :
  let path := os_path.join stage "etc/osg-version" in
  resolve MAXSYMLINKS (w_fs w) (abs_of w path) = Some q →
  w_fs w !! q = Some (File (v +:+ rest)) →
  v ≠ "" →
  version_prefix_len v = String.length v →
  version_prefix_len rest = 0 →
  contains "tarball" (readline (v +:+ rest)) = false →
  fix_osg_version X stage relnum w
  = (Ret tt,
     set_fs (<[q := File (v +:+ "-tarball" +:+ _relnum relnum +:+ readline rest)]> (w_fs w)) w).
Proof.
  intros path Hq Hc Hne Hv Hrest Htar.
  assert (no_nl v = true) as Hnl.
  { rewrite <-(str_take_app v ""). apply version_prefix_no_nl.
    rewrite str_app_nil_r. lia. }
  assert (readline (v +:+ rest) = v +:+ readline rest) as Hline by by apply readline_app.
  assert (version_prefix_len (v +:+ readline rest) = String.length v) as Hlen.
  { apply version_prefix_len_app; [done|]. by rewrite version_prefix_len_readline. }
  assert (0 < String.length v) as Hpos by (destruct v; [done|simpl; lia]).
  rewrite (fix_osg_version_run X stage relnum w q (v +:+ rest) Hq Hc).
  - do 3 f_equal. rewrite Hline in *. unfold new_version_str. rewrite Htar.
    unfold re_sub_tarball. rewrite sub_group_len_max by (done || lia).
    by rewrite Hlen, str_take_app, str_drop_app.
  - rewrite Hline. apply bool_decide_eq_true. lia.
Qed.

End fix_osg_version_marker.

Lemma fix_osg_version_marker_position_witness :
  fix_osg_version quiet_tools "/build/stage2" 7
    (version_world ("3.4.5" +:+ " beta" +:+ NL +:+ "second line"))
  = (Ret tt,
     set_fs (<["/build/stage2/etc/osg-version" := File ("3.4.5-tarball-7 beta" +:+ NL)]>
               (w_fs (version_world ("3.4.5" +:+ " beta" +:+ NL +:+ "second line"))))
       (version_world ("3.4.5" +:+ " beta" +:+ NL +:+ "second line"))).
Proof.
  apply (fix_osg_version_marker_position quiet_tools "/build/stage2" 7
           (version_world ("3.4.5" +:+ " beta" +:+ NL +:+ "second line"))
           "/build/stage2/etc/osg-version" "3.4.5" (" beta" +:+ NL +:+ "second line"));
    by vm_compute.
Defined.

Lemma fix_osg_version_unreadable_witness :
  fix_osg_version quiet_tools "/build/stage2" 0 manifest_world
  = (Raise (IOError "/build/stage2/etc/osg-version"), manifest_world)
  ∧ is_Error (IOError "/build/stage2/etc/osg-version") = false.
Proof.
  apply (fix_osg_version_unreadable quiet_tools "/build/stage2" 0 manifest_world).
  vm_compute; reflexivity.
Defined.

Lemma fix_osg_version_empty_file_witness :
  fix_osg_version quiet_tools "/build/stage2" 0 (version_world "")
  = (Raise (Error "Could not read version string from '/build/stage2/etc/osg-version'"),
     version_world "").
Proof.
  apply (fix_osg_version_empty_file quiet_tools "/build/stage2" 0 (version_world "")
           "/build/stage2/etc/osg-version"); vm_compute; reflexivity.
Defined.

Lemma fix_osg_version_no_version_witness :
  fix_osg_version quiet_tools "/build/stage2" 0 (version_world ("OSG 3.4" +:+ NL))
  = (Raise (Error "'/build/stage2/etc/osg-version' does not contain version"),
     version_world ("OSG 3.4" +:+ NL)).
Proof.
  apply (fix_osg_version_no_version quiet_tools "/build/stage2" 0
           (version_world ("OSG 3.4" +:+ NL)) "/build/stage2/etc/osg-version"
           "O" ("SG 3.4" +:+ NL)); vm_compute; reflexivity.
Defined.

Section install_packages.
Context (X : External).

Local Abbreviation query stage cwd := (λ pkg, EvSpawn (rpm_q_cmd stage pkg) cwd).

Lemma package_installed_run stage pkg w :
  let proc := run_process X (rpm_q_cmd stage pkg) (w_cwd w) (w_fs w) in
  package_installed X stage pkg w
  = (match pr_status proc with
     | Some rc => Ret (bool_decide (rc = 0%Z))
     | None => Raise (OSError "rpm")
     end,
     mkWorld (w_cwd w) (pr_fs proc) (w_trace w ++ [query stage (w_cwd w) pkg])).
Proof.
  intros proc. unfold package_installed, subprocess_call, spawn. munfold.
  fold (rpm_q_cmd stage pkg). fold proc. by destruct (pr_status proc).
Qed.

Lemma check_installed_cons stage p pkgs w :
  let proc := run_process X (rpm_q_cmd stage p) (w_cwd w) (w_fs w) in
  let w1 := mkWorld (w_cwd w) (pr_fs proc) (w_trace w ++ [query stage (w_cwd w) p]) in
  for_each (p :: pkgs) (check_installed X stage) w
  = if startswith "@" p then for_each pkgs (check_installed X stage) w
    else match pr_status proc with
         | Some rc =>
             if bool_decide (rc = 0%Z) then for_each pkgs (check_installed X stage) w1
             else (Raise (Error (repr X p +:+ " not installed after yum install")), w1)
         | None => (Raise (OSError "rpm"), w1)
         end.
Proof.
  intros proc w1.
  change (for_each (p :: pkgs) (check_installed X stage) w)
    with (bind (check_installed X stage p)
            (λ _, for_each pkgs (check_installed X stage)) w).
  unfold bind. unfold check_installed at 1.
  destruct (startswith "@" p); [reflexivity|].
  unfold mbind, M_bind, bind. rewrite package_installed_run. fold proc. fold w1.
  destruct (pr_status proc) as [rc|]; [|reflexivity].
  destruct (bool_decide (rc = 0%Z)); reflexivity.
Qed.

(** The loop that checks the packages, when [rpm -q] leaves the file
    system as it is: it goes through when every query exits with 0. *)
Lemma install_check_loop_all stage pkgs cwd fs tr :
  (∀ pkg, pr_fs (run_process X (rpm_q_cmd stage pkg) cwd fs) = fs) →
  Forall (λ pkg, pr_status (run_process X (rpm_q_cmd stage pkg) cwd fs) = Some 0%Z)
    (checked_packages pkgs) →
  for_each pkgs (check_installed X stage) (mkWorld cwd fs tr)
  = (Ret tt, mkWorld cwd fs (tr ++ (query stage cwd <$> checked_packages pkgs))).
Proof.
  intros Hro. revert tr. induction pkgs as [|p pkgs IH]; intros tr Hall.
  { unfold checked_packages. rewrite filter_nil. cbn [fmap list_fmap for_each].
    by rewrite app_nil_r. }
  rewrite check_installed_cons. cbn [w_cwd w_fs w_trace].
  unfold checked_packages in *. rewrite filter_cons in *.
  destruct (startswith "@" p) eqn:Hp.
  - rewrite decide_False in * by done. by apply IH.
  - rewrite decide_True in * by done. apply Forall_cons in Hall as [Hst Hall].
    rewrite Hst, Hro. rewrite bool_decide_eq_true_2 by done.
    rewrite IH by done. by rewrite fmap_cons, <-app_assoc.
Qed.

(** It stops at the first package whose query exits with another status. *)
Lemma install_check_loop_first stage pkgs cwd fs tr pre pkg post rc :
  (∀ pkg, pr_fs (run_process X (rpm_q_cmd stage pkg) cwd fs) = fs) →
  checked_packages pkgs = pre ++ pkg :: post →
  Forall (λ pkg, pr_status (run_process X (rpm_q_cmd stage pkg) cwd fs) = Some 0%Z) pre →
  pr_status (run_process X (rpm_q_cmd stage pkg) cwd fs) = Some rc → rc ≠ 0%Z →
  for_each pkgs (check_installed X stage) (mkWorld cwd fs tr)
  = (Raise (Error (repr X pkg +:+ " not installed after yum install")),
     mkWorld cwd fs (tr ++ (query stage cwd <$> pre ++ [pkg]))).
Proof.
  intros Hro. revert tr pre. induction pkgs as [|p pkgs IH]; intros tr pre Hc Hpre Hst Hrc.
  { unfold checked_packages in Hc. rewrite filter_nil in Hc. by destruct pre. }
  rewrite check_installed_cons. cbn [w_cwd w_fs w_trace].
  unfold checked_packages in *. rewrite filter_cons in Hc.
  destruct (startswith "@" p) eqn:Hp.
  - rewrite decide_False in Hc by done. by apply IH.
  - rewrite decide_True in Hc by done. destruct pre as [|p' pre].
    + injection Hc as -> _. rewrite Hst, Hro.
      rewrite bool_decide_eq_false_2 by done. done.
    + injection Hc as <- Hc. apply Forall_cons in Hpre as [Hp' Hpre].
      rewrite Hp', Hro. rewrite bool_decide_eq_true_2 by done.
      rewrite (IH _ pre) by done. by rewrite <-app_comm_cons, fmap_cons, <-app_assoc.
Qed.

(** When the installation itself has gone through and [rpm -q] leaves
    the file system as it is, the exit statuses of [rpm -q] decide how
    [install_packages] ends.  It asks about the packages that are not
    groups ([@...]), in the order given.  When every query exits with 0
    it returns, having asked about all of them.  When the first query
    that exits with another status is that of [pkg], it raises [Error]
    with the name of [pkg], having asked about no package behind it. *)
Theorem install_packages_checks stage pkgs repofile dver basearch extra_repos w w1 :
  let run := install_packages X stage (ArgList pkgs) repofile dver basearch extra_repos w in
  let status pkg := pr_status (run_process X (rpm_q_cmd stage pkg) (w_cwd w1) (w_fs w1)) in
  let queried l := w_trace w1 ++ (query stage (w_cwd w1) <$> l) in
  yum_block X stage pkgs repofile dver basearch extra_repos w = (Ret tt, w1) →
  (∀ pkg, pr_fs (run_process X (rpm_q_cmd stage pkg) (w_cwd w1) (w_fs w1)) = w_fs w1) →
  (Forall (λ pkg, status pkg = Some 0%Z) (checked_packages pkgs) →
   run = (Ret tt, mkWorld (w_cwd w1) (w_fs w1) (queried (checked_packages pkgs))))
  ∧ (∀ pre pkg post rc,
       checked_packages pkgs = pre ++ pkg :: post →
       Forall (λ pkg, status pkg = Some 0%Z) pre →
       status pkg = Some rc → rc ≠ 0%Z →
       run = (Raise (Error (repr X pkg +:+ " not installed after yum install")),
              mkWorld (w_cwd w1) (w_fs w1) (queried (pre ++ [pkg])))).
Proof.
  intros run status queried Hyum Hro.
  assert (run = for_each pkgs (check_installed X stage)
                  (mkWorld (w_cwd w1) (w_fs w1) (w_trace w1))) as ->.
  { subst run. unfold install_packages.
    unfold mbind at 1. unfold M_bind, bind.
    fold (yum_block X stage pkgs repofile dver basearch extra_repos). rewrite Hyum.
    by destruct w1. }
  split.
  - intros Hall. by apply install_check_loop_all.
  - intros pre pkg post rc Hc Hpre Hst Hrc. by apply (install_check_loop_first _ _ _ _ _ _ _ post rc).
Qed.

End install_packages.

(** [rpm] knows [osg-client] but not [osg-ca-certs]: the group is not
    asked about, nor is [fetch-crl], which stands behind the missing
    package. *)
Lemma install_packages_checks_witness :
  install_packages (tools_without "osg-ca-certs") "/build/stage2"
    (ArgList ["@core"; "osg-client"; "osg-ca-certs"; "fetch-crl"])
    "repo" "el6" "x86_64" None build_world
  = (Raise (Error (repr (tools_without "osg-ca-certs") "osg-ca-certs"
                   +:+ " not installed after yum install")),
     mkWorld (w_cwd build_world) (w_fs build_world)
       (w_trace build_world
        ++ ((λ pkg, EvSpawn (rpm_q_cmd "/build/stage2" pkg) (w_cwd build_world))
            <$> ["osg-client"] ++ ["osg-ca-certs"]))).
Proof.
  refine (proj2 (install_packages_checks (tools_without "osg-ca-certs") "/build/stage2"
                   ["@core"; "osg-client"; "osg-ca-certs"; "fetch-crl"]
                   "repo" "el6" "x86_64" None build_world build_world _ _)
            ["osg-client"] "osg-ca-certs" ["fetch-crl"] 1%Z _ _ _ _).
  - vm_compute; reflexivity.
  - intros pkg. reflexivity.
  - vm_compute; reflexivity.
  - repeat constructor.
  - reflexivity.
  - discriminate.
Defined.

(** ** _cmp_basename *)

Lemma contains_cons_false x c s : contains x (String c s) = false → contains x s = false.
Proof. cbn [contains]. by intros [_ ?]%orb_false_iff. Qed.

Lemma split_last_slash_plain n :
  contains "/" n = false → os_path.split_last_slash n = ("", n).
Proof.
  induction n as [|c n IH]; [done|]. intros Hn.
  cbn [os_path.split_last_slash]. rewrite IH by by eapply contains_cons_false.
  rewrite bool_decide_eq_false_2; [done|]. intros ->.
  cbn [contains] in Hn. apply orb_false_iff in Hn as [Hn _].
  by rewrite str_prefix_cons, decide_True, str_prefix_nil in Hn.
Qed.

Lemma split_last_slash_app a n :
  contains "/" n = false → os_path.split_last_slash (a +:+ "/" +:+ n) = (a +:+ "/", n).
Proof.
  intros Hn. induction a as [|c a IH].
  - change ("" +:+ "/" +:+ n) with (String "/" n). cbn [os_path.split_last_slash].
    by rewrite split_last_slash_plain.
  - rewrite str_app_cons. cbn [os_path.split_last_slash]. rewrite IH.
    by destruct a.
Qed.

Lemma ends_with_char_inv c s : ends_with_char c s = true → ∃ s', s = s' +:+ String c "".
Proof.
  induction s as [|a s IH]; [done|]. cbn [ends_with_char]. destruct s as [|b s].
  - intros ->%bool_decide_eq_true. by exists "".
  - intros [s' Hs]%IH. exists (String a s'). by rewrite Hs.
Qed.

Lemma basename_join d n : contains "/" n = false → os_path.basename (os_path.join d n) = n.
Proof.
  intros Hn. unfold os_path.basename, os_path.join.
  assert (startswith "/" n = false) as ->.
  { destruct (startswith "/" n) eqn:Hs; [|done]. apply contains_prefix in Hs. congruence. }
  case_bool_decide as Hd; cbn [orb].
  - subst d. by rewrite split_last_slash_plain.
  - destruct (ends_with_char "/" d) eqn:He.
    + apply ends_with_char_inv in He as [d' ->]. rewrite <-str_app_assoc.
      by rewrite (split_last_slash_app d' n).
    + by rewrite (split_last_slash_app d n).
Qed.

(** The comparison of the patch files looks at their names alone: two
    files compare as their names do, whatever their directories.  So
    [02-foo.patch] sorts after [el5/01-bar.patch]. *)
Theorem _cmp_basename_ignores_directory d1 d2 a b :
  contains "/" a = false → contains "/" b = false →
  _cmp_basename (os_path.join d1 a) (os_path.join d2 b) = cmp a b
  ∧ _cmp_basename "02-foo.patch" "el5/01-bar.patch" = Gt.
Proof.
  intros Ha Hb. split; [|done]. unfold _cmp_basename. by rewrite !basename_join.
Qed.

Lemma _cmp_basename_ignores_directory_witness :
  _cmp_basename (os_path.join "/patches/common" "04-d.patch")
                (os_path.join "/patches/el6/" "03-c.patch")
  = cmp "04-d.patch" "03-c.patch"
  ∧ _cmp_basename "02-foo.patch" "el5/01-bar.patch" = Gt.
Proof.
  apply (_cmp_basename_ignores_directory "/patches/common" "/patches/el6/"
           "04-d.patch" "03-c.patch"); reflexivity.
Defined.

(** ** fix_gsissh_config_dir *)

Section fix_gsissh_config_dir.
Context (X : External).

(** [fix_gsissh_config_dir] raises no [EnvironmentError]: what
    [safe_makedirs] or [os.symlink] raise of that class leaves as the
    program's [Error]. *)
Theorem fix_gsissh_config_dir_no_EnvironmentError stage w e :
  (fix_gsissh_config_dir X stage w).1 = Raise e → is_EnvironmentError e = false.
Proof.
  unfold fix_gsissh_config_dir, os_path_isdir, try_except, safe_makedirs, call_helper,
    os_symlink. munfold.
  destruct (isdir_fs _ _); cbn [negb]; [|done].
  destruct (safe_makedirs_helper X _ _ _) as [[[]|e1] fs1].
  - cbn [w_fs set_fs]. destruct (fs1 !! _); cbn [is_EnvironmentError fst];
      [by intros [= <-]|done].
  - destruct (is_EnvironmentError e1) eqn:He1; cbn [fst]; [by intros [= <-]|congruence].
Qed.

(** With [etc/gsissh] in the staging root and [usr/etc] a directory when
    [safe_makedirs] has returned, the link [usr/etc/ssh] is made with the
    relative target [../../etc/gsissh] when nothing has that name; when
    something has, the function raises [Error] (with the text of the
    [OSError] behind its own) and leaves it, so a second run on the same
    staging root fails. *)
Theorem fix_gsissh_config_dir_link stage w fs1 :
  let usr_etc := os_path.join stage "usr/etc" in
  let ssh := os_path.join usr_etc "ssh" in
  isdir_fs (w_fs w) (abs_of w (os_path.join stage "etc/gsissh")) = true →
  safe_makedirs_helper X usr_etc (w_cwd w) (w_fs w) = (Ret tt, fs1) →
  fs1 !! abs_of w usr_etc = Some Dir →
  match fs1 !! abs_of w ssh with
  | None =>
      fix_gsissh_config_dir X stage w
      = (Ret tt, set_fs (<[abs_of w ssh := Symlink "../../etc/gsissh"]> fs1) w)
  | Some _ =>
      ∃ text,
        fix_gsissh_config_dir X stage w
        = (Raise (Error ("unable to fix gsissh config dir: " +:+ text)), set_fs fs1 w)
  end.
Proof.
  intros usr_etc ssh Hd Hmk _.
  unfold fix_gsissh_config_dir, os_path_isdir, try_except, safe_makedirs, call_helper,
    os_symlink. munfold. rewrite Hd. cbn [negb]. fold usr_etc. rewrite Hmk.
  cbn [w_fs set_fs]. unfold abs_of. cbn [w_cwd set_fs]. fold ssh.
  destruct (fs1 !! _); [by eexists|]. by rewrite set_fs_set_fs.
Qed.

(** Without a directory [etc/gsissh] in the staging root nothing is done:
    no helper is called and the world is as it was. *)
Theorem fix_gsissh_config_dir_absent stage w :
  isdir_fs (w_fs w) (abs_of w (os_path.join stage "etc/gsissh")) = false →
  fix_gsissh_config_dir X stage w = (Ret tt, w).
Proof.
  intros Hd. unfold fix_gsissh_config_dir, os_path_isdir. munfold. by rewrite Hd.
Qed.

End fix_gsissh_config_dir.

(** A second run on the same staging root: the [OSError] of [os.symlink]
    has become an [Error]. *)
Lemma fix_gsissh_config_dir_no_EnvironmentError_witness :
  is_EnvironmentError (Error "unable to fix gsissh config dir: /build/stage2/usr/etc/ssh")
  = false.
Proof.
  refine (fix_gsissh_config_dir_no_EnvironmentError quiet_tools "/build/stage2"
            (set_fs (<["/build/stage2/usr/etc/ssh" := Symlink "../../etc/gsissh"]>
                       (w_fs gsissh_world)) gsissh_world)
            (Error "unable to fix gsissh config dir: /build/stage2/usr/etc/ssh") _).
  vm_compute; reflexivity.
Defined.

(** The first run makes the link. *)
Lemma fix_gsissh_config_dir_link_witness :
  match w_fs gsissh_world
          !! abs_of gsissh_world (os_path.join (os_path.join "/build/stage2" "usr/etc") "ssh")
  with
  | None =>
      fix_gsissh_config_dir quiet_tools "/build/stage2" gsissh_world
      = (Ret tt,
         set_fs (<[abs_of gsissh_world (os_path.join (os_path.join "/build/stage2" "usr/etc") "ssh")
                   := Symlink "../../etc/gsissh"]> (w_fs gsissh_world)) gsissh_world)
  | Some _ =>
      ∃ text,
        fix_gsissh_config_dir quiet_tools "/build/stage2" gsissh_world
        = (Raise (Error ("unable to fix gsissh config dir: " +:+ text)),
           set_fs (w_fs gsissh_world) gsissh_world)
  end.
Proof.
  refine (fix_gsissh_config_dir_link quiet_tools "/build/stage2" gsissh_world
            (w_fs gsissh_world) _ _ _).
  - vm_compute; reflexivity.
  - reflexivity.
  - vm_compute; reflexivity.
Defined.

Lemma fix_gsissh_config_dir_absent_witness :
  fix_gsissh_config_dir quiet_tools "/build/stage2" build_world = (Ret tt, build_world).
Proof.
  refine (fix_gsissh_config_dir_absent quiet_tools "/build/stage2" build_world _).
  vm_compute; reflexivity.
Defined.

(** ** copy_osg_post_scripts *)

Lemma resolve_not_link fs p :
  (∀ t, fs !! p ≠ Some (Symlink t)) → resolve MAXSYMLINKS fs p = Some p.
Proof.
  intros Hp. unfold MAXSYMLINKS. rewrite resolve_S.
  destruct (fs !! p) as [[| |t]|] eqn:E; try done. by destruct (Hp t).
Qed.

(** [shutil.copyfile] between two names that are no links. *)
Lemma shutil_copyfile_run src dst w c :
  w_fs w !! abs_of w src = Some (File c) →
  (∀ t, w_fs w !! abs_of w dst ≠ Some (Symlink t)) →
  writable_at (w_fs w) (abs_of w dst) = true →
  abs_of w src ≠ abs_of w dst →
  shutil_copyfile src dst w = (Ret tt, set_fs (<[abs_of w dst := File c]> (w_fs w)) w).
Proof.
  intros Hs Hd Hw Hne. unfold shutil_copyfile, open_r, open_w, fh_read, fh_write. munfold.
  rewrite resolve_not_link by (intros t; congruence). rewrite Hs.
  rewrite (resolve_not_link _ _ Hd), Hw. cbn [w_fs set_fs].
  unfold file_content. rewrite lookup_insert_eq.
  rewrite lookup_insert_ne, Hs by congruence.
  by rewrite set_fs_set_fs, insert_insert_eq.
Qed.

Lemma shutil_copyfile_unreadable src dst w :
  isfile_fs (w_fs w) (abs_of w src) = false →
  shutil_copyfile src dst w = (Raise (IOError src), w).
Proof.
  intros Hf. unfold shutil_copyfile, open_r. munfold. unfold isfile_fs, stat in Hf.
  destruct (resolve _ _ _) as [q|]; [|done]. cbn [mbind option_bind] in Hf.
  by destruct (w_fs w !! q) as [[]|].
Qed.

Lemma str_app_inv_head s a b : s +:+ a = s +:+ b → a = b.
Proof. induction s as [|c s IH]; [done|]. rewrite !str_app_cons. intros [= H]. by apply IH. Qed.

Lemma startswith_slash_app p n : p ≠ "" → startswith "/" (p +:+ n) = startswith "/" p.
Proof.
  intros Hp. destruct p as [|c p]; [done|]. rewrite str_app_cons.
  unfold startswith. rewrite !str_prefix_cons. by rewrite !str_prefix_nil.
Qed.

(** Two different names of one directory are different paths, also when
    made absolute. *)
Lemma join_names_differ cwd d n1 n2 :
  d ≠ "" → startswith "/" n1 = false → startswith "/" n2 = false → n1 ≠ n2 →
  os_path.join cwd (os_path.join d n1) ≠ os_path.join cwd (os_path.join d n2).
Proof.
  intros Hd H1 H2 Hne. rewrite (join_plain d n1), (join_plain d n2) by done.
  assert (os_path.join d "" ≠ "") as HP by by apply join_nonempty.
  set (P := os_path.join d "") in *.
  destruct (startswith "/" P) eqn:HPs.
  - unfold os_path.join. rewrite !startswith_slash_app, HPs by done.
    by intros ?%str_app_inv_head.
  - rewrite (join_plain cwd (P +:+ n1)), (join_plain cwd (P +:+ n2))
      by by rewrite startswith_slash_app.
    by intros ?%str_app_inv_head%str_app_inv_head.
Qed.

Lemma isdir_fs_insert_file fs q c p :
  writable_at fs q = true → isdir_fs (<[q := File c]> fs) p = isdir_fs fs p.
Proof.
  intros Hw. unfold isdir_fs, stat. rewrite resolve_insert_file; cycle 1.
  { intros t Ht. unfold writable_at in Hw. by rewrite Ht in Hw. }
  destruct (resolve MAXSYMLINKS fs p) as [r|]; [|done]. cbn [mbind option_bind].
  destruct (decide (q = r)) as [->|Hne].
  - rewrite lookup_insert_eq. unfold writable_at in Hw.
    destruct (fs !! r) as [[]|]; try done;
      by rewrite !bool_decide_eq_false_2 by congruence.
  - by rewrite lookup_insert_ne.
Qed.

Lemma writable_at_insert_file fs q c q' :
  writable_at fs q = true → writable_at fs q' = true →
  writable_at (<[q := File c]> fs) q' = true.
Proof.
  intros Hq Hq'. unfold writable_at. destruct (decide (q = q')) as [->|Hne].
  - by rewrite lookup_insert_eq.
  - rewrite lookup_insert_ne by done. unfold writable_at in Hq'.
    destruct (fs !! q') as [[]|]; try done. by rewrite isdir_fs_insert_file.
Qed.

Lemma writable_at_not_link fs q t : writable_at fs q = true → fs !! q ≠ Some (Symlink t).
Proof. unfold writable_at. intros Hw Ht. by rewrite Ht in Hw. Qed.

(** Copying one script and setting its mode. *)
Lemma copy_script_run src dst w c :
  w_fs w !! abs_of w src = Some (File c) →
  writable_at (w_fs w) (abs_of w dst) = true →
  abs_of w src ≠ abs_of w dst →
  (shutil_copyfile src dst;; os_chmod dst 493) w
  = (Ret tt, set_fs (<[abs_of w dst := File c]> (w_fs w)) w).
Proof.
  intros Hs Hw Hne. unfold mbind, M_bind, bind.
  rewrite (shutil_copyfile_run src dst w c) by
    (done || intros t; by apply writable_at_not_link).
  unfold os_chmod, exists_fs, stat. cbn [w_fs set_fs]. unfold abs_of. cbn [w_cwd set_fs].
  fold (abs_of w dst). rewrite resolve_not_link; cycle 1.
  { intros t. by rewrite lookup_insert_eq. }
  cbn [mbind option_bind]. rewrite lookup_insert_eq.
  by rewrite bool_decide_eq_true_2 by eauto.
Qed.

Section copy_osg_post_scripts.
Context (X : External).

(** Without the script directory the function raises [Error] at once:
    nothing is made or copied. *)
Theorem copy_osg_post_scripts_no_directory stage post_scripts_dir dver basearch w :
  isdir_fs (w_fs w) (abs_of w post_scripts_dir) = false →
  copy_osg_post_scripts X stage post_scripts_dir dver basearch w
  = (Raise (Error ("script directory (" +:+ repr X post_scripts_dir +:+ ") not found")), w).
Proof.
  intros Hd. unfold copy_osg_post_scripts, os_path_isdir. munfold. by rewrite Hd.
Qed.

(** A script that is missing from the script directory: the [IOError]
    of the copy becomes an [Error] that names the script and the
    directory it was to go to; the templates are not written. *)
Theorem copy_osg_post_scripts_missing_script stage post_scripts_dir dver basearch w fs1 :
  let dest_dir := os_path.join stage "osg" in
  let script_path :=
    os_path.join (os_path.abspath (w_cwd w) post_scripts_dir) "osg-post-install" in
  isdir_fs (w_fs w) (abs_of w post_scripts_dir) = true →
  safe_makedirs_helper X dest_dir (w_cwd w) (w_fs w) = (Ret tt, fs1) →
  isfile_fs fs1 (abs_of w script_path) = false →
  copy_osg_post_scripts X stage post_scripts_dir dver basearch w
  = (Raise (Error ("unable to copy script (" +:+ repr X script_path +:+ ") to ("
                   +:+ repr X dest_dir +:+ "): " +:+ str_of_exn (IOError script_path))),
     set_fs fs1 w).
Proof.
  intros dest_dir script_path Hd Hmk Hf.
  unfold copy_osg_post_scripts, os_path_isdir, os_path_abspath, safe_makedirs, call_helper.
  unfold mbind at 1 2 3 4. unfold M_bind, bind. rewrite Hd. cbn [negb].
  fold dest_dir. rewrite Hmk. cbv beta iota. cbn [for_each].
  unfold mbind at 1. unfold M_bind, bind. cbn [w_cwd set_fs]. fold script_path.
  unfold try_except at 1. unfold mbind at 1. unfold M_bind, bind.
  rewrite shutil_copyfile_unreadable by done. done.
Qed.

(** With the script directory there, [osg] made in the staging root,
    both scripts regular files and their places in [osg] free to write,
    the two scripts are copied to [osg] with their content; the
    environment script templates are written after that, in the world
    that holds the copies. *)
Theorem copy_osg_post_scripts_copies stage post_scripts_dir dver basearch w fs1 c1 c2 :
  let dest_dir := os_path.join stage "osg" in
  let src name := abs_of w (os_path.join (os_path.abspath (w_cwd w) post_scripts_dir) name) in
  let dst name := abs_of w (os_path.join dest_dir name) in
  let scripts := ["osg-post-install"; "osgrun.in"] in
  let fs2 := <[dst "osgrun.in" := File c2]> (<[dst "osg-post-install" := File c1]> fs1) in
  isdir_fs (w_fs w) (abs_of w post_scripts_dir) = true →
  safe_makedirs_helper X dest_dir (w_cwd w) (w_fs w) = (Ret tt, fs1) →
  fs1 !! src "osg-post-install" = Some (File c1) →
  fs1 !! src "osgrun.in" = Some (File c2) →
  (∀ a b, a ∈ scripts → b ∈ scripts → src a ≠ dst b) →
  (∀ b, b ∈ scripts → writable_at fs1 (dst b) = true) →
  copy_osg_post_scripts X stage post_scripts_dir dver basearch w
  = try_except
      (call_helper (write_setup_in_files_helper X dest_dir dver basearch))
      is_EnvironmentError
      (λ err, raise (Error
         ("unable to create environment script templates (setup.csh.in, setup.sh.in): "
          +:+ str_of_exn err)))
      (set_fs fs2 w).
Proof.
  intros dest_dir src dst scripts fs2 Hd Hmk Hs1 Hs2 Hne Hw.
  assert ("osg-post-install" ∈ scripts) as Hin1 by (apply elem_of_cons; by left).
  assert ("osgrun.in" ∈ scripts) as Hin2
    by (apply elem_of_cons; right; by apply list_elem_of_singleton).
  assert (dst "osg-post-install" ≠ dst "osgrun.in") as Hdd.
  { apply join_names_differ; [|done..]. unfold dest_dir, os_path.join.
    cbn [startswith String.prefix]. destruct (_ || _); by destruct stage. }
  set (w1 := set_fs fs1 w).
  set (body := λ script_name : string,
    try_except
      (shutil_copyfile
         (os_path.join (os_path.abspath (w_cwd w) post_scripts_dir) script_name)
         (os_path.join dest_dir script_name);;
       os_chmod (os_path.join dest_dir script_name) 493)
      is_EnvironmentError
      (λ err, raise (Error ("unable to copy script ("
                            +:+ repr X (os_path.join (os_path.abspath (w_cwd w) post_scripts_dir)
                                          script_name)
                            +:+ ") to (" +:+ repr X dest_dir +:+ "): " +:+ str_of_exn err)))).
  assert (∀ name c w', w_cwd w' = w_cwd w →
            w_fs w' !! src name = Some (File c) →
            writable_at (w_fs w') (dst name) = true →
            src name ≠ dst name →
            body name w' = (Ret tt, set_fs (<[dst name := File c]> (w_fs w')) w')) as Hbody.
  { intros name c w' Hcwd Hs Hwr Hsd. unfold body, try_except.
    rewrite (copy_script_run _ _ w' c); unfold abs_of; rewrite Hcwd; done. }
  assert (for_each scripts body w1 = (Ret tt, set_fs fs2 w)) as Hloop.
  { pose proof (Hbody "osg-post-install" c1 w1 eq_refl Hs1 (Hw _ Hin1) (Hne _ _ Hin1 Hin1))
      as H1.
    set (w2 := set_fs (<[dst "osg-post-install" := File c1]> (w_fs w1)) w1) in *.
    assert (body "osgrun.in" w2 = (Ret tt, set_fs (<[dst "osgrun.in" := File c2]> (w_fs w2)) w2))
      as H2.
    { apply Hbody; [done| | |by apply Hne].
      - unfold w2, w1. cbn [w_fs set_fs]. rewrite lookup_insert_ne; [exact Hs2|].
        intros E. by apply (Hne "osgrun.in" "osg-post-install").
      - unfold w2, w1. cbn [w_fs set_fs]. apply writable_at_insert_file; by apply Hw. }
    unfold scripts. cbn [for_each].
    etrans; [apply (bind_run _ _ _ _ _ H1)|]. cbv beta.
    etrans; [apply (bind_run _ _ _ _ _ H2)|]. cbv beta.
    unfold w2, w1. cbn [w_fs set_fs]. by rewrite !set_fs_set_fs. }
  unfold copy_osg_post_scripts.
  etrans; [apply (bind_run _ _ w true w)|];
    [by unfold os_path_isdir; rewrite Hd|].
  cbn [negb].
  etrans; [apply (bind_run _ _ w (os_path.abspath (w_cwd w) post_scripts_dir) w);
           reflexivity|]. cbv beta.
  etrans; [apply (bind_run _ _ w tt w1)|];
    [by unfold safe_makedirs, call_helper; fold dest_dir; rewrite Hmk|].
  cbv beta.
  etrans; [apply (bind_run _ _ w1 tt (set_fs fs2 w)); exact Hloop|].
  reflexivity.
Qed.

End copy_osg_post_scripts.

Lemma copy_osg_post_scripts_no_directory_witness :
  copy_osg_post_scripts quiet_tools "/build/stage2" "scripts" "el6" "x86_64" manifest_world
  = (Raise (Error ("script directory (" +:+ repr quiet_tools "scripts" +:+ ") not found")),
     manifest_world).
Proof.
  refine (copy_osg_post_scripts_no_directory quiet_tools "/build/stage2" "scripts"
            "el6" "x86_64" manifest_world _).
  vm_compute; reflexivity.
Defined.

(** The staging root itself taken for the script directory: it holds no
    script. *)
Lemma copy_osg_post_scripts_missing_script_witness :
  copy_osg_post_scripts quiet_tools "/build/stage2" "stage2" "el6" "x86_64" build_world
  = (Raise (Error ("unable to copy script ("
                   +:+ repr quiet_tools
                         (os_path.join (os_path.abspath (w_cwd build_world) "stage2")
                            "osg-post-install")
                   +:+ ") to (" +:+ repr quiet_tools (os_path.join "/build/stage2" "osg")
                   +:+ "): "
                   +:+ str_of_exn
                         (IOError (os_path.join (os_path.abspath (w_cwd build_world) "stage2")
                                     "osg-post-install")))),
     set_fs (w_fs build_world) build_world).
Proof.
  refine (copy_osg_post_scripts_missing_script quiet_tools "/build/stage2" "stage2"
            "el6" "x86_64" build_world (w_fs build_world) _ _ _).
  - vm_compute; reflexivity.
  - reflexivity.
  - vm_compute; reflexivity.
Defined.

Lemma copy_osg_post_scripts_copies_witness :
  copy_osg_post_scripts quiet_tools "/build/stage2" "scripts" "el6" "x86_64" build_world
  = try_except
      (call_helper (write_setup_in_files_helper quiet_tools
                      (os_path.join "/build/stage2" "osg") "el6" "x86_64"))
      is_EnvironmentError
      (λ err, raise (Error
         ("unable to create environment script templates (setup.csh.in, setup.sh.in): "
          +:+ str_of_exn err)))
      (set_fs
         (<[abs_of build_world (os_path.join (os_path.join "/build/stage2" "osg") "osgrun.in")
            := File "#!/bin/sh"]>
            (<[abs_of build_world
                 (os_path.join (os_path.join "/build/stage2" "osg") "osg-post-install")
               := File "#!/bin/sh"]> (w_fs build_world)))
         build_world).
Proof.
  refine (copy_osg_post_scripts_copies quiet_tools "/build/stage2" "scripts"
            "el6" "x86_64" build_world (w_fs build_world) "#!/bin/sh" "#!/bin/sh"
            _ _ _ _ _ _).
  - vm_compute; reflexivity.
  - reflexivity.
  - vm_compute; reflexivity.
  - vm_compute; reflexivity.
  - intros a b Ha Hb.
    apply elem_of_cons in Ha as [->|Ha]; [|apply list_elem_of_singleton in Ha as ->];
      (apply elem_of_cons in Hb as [->|Hb]; [|apply list_elem_of_singleton in Hb as ->]);
      vm_compute; discriminate.
  - intros b Hb.
    apply elem_of_cons in Hb as [->|Hb]; [|apply list_elem_of_singleton in Hb as ->];
      vm_compute; reflexivity.
Defined.

(** ** get_stage1_rpmlist *)

Lemma no_ws_app a b : no_ws a = true → no_ws b = true → no_ws (a +:+ b) = true.
Proof.
  intros Ha Hb. induction a as [|c a IH]; [done|]. rewrite str_app_cons.
  cbn [no_ws] in *. apply andb_true_iff in Ha as [-> Ha]. by rewrite IH.
Qed.

Lemma split_ws_go_words s cur :
  (∀ w, cur = Some w → word w) → Forall word (split_ws_go cur s).
Proof.
  revert cur. induction s as [|c s IH]; intros cur Hcur; cbn [split_ws_go].
  - destruct cur as [w|]; [|constructor]. constructor; [by apply Hcur|constructor].
  - destruct (in_chars whitespace c) eqn:Hc.
    + apply Forall_app. split; [|by apply IH].
      destruct cur as [w|]; [|constructor]. constructor; [by apply Hcur|constructor].
    + apply IH. intros w [= <-]. destruct cur as [v|]; cbn [from_option].
      * destruct (Hcur v eq_refl) as [Hv Hws]. split; [by destruct v|].
        apply no_ws_app; [done|]. cbn [no_ws]. by rewrite Hc.
      * split; [done|]. cbn [no_ws]. by rewrite Hc.
Qed.

Lemma split_ws_lstrip s : split_ws (lstrip whitespace s) = split_ws s.
Proof.
  unfold split_ws. induction s as [|c s IH]; [done|]. cbn [lstrip].
  destruct (in_chars whitespace c) eqn:Hc; [|done].
  cbn [split_ws_go]. by rewrite Hc.
Qed.

Lemma split_ws_go_rstrip cur s :
  split_ws_go cur (rstrip whitespace s) = split_ws_go cur s.
Proof.
  revert cur. induction s as [|c s IH]; intros cur; [done|]. cbn [rstrip].
  destruct (rstrip whitespace s) as [|a r] eqn:Hr.
  - cbn [split_ws_go]. destruct (in_chars whitespace c) eqn:Hc.
    + rewrite <-IH. cbn [split_ws_go option_list]. by rewrite app_nil_r.
    + cbn [split_ws_go]. rewrite Hc. by rewrite <-IH.
  - cbn [split_ws_go]. destruct (in_chars whitespace c); by rewrite <-IH.
Qed.

(** [strip()] before [split()] changes nothing. *)
Lemma split_ws_strip s : split_ws (strip s) = split_ws s.
Proof. unfold strip, split_ws. rewrite split_ws_go_rstrip. apply split_ws_lstrip. Qed.

Lemma split_ws_go_Some_app cur w s :
  no_ws w = true → split_ws_go (Some cur) (w +:+ s) = split_ws_go (Some (cur +:+ w)) s.
Proof.
  revert cur. induction w as [|c w IH]; intros cur Hw.
  - by rewrite str_app_nil_r.
  - cbn [no_ws] in Hw. apply andb_true_iff in Hw as [Hc Hw]. apply negb_true_iff in Hc.
    rewrite str_app_cons. cbn [split_ws_go]. rewrite Hc. cbn [from_option].
    rewrite IH by done. do 2 f_equal. rewrite <-str_app_assoc. done.
Qed.

Lemma split_ws_word_NL w s : word w → split_ws (w +:+ NL +:+ s) = w :: split_ws s.
Proof.
  intros [Hne Hw]. unfold split_ws. destruct w as [|c w]; [done|].
  cbn [no_ws] in Hw. apply andb_true_iff in Hw as [Hc Hw]. apply negb_true_iff in Hc.
  rewrite str_app_cons. cbn [split_ws_go]. rewrite Hc. cbn [from_option].
  rewrite split_ws_go_Some_app by done. reflexivity.
Qed.

(** A list of words, one on a line, is read back as it is. *)
Lemma split_ws_lines l : Forall word l → split_ws (str_join NL l +:+ NL) = l.
Proof.
  induction 1 as [|x l Hx Hl IH]; [done|].
  destruct l as [|y l].
  - change (str_join NL [x] +:+ NL) with (x +:+ NL +:+ "").
    by rewrite (split_ws_word_NL x "").
  - change (str_join NL (x :: y :: l)) with (x +:+ NL +:+ str_join NL (y :: l)).
    rewrite <-!str_app_assoc. rewrite split_ws_word_NL by done. by rewrite IH.
Qed.

Section get_stage1_rpmlist.
Context (X : External).

(** [get_stage1_rpmlist] changes nothing.  When [stage1_rpmlist] in the
    staging root is a regular file it returns, and what it returns are
    words: no entry is empty or holds white space, whatever the file looks
    like.  When it is not, the function raises the [IOError] of [open]. *)
Theorem get_stage1_rpmlist_words stage w :
  let path := os_path.join stage "stage1_rpmlist" in
  if isfile_fs (w_fs w) (abs_of w path)
  then ∃ l, get_stage1_rpmlist stage w = (Ret l, w) ∧ Forall word l
  else get_stage1_rpmlist stage w = (Raise (IOError path), w).
Proof.
  intros path. unfold get_stage1_rpmlist, open_r, fh_read, isfile_fs, stat. munfold.
  fold path. destruct (resolve _ _ _) as [q|]; [|done]. cbn [mbind option_bind].
  destruct (w_fs w !! q) as [[c| |t]|]; try done.
  eexists. split; [reflexivity|]. by apply split_ws_go_words.
Qed.

(** A stage 1 package list with one package on a line, as
    [write_package_list_file] writes its list, is read back as that list. *)
Theorem get_stage1_rpmlist_reads_lines stage w q l :
  resolve MAXSYMLINKS (w_fs w) (abs_of w (os_path.join stage "stage1_rpmlist")) = Some q →
  w_fs w !! q = Some (File (str_join NL l +:+ NL)) →
  Forall word l →
  get_stage1_rpmlist stage w = (Ret l, w).
Proof.
  intros Hq Hc Hl. unfold get_stage1_rpmlist, open_r, fh_read. munfold.
  rewrite Hq, Hc. rewrite (file_content_File _ _ _ Hc).
  by rewrite split_ws_strip, split_ws_lines.
Qed.

End get_stage1_rpmlist.

(** The lines [write_package_list_file] writes are package names as
    [rpm -qa] printed them: words.  So its file, read the way
    [get_stage1_rpmlist] reads a package list, gives the same list back. *)
Theorem manifest_round_trip output baseline :
  let installed := split_ws (strip output) in
  let lines := sorted (elements ((list_to_set installed : gset string) ∖ list_to_set baseline)) in
  Forall word lines
  ∧ split_ws (strip (str_join NL lines +:+ NL)) = lines.
Proof.
  intros installed lines.
  assert (Forall word lines) as Hw.
  { apply Forall_forall. intros x Hx. unfold lines, sorted in Hx.
    rewrite (list_sort_perm (λ y, y)) in Hx.
    apply elem_of_elements, elem_of_difference in Hx as [Hx _].
    apply elem_of_list_to_set in Hx.
    assert (Forall word installed) as Hall by by apply split_ws_go_words.
    by apply (proj1 (Forall_forall _ _) Hall). }
  split; [done|]. by rewrite split_ws_strip, split_ws_lines.
Qed.

Lemma get_stage1_rpmlist_reads_lines_witness :
  get_stage1_rpmlist "/build/stage2" build_world = (Ret ["a-1-1"; "b-2-1"], build_world).
Proof.
  refine (get_stage1_rpmlist_reads_lines "/build/stage2" build_world
            "/build/stage2/stage1_rpmlist" ["a-1-1"; "b-2-1"] _ _ _).
  - vm_compute; reflexivity.
  - vm_compute; reflexivity.
  - repeat constructor; discriminate.
Defined.

(** ** _write_exclude_list and tar_stage_dir *)

Lemma open_r_unreadable p w :
  isfile_fs (w_fs w) (abs_of w p) = false → open_r p w = (Raise (IOError p), w).
Proof.
  intros Hf. unfold open_r. unfold isfile_fs, stat in Hf.
  destruct (resolve _ _ _) as [q|]; [|done]. cbn [mbind option_bind] in Hf.
  by destruct (w_fs w !! q) as [[]|].
Qed.

(** [_write_exclude_list] does not touch the exclude file when the file
    list cannot be read, and it refuses to write over its input. *)
Theorem _write_exclude_list_refuses in_path out_path prepend_dir extras w :
  in_path ≠ out_path →
  isfile_fs (w_fs w) (abs_of w in_path) = false →
  _write_exclude_list in_path out_path prepend_dir extras w = (Raise (IOError in_path), w)
  ∧ _write_exclude_list in_path in_path prepend_dir extras w = (Raise AssertionError, w).
Proof.
  intros Hne Hf. split.
  - unfold _write_exclude_list. rewrite bool_decide_eq_true_2 by done.
    etrans; [apply (bind_run _ _ w tt w); reflexivity|]. cbv beta.
    apply bind_raise, bind_raise. by apply open_r_unreadable.
  - unfold _write_exclude_list. rewrite bool_decide_eq_false_2 by naive_solver. done.
Qed.

Lemma _write_exclude_list_refuses_witness :
  _write_exclude_list "/build/stage2/stage1_filelist" "/build/exclude_list"
    "stage2" excludes build_world
  = (Raise (IOError "/build/stage2/stage1_filelist"), build_world)
  ∧ _write_exclude_list "/build/stage2/stage1_filelist" "/build/stage2/stage1_filelist"
      "stage2" excludes build_world = (Raise AssertionError, build_world).
Proof.
  refine (_write_exclude_list_refuses "/build/stage2/stage1_filelist" "/build/exclude_list"
            "stage2" excludes build_world _ _).
  - discriminate.
  - vm_compute; reflexivity.
Defined.

(** What [_write_exclude_list] leaves in the exclude file. *)
Lemma _write_exclude_list_run in_path out_path prepend_dir extras w qi qo c :
  in_path ≠ out_path →
  resolve MAXSYMLINKS (w_fs w) (abs_of w in_path) = Some qi →
  w_fs w !! qi = Some (File c) →
  resolve MAXSYMLINKS (w_fs w) (abs_of w out_path) = Some qo →
  writable_at (w_fs w) qo = true →
  qi ≠ qo →
  _write_exclude_list in_path out_path prepend_dir extras w
  = (Ret tt,
     set_fs (<[qo := File (str_join "" (exclude_line prepend_dir <$> readlines c)
                           +:+ str_join "" (exclude_extra prepend_dir <$> extras))]>
               (w_fs w)) w).
Proof.
  intros Hne Hqi Hc Hqo Hw Hq.
  assert (∀ t, w_fs w !! qo ≠ Some (Symlink t)) as Hnl.
  { intros t. by eapply resolve_Some_not_link. }
  unfold _write_exclude_list, open_r, open_w, open_a, fh_lines.
  rewrite bool_decide_eq_true_2 by done. munfold.
  rewrite Hqi, Hc, Hqo, Hw. cbn [w_fs set_fs].
  unfold file_content at 1. rewrite lookup_insert_ne, Hc by done.
  erewrite for_each_fh_write; [|cbn [w_fs set_fs]; apply lookup_insert_eq].
  cbn [w_fs set_fs]. rewrite set_fs_set_fs, insert_insert_eq.
  destruct extras as [|e extras]; cbn [truthy].
  + f_equal. by rewrite str_app_nil_r.
  + cbn [w_fs set_fs]. unfold abs_of in *. cbn [w_cwd set_fs].
    rewrite resolve_insert_file, Hqo by done. rewrite lookup_insert_eq.
    erewrite for_each_fh_write; [|cbn [w_fs set_fs]; apply lookup_insert_eq].
    cbn [w_fs set_fs]. by rewrite set_fs_set_fs, insert_insert_eq.
Qed.

Lemma readline_no_nl s : no_nl s = true → readline s = s.
Proof.
  induction s as [|c s IH]; [done|]. cbn [no_nl readline].
  intros [Hc Hs]%andb_true_iff. apply negb_true_iff in Hc. rewrite Hc. by rewrite IH.
Qed.

Lemma readlines_app_NL b s : readlines (b +:+ NL +:+ s) = readlines (b +:+ NL) ++ readlines s.
Proof.
  induction b as [|c b IH]; [done|]. rewrite !str_app_cons. cbn [readlines].
  case_bool_decide; [by rewrite IH|]. rewrite IH.
  destruct (readlines (b +:+ NL)) as [|l ls] eqn:E; [|done].
  exfalso. clear -E. induction b as [|a b IHb]; [done|].
  rewrite str_app_cons in E. cbn [readlines] in E. case_bool_decide; [done|].
  by destruct (readlines (b +:+ NL)).
Qed.

(** A file list whose last line has no newline: the last entry and the
    first of the extra excludes come to stand on one line of the exclude
    file, with no newline between them. *)
Theorem _write_exclude_list_unterminated
    in_path out_path prepend_dir e extras w qi qo body last :
  in_path ≠ out_path →
  resolve MAXSYMLINKS (w_fs w) (abs_of w in_path) = Some qi →
  w_fs w !! qi = Some (File (body +:+ last)) →
  resolve MAXSYMLINKS (w_fs w) (abs_of w out_path) = Some qo →
  writable_at (w_fs w) qo = true →
  qi ≠ qo →
  body = "" ∨ (∃ b, body = b +:+ NL) →
  last ≠ "" → no_nl last = true →
  _write_exclude_list in_path out_path prepend_dir (e :: extras) w
  = (Ret tt,
     set_fs (<[qo := File (str_join "" (exclude_line prepend_dir <$> readlines body)
                           +:+ (exclude_line prepend_dir last
                                +:+ os_path.join prepend_dir e +:+ NL)
                           +:+ str_join "" (exclude_extra prepend_dir <$> extras))]>
               (w_fs w)) w).
Proof.
  intros Hne Hqi Hc Hqo Hw Hq Hbody Hlast Hnl.
  rewrite (_write_exclude_list_run _ _ _ _ _ qi qo _ Hne Hqi Hc Hqo Hw Hq).
  do 3 f_equal.
  assert (readlines (body +:+ last) = readlines body ++ [last]) as ->.
  { assert (readlines last = [last]) as Hl
      by (apply readlines_single; [done|by apply readline_no_nl]).
    destruct Hbody as [->|[b ->]]; [done|].
    by rewrite <-str_app_assoc, readlines_app_NL, Hl. }
  rewrite fmap_app, str_join_empty_app. cbn [fmap list_fmap].
  rewrite !str_join_empty_cons. unfold exclude_extra at 1.
  change (str_join "" []) with "". rewrite str_app_nil_r.
  by rewrite <-!str_app_assoc.
Qed.

(** [etc/bar.conf] and [var/log/yum.log] share the line
    [stage2/etc/bar.confstage2/var/log/yum.log]. *)
Lemma _write_exclude_list_unterminated_witness :
  _write_exclude_list "/build/stage2/stage1_filelist" "/build/exclude_list" "stage2"
    ["var/log/yum.log"; "tmp/*"] unterminated_world
  = (Ret tt,
     set_fs (<["/build/exclude_list" :=
               File (str_join "" (exclude_line "stage2" <$> readlines ("etc/foo.conf" +:+ NL))
                     +:+ (exclude_line "stage2" "etc/bar.conf"
                          +:+ os_path.join "stage2" "var/log/yum.log" +:+ NL)
                     +:+ str_join "" (exclude_extra "stage2" <$> ["tmp/*"]))]>
               (w_fs unterminated_world)) unterminated_world).
Proof.
  refine (_write_exclude_list_unterminated "/build/stage2/stage1_filelist"
            "/build/exclude_list" "stage2" "var/log/yum.log" ["tmp/*"] unterminated_world
            "/build/stage2/stage1_filelist" "/build/exclude_list"
            ("etc/foo.conf" +:+ NL) "etc/bar.conf" _ _ _ _ _ _ _ _ _).
  - discriminate.
  - vm_compute; reflexivity.
  - vm_compute; reflexivity.
  - vm_compute; reflexivity.
  - vm_compute; reflexivity.
  - discriminate.
  - right. by exists "etc/foo.conf".
  - discriminate.
  - reflexivity.
Defined.

Section tar_stage_dir_runs.
Context (X : External).

(** With a stage 1 file list in the staging root, [tar_stage_dir] writes
    the exclude file next to the staging root (the entries of the file
    list, then every entry of the deny-list), hands it to [tar] with
    [--exclude-from], and raises [Error] when [tar] exits with a status
    other than 0. *)
Theorem tar_stage_dir_with_filelist stage tarball w qi qo c :
  let parent := os_path.dirname stage in
  let base := os_path.basename stage in
  let exclude_list := os_path.join parent "exclude_list" in
  let tarball_abs := os_path.abspath (w_cwd w) tarball in
  let cmd := ["tar"; "-C"; parent; "-czf"; tarball_abs; base;
              "--exclude-from=" +:+ exclude_list] in
  let fs1 := <[qo := File (str_join "" (exclude_line base <$> readlines c)
                           +:+ str_join "" (exclude_extra base <$> excludes))]> (w_fs w) in
  let proc := run_process X cmd (w_cwd w) fs1 in
  resolve MAXSYMLINKS (w_fs w) (abs_of w (os_path.join stage "stage1_filelist")) = Some qi →
  w_fs w !! qi = Some (File c) →
  resolve MAXSYMLINKS (w_fs w) (abs_of w exclude_list) = Some qo →
  writable_at (w_fs w) qo = true →
  qi ≠ qo →
  tar_stage_dir X stage tarball w
  = (match pr_status proc with
     | Some rc =>
         if bool_decide (rc ≠ 0%Z)
         then Raise (Error ("unable to create tarball (" +:+ repr X tarball_abs
                            +:+ ") from stage 2 dir (" +:+ repr X stage +:+ ")"))
         else Ret tt
     | None => Raise (OSError "tar")
     end,
     mkWorld (w_cwd w) (pr_fs proc) (w_trace w ++ [EvSpawn cmd (w_cwd w)])).
Proof.
  intros parent base exclude_list tarball_abs cmd fs1 proc Hqi Hc Hqo Hw Hq.
  assert (os_path.join stage "stage1_filelist" ≠ exclude_list) as Hne.
  { intros E. apply (f_equal os_path.basename) in E. unfold exclude_list in E.
    by rewrite !basename_join in E. }
  assert (isfile_fs (w_fs w) (abs_of w (os_path.join stage "stage1_filelist")) = true) as Hf.
  { unfold isfile_fs, stat. rewrite Hqi. cbn [mbind option_bind]. by rewrite Hc. }
  unfold tar_stage_dir.
  etrans; [apply (bind_run _ _ w tarball_abs w); reflexivity|]. cbv beta.
  etrans; [apply (bind_run _ _ w true w); by unfold os_path_isfile; rewrite Hf|]. cbv beta.
  fold parent base exclude_list.
  etrans; [apply (bind_run _ _ w cmd (set_fs fs1 w))|].
  { etrans; [apply (bind_run _ _ w tt (set_fs fs1 w))|reflexivity].
    by apply (_write_exclude_list_run _ _ _ _ _ qi qo c). }
  cbv beta. unfold subprocess_call, spawn. munfold. cbn [w_cwd w_fs set_fs]. fold proc.
  destruct (pr_status proc) as [rc|]; [|done]. cbn [fst snd]. by case_bool_decide.
Qed.

(** Without a stage 1 file list [tar_stage_dir] runs the bare command
    and raises [Error] exactly when [tar] exits with a status other
    than 0. *)
Theorem tar_stage_dir_status stage tarball w rc :
  let tarball_abs := os_path.abspath (w_cwd w) tarball in
  let cmd := ["tar"; "-C"; os_path.dirname stage; "-czf"; tarball_abs;
              os_path.basename stage] in
  isfile_fs (w_fs w) (abs_of w (os_path.join stage "stage1_filelist")) = false →
  pr_status (run_process X cmd (w_cwd w) (w_fs w)) = Some rc →
  (tar_stage_dir X stage tarball w).1
  = if bool_decide (rc = 0%Z) then Ret tt
    else Raise (Error ("unable to create tarball (" +:+ repr X tarball_abs
                       +:+ ") from stage 2 dir (" +:+ repr X stage +:+ ")")).
Proof.
  intros tarball_abs cmd Hf Hst.
  unfold tar_stage_dir, os_path_abspath, os_path_isfile, subprocess_call, spawn. munfold.
  rewrite Hf. fold tarball_abs cmd. rewrite Hst. cbn [fst snd].
  by repeat case_bool_decide.
Qed.

End tar_stage_dir_runs.

Lemma tar_stage_dir_with_filelist_witness :
  let w := filelist_world in
  let parent := os_path.dirname "/build/stage2" in
  let base := os_path.basename "/build/stage2" in
  let exclude_list := os_path.join parent "exclude_list" in
  let tarball_abs := os_path.abspath (w_cwd w) "out.tar.gz" in
  let cmd := ["tar"; "-C"; parent; "-czf"; tarball_abs; base;
              "--exclude-from=" +:+ exclude_list] in
  let fs1 := <["/build/exclude_list" :=
               File (str_join "" (exclude_line base
                                    <$> readlines ("etc/foo.conf" +:+ NL +:+ "./etc/bar.conf"
                                                   +:+ NL +:+ ".hidden" +:+ NL))
                     +:+ str_join "" (exclude_extra base <$> excludes))]> (w_fs w) in
  let proc := run_process failing_tools cmd (w_cwd w) fs1 in
  tar_stage_dir failing_tools "/build/stage2" "out.tar.gz" w
  = (match pr_status proc with
     | Some rc =>
         if bool_decide (rc ≠ 0%Z)
         then Raise (Error ("unable to create tarball (" +:+ repr failing_tools tarball_abs
                            +:+ ") from stage 2 dir (" +:+ repr failing_tools "/build/stage2"
                            +:+ ")"))
         else Ret tt
     | None => Raise (OSError "tar")
     end,
     mkWorld (w_cwd w) (pr_fs proc) (w_trace w ++ [EvSpawn cmd (w_cwd w)])).
Proof.
  refine (tar_stage_dir_with_filelist failing_tools "/build/stage2" "out.tar.gz" filelist_world
            "/build/stage2/stage1_filelist" "/build/exclude_list"
            ("etc/foo.conf" +:+ NL +:+ "./etc/bar.conf" +:+ NL +:+ ".hidden" +:+ NL)
            _ _ _ _ _).
  - vm_compute; reflexivity.
  - vm_compute; reflexivity.
  - vm_compute; reflexivity.
  - vm_compute; reflexivity.
  - discriminate.
Defined.

Lemma tar_stage_dir_status_witness :
  (tar_stage_dir failing_tools "/build/stage2" "out.tar.gz" build_world).1
  = if bool_decide (2%Z = 0%Z) then Ret tt
    else Raise (Error ("unable to create tarball ("
                       +:+ repr failing_tools (os_path.abspath (w_cwd build_world) "out.tar.gz")
                       +:+ ") from stage 2 dir (" +:+ repr failing_tools "/build/stage2"
                       +:+ ")")).
Proof.
  refine (tar_stage_dir_status failing_tools "/build/stage2" "out.tar.gz" build_world 2 _ _).
  - vm_compute; reflexivity.
  - reflexivity.
Defined.

(** ** patch_installed_packages and write_package_list_file: edges *)

Section edges.
Context (X : External).

(** Without the staging directory [patch_installed_packages] raises the
    [OSError] of [os.chdir], which is not the program's [Error], before
    it has looked for a patch: nothing is run and the world is as it was. *)
Theorem patch_installed_packages_no_stage_dir stage dirs dver w :
  isdir_fs (w_fs w) (abs_of w stage) = false →
  os_path.isabs (w_cwd w) = true →
  os_path.normpath (w_cwd w) = w_cwd w →
  dir_at (w_cwd w) w →
  patch_installed_packages X stage dirs dver w = (Raise (OSError stage), w)
  ∧ is_Error (OSError stage) = false.
Proof.
  intros Hst Habs Hnorm Hd. split; [|done].
  unfold patch_installed_packages.
  etrans; [apply (bind_run _ _ w w w); reflexivity|]. cbv beta zeta.
  etrans; [apply (bind_run _ _ w (w_cwd w) w); reflexivity|]. cbv beta.
  unfold try_finally.
  rewrite (bind_raise _ _ w (OSError stage) w) by (unfold os_chdir; by rewrite Hst).
  unfold os_chdir. rewrite (abs_of_abs _ _ Habs), (isdir_fs_Dir _ _ Hd).
  unfold os_path.abspath. rewrite Habs, Hnorm. by destruct w.
Qed.

(** What [write_package_list_file] does when [rpm -qa] has succeeded. *)
Lemma write_package_list_file_run stage exclude_list w q :
  let proc := run_process X (rpm_qa_cmd stage) (w_cwd w) (w_fs w) in
  let installed := split_ws (strip (pr_stdout proc)) in
  let baseline := items (exclude_arg exclude_list) in
  let lines := sorted (elements ((list_to_set installed : gset string) ∖ list_to_set baseline)) in
  pr_status proc = Some 0%Z →
  resolve MAXSYMLINKS (pr_fs proc)
    (os_path.join (w_cwd w) (os_path.join stage "osg/rpm-versions.txt")) = Some q →
  writable_at (pr_fs proc) q = true →
  write_package_list_file X stage exclude_list w
    = (Ret tt, mkWorld (w_cwd w) (<[q := File (str_join NL lines +:+ NL)]> (pr_fs proc))
                 (w_trace w ++ [EvSpawn (rpm_qa_cmd stage) (w_cwd w)])).
Proof.
  intros proc installed baseline lines Hst Hq Hw.
  unfold write_package_list_file, spawn, open_w, fh_write. munfold.
  fold proc. rewrite Hst. cbn [fst snd]. rewrite bool_decide_eq_false_2 by naive_solver.
  unfold abs_of. cbn [w_cwd w_fs add_event set_fs]. rewrite Hq, Hw.
  cbn [w_cwd w_fs add_event set_fs]. f_equal. unfold set_fs. cbn [w_cwd w_fs w_trace].
  f_equal. rewrite (file_content_File _ _ "") by apply lookup_insert_eq.
  by rewrite insert_insert_eq.
Qed.

(** When every installed package is in the baseline, the manifest is
    not empty: it holds one empty line. *)
Theorem write_package_list_file_nothing_new stage exclude_list w q :
  let proc := run_process X (rpm_qa_cmd stage) (w_cwd w) (w_fs w) in
  pr_status proc = Some 0%Z →
  resolve MAXSYMLINKS (pr_fs proc)
    (os_path.join (w_cwd w) (os_path.join stage "osg/rpm-versions.txt")) = Some q →
  writable_at (pr_fs proc) q = true →
  (∀ x, x ∈ split_ws (strip (pr_stdout proc)) → x ∈ items (exclude_arg exclude_list)) →
  write_package_list_file X stage exclude_list w
    = (Ret tt, mkWorld (w_cwd w) (<[q := File NL]> (pr_fs proc))
                 (w_trace w ++ [EvSpawn (rpm_qa_cmd stage) (w_cwd w)])).
Proof.
  intros proc Hst Hq Hw Hall.
  rewrite (write_package_list_file_run stage exclude_list w q Hst Hq Hw). fold proc.
  assert ((list_to_set (split_ws (strip (pr_stdout proc))) : gset string)
            ∖ list_to_set (items (exclude_arg exclude_list)) = ∅) as ->.
  { apply set_eq. intros x. rewrite elem_of_difference, !elem_of_list_to_set.
    rewrite elem_of_empty. split; [|done]. intros [Hx Hn]. by apply Hn, Hall. }
  by rewrite elements_empty.
Qed.

End edges.

Lemma patch_installed_packages_no_stage_dir_witness :
  patch_installed_packages patch_tools "/build/stage3" ["/patches/common"] "el6" build_world
  = (Raise (OSError "/build/stage3"), build_world)
  ∧ is_Error (OSError "/build/stage3") = false.
Proof.
  refine (patch_installed_packages_no_stage_dir patch_tools "/build/stage3"
            ["/patches/common"] "el6" build_world _ _ _ _);
    vm_compute; reflexivity.
Defined.

(** All three packages of [rpm -qa] are in the baseline. *)
Lemma write_package_list_file_nothing_new_witness :
  write_package_list_file rpm_tools "/build/stage2"
    (ArgList ["a-1-1"; "b-2-1"; "c-3-1"; "d-4-1"]) manifest_world
  = (Ret tt,
     mkWorld (w_cwd manifest_world)
       (<["/build/stage2/osg/rpm-versions.txt" := File NL]>
          (pr_fs (run_process rpm_tools (rpm_qa_cmd "/build/stage2") (w_cwd manifest_world)
                    (w_fs manifest_world))))
       (w_trace manifest_world ++ [EvSpawn (rpm_qa_cmd "/build/stage2") (w_cwd manifest_world)])).
Proof.
  refine (write_package_list_file_nothing_new rpm_tools "/build/stage2"
            (ArgList ["a-1-1"; "b-2-1"; "c-3-1"; "d-4-1"]) manifest_world
            "/build/stage2/osg/rpm-versions.txt" _ _ _ _).
  - reflexivity.
  - vm_compute; reflexivity.
  - vm_compute; reflexivity.
  - intros x Hx. apply list_elem_of_In in Hx. apply list_elem_of_In.
    vm_compute in Hx. cbn. tauto.
Defined.

(** ** fix_alternatives_symlinks: what it leaves alone *)

Section fix_step_trace.
Context (stage : string) (Hstage : startswith "/" stage = true).

(** The loop body writes at most one warning. *)
Lemma fix_step_trace r a w :
  let run := fix_alternatives_symlink stage r a w in
  w_trace run.2 = w_trace w ∨ ∃ msg, w_trace run.2 = w_trace w ++ [EvPrint msg].
Proof using Hstage.
  intros run. subst run.
  unfold fix_alternatives_symlink, os_path_islink, os_readlink, os_path_exists,
    os_path_relpath, os_unlink, os_symlink, print, islink_fs.
  munfold. set (q := abs_of w (os_path.join r a)).
  destruct (w_fs w !! q) as [[c| |lq]|] eqn:Hq; cbn [negb]; try (left; reflexivity).
  cbv beta iota. fold q. rewrite Hq. cbv beta iota.
  destruct (startswith "/etc/alternatives" lq) eqn:Hlq; cbn [negb]; [|left; reflexivity].
  cbv beta iota. rewrite (abs_of_stage stage Hstage).
  destruct (w_fs w !! os_path.join stage (lstrip "/" lq)) as [[c| |altq]|] eqn:Hsl;
    cbn [negb]; try (right; eexists; reflexivity).
  cbv beta iota. rewrite (abs_of_stage stage Hstage), Hsl. cbv beta iota.
  rewrite (abs_of_stage stage Hstage).
  destruct (exists_fs (w_fs w) (os_path.join stage (lstrip "/" altq))) eqn:Hex;
    cbn [negb]; [|right; eexists; reflexivity].
  destruct (relpath_Some (w_cwd w) (os_path.join stage (lstrip "/" altq))
              (os_path.dirname (os_path.join r a)) (stage_join_nonempty stage Hstage _))
    as [nw Hnw].
  cbv beta iota. rewrite Hnw. cbv beta iota. fold q. rewrite Hq. cbv beta iota.
  cbn [w_fs set_fs]. unfold abs_of. cbn [w_cwd set_fs].
  fold (abs_of w (os_path.join r a)). fold q. rewrite lookup_delete_eq.
  left. reflexivity.
Qed.

End fix_step_trace.

Section walk_invariant.
Context (stage : string) (Hstage : startswith "/" stage = true).
Context (I : World → Prop).
Local Abbreviation top0 := (os_path.join stage "usr").
Context (Hstep : ∀ r a w, walk_root top0 r → plain a → I w →
           (fix_alternatives_symlink stage r a w).1 = Ret tt
           ∧ I (fix_alternatives_symlink stage r a w).2).

Local Abbreviation walk n top := (os_walk_for n top (fix_files stage)).
Local Abbreviation descend n top dirs :=
  (for_each dirs (λ name,
     l ← os_path_islink (os_path.join top name);
     if l : bool then ret tt else walk n (os_path.join top name))).

Lemma fix_files_keeps r files w :
  walk_root top0 r → Forall plain files → I w →
  (fix_files stage r [] files w).1 = Ret tt ∧ I (fix_files stage r [] files w).2.
Proof using Hstep.
  intros Hr Hfiles. revert w. unfold fix_files.
  induction Hfiles as [|a files Ha Hfiles IH]; intros w Hw; [done|].
  cbn [for_each]. unfold mbind, M_bind, bind.
  destruct (Hstep r a w Hr Ha Hw) as [Hret Hw1].
  destruct (fix_alternatives_symlink stage r a w) as [[[]|e] w1]; [|done].
  by apply IH.
Qed.

Lemma descend_keeps n top dirs w :
  (∀ top w, walk_root top0 top → I w → (walk n top w).1 = Ret tt ∧ I (walk n top w).2) →
  walk_root top0 top → Forall plain dirs → I w →
  (descend n top dirs w).1 = Ret tt ∧ I (descend n top dirs w).2.
Proof.
  intros IHn Ht Hdirs. revert w.
  induction Hdirs as [|x dirs Hx Hdirs IH]; intros w Hw; [done|].
  rewrite descend_cons.
  destruct (islink_fs _ _).
  - by apply IH.
  - destruct (IHn (os_path.join top x) w (walk_root_child _ _ _ Ht Hx) Hw) as [Hret Hw1].
    destruct (walk n (os_path.join top x) w) as [[[]|e] w1]; [|done]. by apply IH.
Qed.

(** What every turn of the loop keeps, the whole walk keeps. *)
Lemma walk_keeps n top w :
  walk_root top0 top → I w → (walk n top w).1 = Ret tt ∧ I (walk n top w).2.
Proof using Hstep.
  revert top w. induction n as [|n IHn]; intros top w Ht Hw; [done|].
  rewrite os_walk_for_S. destruct (isdir_fs _ _); [|done]. cbv zeta.
  apply (bind_unit_post _ _ I).
  - apply (fix_files_keeps top _ w); [done| |done]. by eapply listdir_plain.
  - intros w1 Hw1. apply descend_keeps; [done..| |done]. by eapply listdir_plain.
Qed.

End walk_invariant.

Section frame.
Context (stage : string) (Hstage : startswith "/" stage = true).
Context (w0 : World).

Lemma frame_inv_step r a w :
  walk_root (os_path.join stage "usr") r → plain a → frame_inv stage w0 w →
  (fix_alternatives_symlink stage r a w).1 = Ret tt
  ∧ frame_inv stage w0 (fix_alternatives_symlink stage r a w).2.
Proof using Hstage.
  intros Hr Ha (Hcwd & Hfs & evs & Htr & Hevs).
  destruct (walk_child_below _ _ _ Hr Ha) as [Hqabs Hqb].
  pose proof (fix_step_trace stage Hstage r a w) as Htrace. cbv zeta in Htrace.
  assert (∃ evs', w_trace (fix_alternatives_symlink stage r a w).2 = w_trace w0 ++ evs'
                  ∧ Forall (λ e, ∃ msg, e = EvPrint msg) evs') as Htr'.
  { destruct Htrace as [->|[msg ->]]; [by exists evs|].
    exists (evs ++ [EvPrint msg]). rewrite Htr, <-app_assoc. split; [done|].
    apply Forall_app. split; [done|]. constructor; [by exists msg|constructor]. }
  destruct (fix_step_cases stage Hstage r a w) as (Hret & Hc & [Hsame|Hfix]).
  { split; [done|]. unfold frame_inv. by rewrite Hc, Hsame. }
  destruct Hfix as (lq & altq & nw & Hq & Hlq & Hsl & Hex & Hnw & Hnew).
  split; [done|]. rewrite (abs_of_abs _ _ Hqabs) in Hq, Hnew.
  unfold frame_inv. rewrite Hc, Hnew. split; [done|]. split; [|done].
  assert (startswith "/" lq = true) as Hlqabs.
  { apply str_prefix_inv in Hlq. rewrite Hlq. done. }
  intros k. destruct (decide (k = os_path.join r a)) as [->|Hne].
  - right. split; [done|]. exists lq, nw.
    assert (w_fs w0 !! os_path.join r a = Some (Symlink lq)) as Hq0.
    { destruct (Hfs (os_path.join r a)) as [<-|(_ & lp & new & _ & _ & _ & Hk & Hrel)];
        [done|]. rewrite Hk in Hq. injection Hq as ->. congruence. }
    split_and!; [done|done| |apply lookup_insert_eq|by eapply relpath_relative].
    unfold islink_fs.
    destruct (Hfs (os_path.join stage (lstrip "/" lq))) as [<-|[Hb _]]; [by rewrite Hsl|].
    by rewrite SL_outside in Hb.
  - rewrite lookup_insert_ne by done.
    destruct (Hfs k) as [?|(Hb & lp & new & H1 & H2 & H3 & H4 & H5)]; [by left|].
    right. split; [done|]. exists lp, new. by rewrite lookup_insert_ne.
Qed.

Lemma fix_alternatives_symlinks_inv :
  (fix_alternatives_symlinks stage w0).1 = Ret tt
  ∧ frame_inv stage w0 (fix_alternatives_symlinks stage w0).2.
Proof using Hstage.
  change (fix_alternatives_symlinks stage w0)
    with (os_walk_for (walk_fuel (w_fs w0)) (os_path.join stage "usr") (fix_files stage) w0).
  apply (walk_keeps stage (frame_inv stage w0)).
  - intros r a w. apply frame_inv_step.
  - split; [by apply join_abs_l|by left].
  - split; [done|]. split; [by left|]. exists []. by rewrite app_nil_r.
Qed.

End frame.

(** [fix_alternatives_symlinks] on a staging root with an absolute path
    ends without an error, in the directory it started in, and has
    started no process: what it has written are warnings.  Every name of
    the file system is as it was, but for links below [usr/] of the staging
    root whose target began with [/etc/alternatives] and whose
    counterpart in the staging root was a link: such a link may have got
    a new target, and that is a relative one.  So a link that does not
    lead into [/etc/alternatives], and one whose counterpart is missing
    from the staging root, keep their targets. *)
Theorem fix_alternatives_symlinks_frame stage w :
  startswith "/" stage = true →
  let run := fix_alternatives_symlinks stage w in
  run.1 = Ret tt
  ∧ w_cwd run.2 = w_cwd w
  ∧ (∃ evs, w_trace run.2 = w_trace w ++ evs ∧ Forall (λ e, ∃ msg, e = EvPrint msg) evs)
  ∧ (∀ k, w_fs run.2 !! k = w_fs w !! k ∨ rewritten stage (w_fs w) (w_fs run.2) k)
  ∧ (∀ k lp, w_fs w !! k = Some (Symlink lp) →
       startswith "/etc/alternatives" lp = false
       ∨ islink_fs (w_fs w) (os_path.join stage (lstrip "/" lp)) = false →
       w_fs run.2 !! k = Some (Symlink lp)).
Proof.
  intros Hstage run.
  destruct (fix_alternatives_symlinks_inv stage Hstage w) as (Hret & Hcwd & Hfs & Htr).
  fold run in Hret, Hcwd, Hfs, Htr. split_and!; try done.
  intros k lp Hk Hbroken.
  destruct (Hfs k) as [->|(_ & lp' & new & Hk' & Hlp & Hsl & _)]; [done|].
  rewrite Hk in Hk'. injection Hk' as <-. destruct Hbroken; congruence.
Qed.

Lemma fix_alternatives_symlinks_frame_witness :
  let run := fix_alternatives_symlinks "/b/stage2" alternatives_world in
  run.1 = Ret tt
  ∧ w_cwd run.2 = w_cwd alternatives_world
  ∧ (∃ evs, w_trace run.2 = w_trace alternatives_world ++ evs
            ∧ Forall (λ e, ∃ msg, e = EvPrint msg) evs)
  ∧ (∀ k, w_fs run.2 !! k = w_fs alternatives_world !! k
          ∨ rewritten "/b/stage2" (w_fs alternatives_world) (w_fs run.2) k)
  ∧ (∀ k lp, w_fs alternatives_world !! k = Some (Symlink lp) →
       startswith "/etc/alternatives" lp = false
       ∨ islink_fs (w_fs alternatives_world) (os_path.join "/b/stage2" (lstrip "/" lp)) = false →
       w_fs run.2 !! k = Some (Symlink lp)).
Proof.
  refine (fix_alternatives_symlinks_frame "/b/stage2" alternatives_world _). reflexivity.
Defined.

(** ** remove_empty_dirs_from_tarball *)

Section remove_empty_dirs.
Context (X : External).

Lemma remove_empty_dirs_from_tarball_repack tarball topdir recreate_dirs w :
  let tmp := mkdtemp_name X (w_fs w) in
  w_fs w !! tmp = None →
  remove_empty_dirs_from_tarball X tarball topdir recreate_dirs w
  = try_finally
      (repack X tmp (os_path.abspath (w_cwd w) tarball) (os_path.basename tarball) topdir
         recreate_dirs)
      (os_chdir (w_cwd w);; shutil_rmtree tmp)
      (set_fs (<[tmp := Dir]> (w_fs w)) w).
Proof.
  intros tmp Hfresh. rewrite remove_empty_dirs_from_tarball_eq. fold tmp. by rewrite Hfresh.
Qed.

Lemma keeps_repack d tmp tarball_abs tarball_base topdir recreate_dirs :
  tools_keep_dir X d → keeps d (repack X tmp tarball_abs tarball_base topdir recreate_dirs).
Proof.
  intros Htools. unfold repack.
  apply keeps_bind; [apply keeps_os_chdir|intros _].
  apply keeps_bind; [by apply keeps_subprocess_check_call|intros _].
  apply keeps_bind; [by apply keeps_subprocess_call|intros _].
  apply keeps_bind; [apply keeps_for_each; intros rdir; by apply keeps_safe_makedirs|].
  intros _.
  apply keeps_bind; [by apply keeps_subprocess_check_call|intros _].
  apply keeps_shutil_copy.
Qed.

(** The temporary directory does not outlive the call.  Let
    [tempfile.mkdtemp] pick a fresh absolute name, let the process be in
    a directory with an absolute name, and let the tools leave these two
    directories in place.  Then after [remove_empty_dirs_from_tarball],
    whether it has returned or raised, nothing is left at the temporary
    name or below it. *)
Theorem remove_empty_dirs_from_tarball_cleans_up tarball topdir recreate_dirs w k :
  let tmp := mkdtemp_name X (w_fs w) in
  w_fs w !! tmp = None →
  startswith "/" tmp = true →
  startswith "/" (w_cwd w) = true →
  dir_at (w_cwd w) w →
  tools_keep_dir X tmp →
  tools_keep_dir X (w_cwd w) →
  k = tmp ∨ below tmp k = true →
  w_fs (remove_empty_dirs_from_tarball X tarball topdir recreate_dirs w).2 !! k = None.
Proof.
  intros tmp Hfresh Htmp Hcwd Hd Hkt Hkc Hk.
  rewrite remove_empty_dirs_from_tarball_repack by done. fold tmp.
  set (w1 := set_fs (<[tmp := Dir]> (w_fs w)) w).
  assert (dir_at tmp w1) as Ht1 by apply lookup_insert_eq.
  assert (dir_at (w_cwd w) w1) as Hc1.
  { unfold dir_at, w1. cbn [w_fs set_fs]. rewrite lookup_insert_ne; [done|].
    intros E. unfold dir_at in Hd. rewrite <-E in Hd. congruence. }
  pose proof (keeps_repack tmp tmp (os_path.abspath (w_cwd w) tarball)
                (os_path.basename tarball) topdir recreate_dirs Hkt w1 Ht1) as Ht2.
  pose proof (keeps_repack (w_cwd w) tmp (os_path.abspath (w_cwd w) tarball)
                (os_path.basename tarball) topdir recreate_dirs Hkc w1 Hc1) as Hc2.
  unfold try_finally.
  destruct (repack X tmp (os_path.abspath (w_cwd w) tarball) (os_path.basename tarball) topdir
              recreate_dirs w1) as [r w2]. cbn [snd] in Ht2, Hc2. unfold dir_at in Ht2, Hc2.
  assert ((os_chdir (w_cwd w);; shutil_rmtree tmp) w2
          = (Ret tt, set_fs (filter (λ kv, ¬ (kv.1 = tmp ∨ below tmp kv.1)) (w_fs w2))
                       (set_cwd (os_path.abspath (w_cwd w2) (w_cwd w)) w2))) as ->.
  { etrans; [apply (bind_run _ _ w2 tt (set_cwd (os_path.abspath (w_cwd w2) (w_cwd w)) w2))|].
    - unfold os_chdir. rewrite (abs_of_abs _ _ Hcwd). by rewrite (isdir_fs_Dir _ _ Hc2).
    - unfold shutil_rmtree. rewrite (abs_of_abs _ _ Htmp). cbn [w_fs set_cwd].
      by rewrite Ht2. }
  cbn [snd w_fs set_fs]. apply map_lookup_filter_None. right.
  intros x _ Hnot. apply Hnot. cbn [fst]. destruct Hk as [Hk|Hk]; [by left|right].
  by rewrite Hk.
Qed.

(** When the archive cannot be unpacked, [check_call] raises
    [CalledProcessError], which is not the program's [Error]; neither
    [find] nor the second [tar] is run, and the temporary directory is
    removed all the same. *)
Theorem remove_empty_dirs_from_tarball_unpack_fails tarball topdir recreate_dirs w rc :
  let tmp := mkdtemp_name X (w_fs w) in
  let unpack := ["tar"; "-xzf"; os_path.abspath (w_cwd w) tarball] in
  let proc := run_process X unpack (os_path.abspath (w_cwd w) tmp) (<[tmp := Dir]> (w_fs w)) in
  w_fs w !! tmp = None →
  startswith "/" tmp = true →
  startswith "/" (w_cwd w) = true →
  pr_status proc = Some rc → rc ≠ 0%Z →
  pr_fs proc !! tmp = Some Dir →
  pr_fs proc !! w_cwd w = Some Dir →
  let run := remove_empty_dirs_from_tarball X tarball topdir recreate_dirs w in
  run.1 = Raise (CalledProcessError rc (CmdArgv unpack))
  ∧ is_Error (CalledProcessError rc (CmdArgv unpack)) = false
  ∧ w_trace run.2 = w_trace w ++ [EvSpawn unpack (os_path.abspath (w_cwd w) tmp)]
  ∧ w_fs run.2 = filter (λ kv, ¬ (kv.1 = tmp ∨ below tmp kv.1)) (pr_fs proc).
Proof.
  intros tmp unpack proc Hfresh Htmp Hcwd Hst Hrc Ht Hc run. subst run.
  rewrite remove_empty_dirs_from_tarball_repack by done. fold tmp.
  set (w1 := set_fs (<[tmp := Dir]> (w_fs w)) w).
  set (w2 := mkWorld (os_path.abspath (w_cwd w) tmp) (pr_fs proc)
               (w_trace w ++ [EvSpawn unpack (os_path.abspath (w_cwd w) tmp)])).
  unfold try_finally.
  assert (repack X tmp (os_path.abspath (w_cwd w) tarball) (os_path.basename tarball) topdir
            recreate_dirs w1
          = (Raise (CalledProcessError rc (CmdArgv unpack)), w2)) as ->.
  { unfold repack. etrans; [apply (bind_run _ _ w1 tt (set_cwd (os_path.abspath (w_cwd w) tmp) w1))|].
    - unfold os_chdir. rewrite (abs_of_abs _ _ Htmp).
      rewrite (isdir_fs_Dir _ tmp); [done|]. apply lookup_insert_eq.
    - apply bind_raise. unfold subprocess_check_call.
      etrans; [apply (bind_run _ _ _ rc w2)|].
      + unfold subprocess_call, spawn. munfold. cbn [w_cwd w_fs set_cwd set_fs w1].
        fold unpack. fold proc. by rewrite Hst.
      + by rewrite bool_decide_eq_true_2. }
  assert ((os_chdir (w_cwd w);; shutil_rmtree tmp) w2
          = (Ret tt, set_fs (filter (λ kv, ¬ (kv.1 = tmp ∨ below tmp kv.1)) (w_fs w2))
                       (set_cwd (os_path.abspath (w_cwd w2) (w_cwd w)) w2))) as ->.
  { etrans; [apply (bind_run _ _ w2 tt (set_cwd (os_path.abspath (w_cwd w2) (w_cwd w)) w2))|].
    - unfold os_chdir. rewrite (abs_of_abs _ _ Hcwd). change (w_fs w2) with (pr_fs proc).
      by rewrite (isdir_fs_Dir _ _ Hc).
    - unfold shutil_rmtree. rewrite (abs_of_abs _ _ Htmp). cbn [w_fs set_cwd].
      change (w_fs w2) with (pr_fs proc). by rewrite Ht. }
  done.
Qed.

End remove_empty_dirs.

Lemma remove_empty_dirs_from_tarball_cleans_up_witness :
  w_fs (remove_empty_dirs_from_tarball quiet_tools "out.tar.gz" "stage2"
          ["var/lib/osg-ca-certs"] build_world).2 !! "/tmp/tmpXYZ" = None.
Proof.
  refine (remove_empty_dirs_from_tarball_cleans_up quiet_tools "out.tar.gz" "stage2"
            ["var/lib/osg-ca-certs"] build_world "/tmp/tmpXYZ" _ _ _ _ _ _ _).
  - vm_compute; reflexivity.
  - reflexivity.
  - reflexivity.
  - vm_compute; reflexivity.
  - split; intros; assumption.
  - split; intros; assumption.
  - left; reflexivity.
Defined.

Lemma remove_empty_dirs_from_tarball_unpack_fails_witness :
  let w := build_world in
  let tmp := mkdtemp_name failing_tools (w_fs w) in
  let unpack := ["tar"; "-xzf"; os_path.abspath (w_cwd w) "out.tar.gz"] in
  let proc := run_process failing_tools unpack (os_path.abspath (w_cwd w) tmp)
                (<[tmp := Dir]> (w_fs w)) in
  let run := remove_empty_dirs_from_tarball failing_tools "out.tar.gz" "stage2"
               ["var/lib/osg-ca-certs"] w in
  run.1 = Raise (CalledProcessError 2 (CmdArgv unpack))
  ∧ is_Error (CalledProcessError 2 (CmdArgv unpack)) = false
  ∧ w_trace run.2 = w_trace w ++ [EvSpawn unpack (os_path.abspath (w_cwd w) tmp)]
  ∧ w_fs run.2 = filter (λ kv, ¬ (kv.1 = tmp ∨ below tmp kv.1)) (pr_fs proc).
Proof.
  refine (remove_empty_dirs_from_tarball_unpack_fails failing_tools "out.tar.gz" "stage2"
            ["var/lib/osg-ca-certs"] build_world 2 _ _ _ _ _ _ _).
  - vm_compute; reflexivity.
  - reflexivity.
  - reflexivity.
  - reflexivity.
  - discriminate.
  - vm_compute; reflexivity.
  - vm_compute; reflexivity.
Defined.

(** ** make_stage2_tarball: the processes it starts *)

Section appends.
Context (P : event → Prop).

Lemma appends_same {A} (m : M A) : (∀ w, w_trace (m w).2 = w_trace w) → appends P m.
Proof. intros H w. exists []. by rewrite H, app_nil_r. Qed.

Lemma appends_ret {A} (a : A) : appends P (mret a).
Proof. by apply appends_same. Qed.

Lemma appends_raise {A} e : appends P (@raise A e).
Proof. by apply appends_same. Qed.

Lemma appends_bind {A B} (m : M A) (k : A → M B) :
  appends P m → (∀ a, appends P (k a)) → appends P (m ≫= k).
Proof.
  intros Hm Hk w. unfold mbind, M_bind, bind. destruct (Hm w) as (evs & Ht & Hevs).
  destruct (m w) as [[a|e] w1]; cbn [snd] in Ht; [|by exists evs].
  destruct (Hk a w1) as (evs' & Ht' & Hevs'). exists (evs ++ evs').
  rewrite Ht', Ht, app_assoc. split; [done|]. by apply Forall_app.
Qed.

(** The same, when what [m] returns is known to be an [R]. *)
Lemma appends_bind_val {A B} (R : A → Prop) (m : M A) (k : A → M B) :
  appends P m → (∀ w a w', m w = (Ret a, w') → R a) → (∀ a, R a → appends P (k a)) →
  appends P (m ≫= k).
Proof.
  intros Hm HR Hk w. unfold mbind, M_bind, bind. destruct (Hm w) as (evs & Ht & Hevs).
  destruct (m w) as [[a|e] w1] eqn:Hmw; cbn [snd] in Ht; [|by exists evs].
  destruct (Hk a (HR _ _ _ Hmw) w1) as (evs' & Ht' & Hevs'). exists (evs ++ evs').
  rewrite Ht', Ht, app_assoc. split; [done|]. by apply Forall_app.
Qed.

Lemma appends_for_each {A} (l : list A) body :
  (∀ x, appends P (body x)) → appends P (for_each l body).
Proof.
  intros Hb. induction l as [|x l IH]; [apply appends_ret|].
  cbn [for_each]. apply appends_bind; [apply Hb|done].
Qed.

Lemma appends_try_except {A} (m : M A) catches h :
  appends P m → (∀ e, appends P (h e)) → appends P (try_except m catches h).
Proof.
  intros Hm Hh w. unfold try_except. destruct (Hm w) as (evs & Ht & Hevs).
  destruct (m w) as [[a|e] w1]; cbn [snd] in Ht; [by exists evs|].
  destruct (catches e); [|by exists evs].
  destruct (Hh e w1) as (evs' & Ht' & Hevs'). exists (evs ++ evs').
  rewrite Ht', Ht, app_assoc. split; [done|]. by apply Forall_app.
Qed.

Lemma appends_try_finally {A} (m : M A) f :
  appends P m → appends P f → appends P (try_finally m f).
Proof.
  intros Hm Hf w. unfold try_finally. destruct (Hm w) as (evs & Ht & Hevs).
  destruct (m w) as [r w1]; cbn [snd] in Ht.
  destruct (Hf w1) as (evs' & Ht' & Hevs'). exists (evs ++ evs').
  destruct (f w1) as [[[]|e] w2]; cbn [snd] in *;
    (rewrite Ht', Ht, app_assoc; split; [done|]; by apply Forall_app).
Qed.

Lemma appends_if {A} (b : bool) (m1 m2 : M A) :
  appends P m1 → appends P m2 → appends P (if b then m1 else m2).
Proof. by destruct b. Qed.

Lemma appends_with {A} (enter : M A) exit body :
  appends P enter → (∀ e, appends P (exit e)) → (∀ a, appends P (body a)) →
  appends P (with_ enter exit body).
Proof.
  intros He Hx Hb. unfold with_. apply appends_bind; [done|]. intros a w.
  destruct (Hb a w) as (evs & Ht & Hevs).
  destruct (body a w) as [[[]|e] w1]; cbn [snd] in Ht.
  - assert (appends P (exit None;; ret tt)) as Hk.
    { apply appends_bind; [apply Hx|]. intros _. apply appends_ret. }
    destruct (Hk w1) as (evs' & Ht' & Hevs'). exists (evs ++ evs').
    rewrite Ht', Ht, app_assoc. split; [done|]. by apply Forall_app.
  - assert (appends P (swallow ← exit (Some e); if swallow : bool then ret tt else raise e))
      as Hk.
    { apply appends_bind; [apply Hx|]. intros b.
      apply appends_if; [apply appends_ret|apply appends_raise]. }
    destruct (Hk w1) as (evs' & Ht' & Hevs'). exists (evs ++ evs').
    rewrite Ht', Ht, app_assoc. split; [done|]. by apply Forall_app.
Qed.

Lemma appends_emit e : P e → appends P (emit e).
Proof. intros He w. exists [e]. split; [done|]. by constructor. Qed.

Lemma appends_call_helper {A} (h : helper A) : appends P (call_helper h).
Proof. apply appends_same. intros w. unfold call_helper. by destruct (h _ _). Qed.

Lemma appends_open_r p : appends P (open_r p).
Proof.
  apply appends_same. intros w. unfold open_r.
  destruct (resolve _ _ _) as [q|]; [|done]. by destruct (w_fs w !! q) as [[]|].
Qed.

Lemma appends_open_w p : appends P (open_w p).
Proof.
  apply appends_same. intros w. unfold open_w.
  destruct (resolve _ _ _) as [q|]; [|done]. by destruct (writable_at _ _).
Qed.

Lemma appends_open_a p : appends P (open_a p).
Proof.
  apply appends_same. intros w. unfold open_a.
  destruct (resolve _ _ _) as [q|]; [|done]. destruct (w_fs w !! q) as [[]|]; try done.
  by destruct (isdir_fs _ _).
Qed.

Lemma appends_os_chdir p : appends P (os_chdir p).
Proof. apply appends_same. intros w. unfold os_chdir. by destruct (isdir_fs _ _). Qed.

Lemma appends_os_readlink p : appends P (os_readlink p).
Proof. apply appends_same. intros w. unfold os_readlink. by destruct (_ !! _) as [[]|]. Qed.

Lemma appends_os_unlink p : appends P (os_unlink p).
Proof. apply appends_same. intros w. unfold os_unlink. by destruct (_ !! _) as [[]|]. Qed.

Lemma appends_os_symlink t p : appends P (os_symlink t p).
Proof. apply appends_same. intros w. unfold os_symlink. by destruct (_ !! _). Qed.

Lemma appends_os_chmod p mode : appends P (os_chmod p mode).
Proof. apply appends_same. intros w. unfold os_chmod. by destruct (exists_fs _ _). Qed.

Lemma appends_os_path_relpath p s : appends P (os_path_relpath p s).
Proof.
  apply appends_same. intros w. unfold os_path_relpath. by destruct (os_path.relpath _ _ _).
Qed.

Lemma appends_shutil_rmtree p : appends P (shutil_rmtree p).
Proof. apply appends_same. intros w. unfold shutil_rmtree. by destruct (_ !! _) as [[]|]. Qed.

Lemma appends_shutil_copyfile src dst : appends P (shutil_copyfile src dst).
Proof.
  unfold shutil_copyfile.
  apply appends_bind; [apply appends_open_r|intros fsrc].
  apply appends_bind; [apply appends_open_w|intros fdst].
  apply appends_bind; [by apply appends_same|intros c]. by apply appends_same.
Qed.

Lemma appends_shutil_copy src dst : appends P (shutil_copy src dst).
Proof.
  unfold shutil_copy. apply appends_bind; [by apply appends_same|intros d].
  apply appends_shutil_copyfile.
Qed.

Lemma appends_os_walk_for n top body :
  (∀ root dirs files, appends P (body root dirs files)) → appends P (os_walk_for n top body).
Proof.
  intros Hb. revert top. induction n as [|n IH]; intros top; [apply appends_ret|].
  cbn [os_walk_for].
  apply appends_bind.
  { apply appends_try_except; [|intros e; apply appends_ret].
    apply appends_bind; [|intros names; apply appends_ret].
    apply appends_same. intros w. unfold os_listdir. by destruct (isdir_fs _ _). }
  intros [names|]; [|apply appends_ret].
  apply appends_bind; [by apply appends_same|intros w].
  apply appends_bind; [apply Hb|intros _].
  apply appends_for_each. intros name.
  apply appends_bind; [by apply appends_same|intros l].
  apply appends_if; [apply appends_ret|apply IH].
Qed.

Lemma appends_os_walk top body :
  (∀ root dirs files, appends P (body root dirs files)) → appends P (os_walk top body).
Proof.
  intros Hb. unfold os_walk. apply appends_bind; [by apply appends_same|intros w].
  by apply appends_os_walk_for.
Qed.

End appends.

Lemma starts_mono progs progs' e : progs ⊆ progs' → starts progs e → starts progs' e.
Proof. intros Hsub. destruct e as [| | |[|prog argv] cwd]; try done. apply Hsub. Qed.

Lemma appends_mono {A} (P Q : event → Prop) (m : M A) :
  (∀ e, P e → Q e) → appends P m → appends Q m.
Proof.
  intros HPQ Hm w. destruct (Hm w) as (evs & Ht & Hevs). exists evs. split; [done|].
  by eapply Forall_impl.
Qed.


Section processes.
Context (X : External) (progs : list string).
Local Abbreviation Q := (starts progs).

Lemma appends_spawn prog args : prog ∈ progs → appends Q (spawn X (prog :: args)).
Proof.
  intros Hin w. exists [EvSpawn (prog :: args) (w_cwd w)]. split.
  - unfold spawn. by destruct (pr_status _).
  - by constructor.
Qed.

Lemma appends_subprocess_call prog args :
  prog ∈ progs → appends Q (subprocess_call X (prog :: args)).
Proof.
  intros Hin. unfold subprocess_call. apply appends_bind; [by apply appends_spawn|].
  intros r. apply appends_ret.
Qed.

Lemma appends_subprocess_check_call prog args :
  prog ∈ progs → appends Q (subprocess_check_call X (prog :: args)).
Proof.
  intros Hin. unfold subprocess_check_call.
  apply appends_bind; [by apply appends_subprocess_call|]. intros rc.
  apply appends_if; [apply appends_raise|apply appends_ret].
Qed.

Lemma appends_statusmsg msg : appends Q (statusmsg msg).
Proof. by apply appends_emit. Qed.

Lemma appends_package_installed stage pkg :
  "rpm" ∈ progs → appends Q (package_installed X stage pkg).
Proof.
  intros Hin. unfold package_installed.
  apply appends_bind; [by apply appends_subprocess_call|]. intros rc. apply appends_ret.
Qed.

Lemma appends_get_stage1_rpmlist stage : appends Q (get_stage1_rpmlist stage).
Proof.
  unfold get_stage1_rpmlist. apply appends_bind; [apply appends_open_r|intros fh].
  apply appends_bind; [by apply appends_same|intros text]. apply appends_ret.
Qed.

Lemma appends_write_package_list_file stage exclude_list :
  "rpm" ∈ progs → appends Q (write_package_list_file X stage exclude_list).
Proof.
  intros Hin. unfold write_package_list_file, rpm_qa_cmd.
  apply appends_bind; [by apply appends_spawn|intros proc].
  apply appends_if; [apply appends_raise|].
  apply appends_bind; [apply appends_open_w|intros fh]. by apply appends_same.
Qed.

Lemma appends_install_packages stage packages repofile dver basearch extra_repos :
  "rpm" ∈ progs →
  appends Q (install_packages X stage packages repofile dver basearch extra_repos).
Proof.
  intros Hin. unfold install_packages. apply appends_bind.
  - apply appends_with; [apply appends_call_helper|intros e; apply appends_call_helper|].
    intros _.
    apply appends_with; [apply appends_call_helper|intros e; apply appends_call_helper|].
    intros _. apply appends_call_helper.
  - intros _.
    assert (appends Q (for_each
              (items match packages with ArgStr s => ArgList [s] | _ => packages end)
              (λ pkg,
                 if startswith "@" pkg then ret tt
                 else
                   installed ← package_installed X stage pkg;
                   if negb installed
                   then raise (Error (repr X pkg +:+ " not installed after yum install"))
                   else ret tt))) as Hloop.
    { apply appends_for_each. intros pkg.
      apply appends_if; [apply appends_ret|].
      apply appends_bind; [by apply appends_package_installed|intros b].
      apply appends_if; [apply appends_raise|apply appends_ret]. }
    destruct packages; [apply appends_raise|exact Hloop..].
Qed.

Lemma appends_patch_installed_packages stage dirs dver :
  "patch" ∈ progs → appends Q (patch_installed_packages X stage dirs dver).
Proof.
  intros Hin. unfold patch_installed_packages.
  apply appends_bind; [by apply appends_same|intros w].
  apply appends_bind; [by apply appends_same|intros oldwd].
  apply appends_try_finally; [|apply appends_os_chdir].
  apply appends_bind; [apply appends_os_chdir|intros _].
  apply appends_bind; [|intros files].
  { unfold collect_patch_files. apply appends_bind; [by apply appends_same|intros w'].
    apply appends_ret. }
  apply appends_for_each. intros f. unfold apply_patch, patch_cmd.
  apply appends_bind; [apply appends_statusmsg|intros _].
  apply appends_bind; [by apply appends_subprocess_call|intros err].
  apply appends_if; [apply appends_raise|apply appends_ret].
Qed.

Lemma appends_fix_osg_version stage relnum : appends Q (fix_osg_version X stage relnum).
Proof.
  unfold fix_osg_version. apply appends_bind.
  - apply appends_bind; [apply appends_open_r|intros fh].
    apply appends_bind; [by apply appends_same|intros v].
    apply appends_if; [apply appends_raise|].
    apply appends_if; [apply appends_raise|apply appends_ret].
  - intros v. apply appends_bind; [apply appends_open_w|intros fh]. by apply appends_same.
Qed.

Lemma appends_fix_gsissh_config_dir stage : appends Q (fix_gsissh_config_dir X stage).
Proof.
  unfold fix_gsissh_config_dir. apply appends_bind; [by apply appends_same|intros d].
  apply appends_if; [apply appends_ret|].
  apply appends_try_except; [|intros e; apply appends_raise].
  apply appends_bind; [apply appends_call_helper|intros _]. apply appends_os_symlink.
Qed.

Lemma appends_copy_osg_post_scripts stage post_scripts_dir dver basearch :
  appends Q (copy_osg_post_scripts X stage post_scripts_dir dver basearch).
Proof.
  unfold copy_osg_post_scripts. apply appends_bind; [by apply appends_same|intros d].
  apply appends_if; [apply appends_raise|].
  apply appends_bind; [by apply appends_same|intros p].
  apply appends_bind; [apply appends_call_helper|intros _].
  apply appends_bind.
  - apply appends_for_each. intros name.
    apply appends_try_except; [|intros e; apply appends_raise].
    apply appends_bind; [apply appends_shutil_copyfile|intros _]. apply appends_os_chmod.
  - intros _. apply appends_try_except; [apply appends_call_helper|].
    intros e. apply appends_raise.
Qed.

Lemma appends__write_exclude_list in_path out_path prepend_dir extras :
  appends Q (_write_exclude_list in_path out_path prepend_dir extras).
Proof.
  unfold _write_exclude_list. apply appends_bind.
  { apply appends_if; [apply appends_ret|apply appends_raise]. }
  intros _. apply appends_bind.
  - apply appends_bind; [apply appends_open_r|intros in_fh].
    apply appends_bind; [apply appends_open_w|intros out_fh].
    apply appends_bind; [by apply appends_same|intros lines].
    apply appends_for_each. intros line. by apply appends_same.
  - intros _. apply appends_if; [|apply appends_ret].
    apply appends_bind; [apply appends_open_a|intros out_fh].
    apply appends_for_each. intros excl. by apply appends_same.
Qed.

Lemma appends_tar_stage_dir stage tarball :
  "tar" ∈ progs → appends Q (tar_stage_dir X stage tarball).
Proof.
  intros Hin. unfold tar_stage_dir. apply appends_bind; [by apply appends_same|intros t].
  apply appends_bind; [by apply appends_same|intros is_file].
  apply (appends_bind_val _ (λ cmd, ∃ args, cmd = "tar" :: args)).
  - apply appends_if; [|apply appends_ret].
    apply appends_bind; [apply appends__write_exclude_list|intros _]. apply appends_ret.
  - intros w cmd w' Hcmd. destruct is_file.
    + apply bind_Ret_inv in Hcmd as (_ & w1 & _ & Hret). injection Hret as <- _. eauto.
    + injection Hcmd as <- _. eauto.
  - intros cmd [args ->]. apply appends_bind; [by apply appends_subprocess_call|intros err].
    apply appends_if; [apply appends_raise|apply appends_ret].
Qed.

Lemma appends_fix_alternatives_symlinks stage : appends Q (fix_alternatives_symlinks stage).
Proof.
  unfold fix_alternatives_symlinks. apply appends_os_walk. intros root dirs files.
  apply appends_for_each. intros afile. unfold fix_alternatives_symlink.
  apply appends_bind; [by apply appends_same|intros l1].
  apply appends_if; [apply appends_ret|].
  apply appends_bind; [apply appends_os_readlink|intros linkpath].
  apply appends_if; [apply appends_ret|].
  apply appends_bind; [by apply appends_same|intros l2].
  apply appends_if; [by apply appends_emit|].
  apply appends_bind; [apply appends_os_readlink|intros alt].
  apply appends_bind; [by apply appends_same|intros found].
  apply appends_if; [by apply appends_emit|].
  apply appends_bind; [apply appends_os_path_relpath|intros new].
  apply appends_bind; [apply appends_os_unlink|intros _]. apply appends_os_symlink.
Qed.

Lemma appends_fix_permissions stage : "chmod" ∈ progs → appends Q (fix_permissions X stage).
Proof. intros Hin. by apply appends_subprocess_call. Qed.

Lemma appends_remove_empty_dirs_from_tarball tarball topdir recreate_dirs :
  "tar" ∈ progs → "find" ∈ progs →
  appends Q (remove_empty_dirs_from_tarball X tarball topdir recreate_dirs).
Proof.
  intros Htar Hfind. unfold remove_empty_dirs_from_tarball.
  apply appends_bind; [by apply appends_same|intros t].
  apply appends_bind; [|intros d].
  { apply appends_same. intros w. unfold tempfile_mkdtemp. by destruct (_ !! _). }
  apply appends_bind; [by apply appends_same|intros oldcwd].
  apply appends_try_finally.
  - apply appends_bind; [apply appends_os_chdir|intros _].
    apply appends_bind; [by apply appends_subprocess_check_call|intros _].
    apply appends_bind; [by apply appends_subprocess_call|intros _].
    apply appends_bind; [|intros _].
    { apply appends_for_each. intros rdir. apply appends_call_helper. }
    apply appends_bind; [by apply appends_subprocess_check_call|intros _].
    apply appends_shutil_copy.
  - apply appends_bind; [apply appends_os_chdir|intros _]. apply appends_shutil_rmtree.
Qed.

Lemma appends_make_stage2_tarball stage_dir packages tarball patch_dirs post_scripts_dir
    repofile dver basearch relnum extra_repos :
  "rpm" ∈ progs → "chmod" ∈ progs → "tar" ∈ progs → "find" ∈ progs →
  (is_None patch_dirs = false → "patch" ∈ progs) →
  appends Q (make_stage2_tarball X stage_dir packages tarball patch_dirs post_scripts_dir
               repofile dver basearch relnum extra_repos).
Proof.
  intros Hrpm Hchmod Htar Hfind Hpatch. unfold make_stage2_tarball, _statusmsg.
  apply appends_bind; [apply appends_statusmsg|intros _].
  apply appends_bind; [by apply appends_same|intros stage_dir_abs].
  apply appends_try_except; cycle 1.
  { intros e. apply appends_bind; [by apply appends_emit|intros _]. apply appends_ret. }
  unfold stage2_steps. apply appends_bind.
  - unfold stage2_steps_fixups, _statusmsg.
    apply appends_bind; [apply appends_statusmsg|intros _].
    apply appends_bind; [by apply appends_install_packages|intros _].
    apply appends_bind; [|intros _].
    { destruct (is_None patch_dirs) eqn:Hn; cbn [negb]; [apply appends_ret|].
      apply appends_bind; [apply appends_statusmsg|intros _].
      apply appends_patch_installed_packages. by apply Hpatch. }
    apply appends_bind; [by apply appends_package_installed|intros i1].
    apply appends_bind; [|intros _].
    { apply appends_if; [|apply appends_ret].
      apply appends_bind; [apply appends_statusmsg|intros _].
      apply appends_fix_gsissh_config_dir. }
    apply appends_bind; [by apply appends_package_installed|intros i2].
    apply appends_bind; [|intros _].
    { apply appends_if; [|apply appends_ret].
      apply appends_bind; [apply appends_statusmsg|intros _]. apply appends_fix_osg_version. }
    apply appends_bind; [apply appends_statusmsg|intros _].
    apply appends_bind; [apply appends_fix_alternatives_symlinks|intros _].
    apply appends_bind; [apply appends_statusmsg|intros _].
    apply appends_bind; [apply appends_copy_osg_post_scripts|intros _].
    apply appends_get_stage1_rpmlist.
  - intros stage1_rpmlist. unfold stage2_steps_packaging, _statusmsg.
    apply appends_bind; [apply appends_statusmsg|intros _].
    apply appends_bind; [by apply appends_write_package_list_file|intros _].
    apply appends_bind; [apply appends_statusmsg|intros _].
    apply appends_bind; [by apply appends_fix_permissions|intros _].
    apply appends_bind; [apply appends_statusmsg|intros _].
    apply appends_bind; [by apply appends_tar_stage_dir|intros _].
    apply appends_bind; [apply appends_statusmsg|intros _].
    apply appends_bind; [by apply appends_package_installed|intros i3].
    apply appends_bind; [by apply appends_remove_empty_dirs_from_tarball|intros _].
    apply appends_ret.
Qed.

End processes.

(** The events of a run of [make_stage2_tarball] come behind those that
    were there, and the child processes the program itself starts (with
    [subprocess]; what the helper modules start is theirs) are [rpm],
    [patch], [chmod], [tar] and [find] and no other program, whatever
    the tools and helpers do, and whether the run returns or raises.
    When [patch_dirs] is [None], [patch] is not among them. *)
Theorem make_stage2_tarball_processes X stage_dir packages tarball patch_dirs
    post_scripts_dir repofile dver basearch relnum extra_repos w :
  let run := make_stage2_tarball X stage_dir packages tarball patch_dirs post_scripts_dir
               repofile dver basearch relnum extra_repos w in
  ∃ evs, w_trace run.2 = w_trace w ++ evs
    ∧ Forall (starts (if is_None patch_dirs then ["rpm"; "chmod"; "tar"; "find"]
                      else ["rpm"; "patch"; "chmod"; "tar"; "find"])) evs.
Proof.
  intros run.
  apply (appends_make_stage2_tarball X
           (if is_None patch_dirs then ["rpm"; "chmod"; "tar"; "find"]
            else ["rpm"; "patch"; "chmod"; "tar"; "find"]));
    try (destruct (is_None patch_dirs); apply list_elem_of_In; cbn; tauto).
  intros ->. apply list_elem_of_In; cbn; tauto.
Qed.

